(** * Accountability calendars: the date engine, the page renderer and the
      three calendar variants of [generate.py], embedded and verified.

    Python values are modelled as follows.
    - [int] is [Z]; [//] and [%] on a positive divisor are [Z.div] and
      [Z.modulo].
    - [str] is [string]: characters are the code points below 256, on which
      the regular-expression class [\d] is exactly the ASCII digits.
    - [datetime] is a record of its seven fields; its arithmetic is the one of
      CPython's [datetime] module (proleptic Gregorian ordinals, years 1 to
      9999, [OverflowError] outside).
    - an exception is a value of [exn]; a call that may raise returns a
      [result]. *)

From stdpp Require Import base option list gmap strings.
From Stdlib Require Import ZArith Lia Bool String Ascii DecimalString List.
From Stdlib Require Import Floats.
Import ListNotations.
Local Open Scope Z_scope.

(** ** Exceptions and results *)

Inductive exn : Type :=
  | ValueError (msg : string)
  | OverflowError
  | IndexError
  | ZeroDivisionError
  | FileExistsError
  | IsADirectoryError.

Inductive result (A : Type) : Type :=
  | Ok (a : A)
  | Raise (e : exn).
Arguments Ok {A} a.
Arguments Raise {A} e.

(** Sequencing of calls that may raise: the first exception aborts. *)
#[export] Instance result_ret : MRet result := fun _ a => Ok a.
#[export] Instance result_bind : MBind result := fun _ _ k r =>
  match r with
  | Ok a => k a
  | Raise e => Raise e
  end.

(** ** The [datetime] module *)

Module Datetime.

Record datetime : Type := mk_datetime {
  year : Z;
  month : Z;
  day : Z;
  hour : Z;
  minute : Z;
  second : Z;
  microsecond : Z
}.

(** [datetime(y, m, d)]: midnight of that day. *)
Definition date_at (y m d : Z) : datetime := mk_datetime y m d 0 0 0 0.

Record timedelta : Type := mk_timedelta {
  td_days : Z;
  td_seconds : Z;
  td_microseconds : Z
}.

(** [timedelta(days=n)] and [timedelta(weeks=n)]; a week is seven days. *)
Definition timedelta_days (n : Z) : timedelta := mk_timedelta n 0 0.
Definition timedelta_weeks (n : Z) : timedelta := mk_timedelta (7 * n) 0 0.

Definition MINYEAR : Z := 1.
Definition MAXYEAR : Z := 9999.
(** [date(9999, 12, 31).toordinal()] *)
Definition MAXORDINAL : Z := 3652059.

Definition is_leap (y : Z) : bool :=
  (y mod 4 =? 0) && (negb (y mod 100 =? 0) || (y mod 400 =? 0)).

(** [_DAYS_IN_MONTH], indexed from 1. *)
Definition DAYS_IN_MONTH (m : Z) : Z :=
  match m with
  | 1 => 31 | 2 => 28 | 3 => 31 | 4 => 30 | 5 => 31 | 6 => 30
  | 7 => 31 | 8 => 31 | 9 => 30 | 10 => 31 | 11 => 30 | 12 => 31
  | _ => -1
  end.

(** [_DAYS_BEFORE_MONTH], indexed from 1. *)
Definition DAYS_BEFORE_MONTH (m : Z) : Z :=
  match m with
  | 1 => 0 | 2 => 31 | 3 => 59 | 4 => 90 | 5 => 120 | 6 => 151
  | 7 => 181 | 8 => 212 | 9 => 243 | 10 => 273 | 11 => 304 | 12 => 334
  | _ => -1
  end.

Definition days_before_year (y : Z) : Z :=
  let y1 := y - 1 in
  y1 * 365 + y1 / 4 - y1 / 100 + y1 / 400.

Definition days_in_month (y m : Z) : Z :=
  if (m =? 2) && is_leap y then 29 else DAYS_IN_MONTH m.

Definition days_before_month (y m : Z) : Z :=
  DAYS_BEFORE_MONTH m + (if (2 <? m) && is_leap y then 1 else 0).

Definition ymd2ord (y m d : Z) : Z :=
  days_before_year y + days_before_month y m + d.

Definition DI400Y : Z := 146097.
Definition DI100Y : Z := 36524.
Definition DI4Y : Z := 1461.

(** [_ord2ymd]: the year, month and day of a proleptic Gregorian ordinal. *)
Definition ord2ymd (n0 : Z) : Z * Z * Z :=
  let n := n0 - 1 in
  let n400 := n / DI400Y in
  let n := n mod DI400Y in
  let y := n400 * 400 + 1 in
  let n100 := n / DI100Y in
  let n := n mod DI100Y in
  let n4 := n / DI4Y in
  let n := n mod DI4Y in
  let n1 := n / 365 in
  let n := n mod 365 in
  let y := y + n100 * 100 + n4 * 4 + n1 in
  if (n1 =? 4) || (n100 =? 4) then (y - 1, 12, 31)
  else
    let leapyear := (n1 =? 3) && (negb (n4 =? 24) || (n100 =? 3)) in
    let m := Z.shiftr (n + 50) 5 in
    let preceding :=
      DAYS_BEFORE_MONTH m + (if (2 <? m) && leapyear then 1 else 0) in
    if n <? preceding then
      let m' := m - 1 in
      let preceding' :=
        preceding
        - (DAYS_IN_MONTH m' + (if (m' =? 2) && leapyear then 1 else 0)) in
      (y, m', n - preceding' + 1)
    else (y, m, n - preceding + 1).

Definition toordinal (dt : datetime) : Z :=
  ymd2ord (year dt) (month dt) (day dt).

(** [dt.weekday()]: Monday is 0, Sunday is 6. *)
Definition weekday (dt : datetime) : Z := (toordinal dt + 6) mod 7.

(** The range checks of the [datetime] constructor. *)
Definition valid_ymd (y m d : Z) : bool :=
  (MINYEAR <=? y) && (y <=? MAXYEAR) && (1 <=? m) && (m <=? 12)
  && (1 <=? d) && (d <=? days_in_month y m).

Definition valid_time (h mi s us : Z) : bool :=
  (0 <=? h) && (h <? 24) && (0 <=? mi) && (mi <? 60)
  && (0 <=? s) && (s <? 60) && (0 <=? us) && (us <? 1000000).

Definition valid_datetime (dt : datetime) : bool :=
  valid_ymd (year dt) (month dt) (day dt)
  && valid_time (hour dt) (minute dt) (second dt) (microsecond dt).

(** [dt + td]: the time of day and the delta are added and carried into the
    day count; a day count outside 1..[MAXORDINAL] raises [OverflowError]. *)
Definition datetime_add (dt : datetime) (td : timedelta) : result datetime :=
  let us := microsecond dt + td_microseconds td in
  let s := hour dt * 3600 + minute dt * 60 + second dt + td_seconds td
           + us / 1000000 in
  let days := toordinal dt + td_days td + s / 86400 in
  let us' := us mod 1000000 in
  let s' := s mod 86400 in
  if (0 <? days) && (days <=? MAXORDINAL) then
    let '(y, m, d) := ord2ymd days in
    Ok (mk_datetime y m d (s' / 3600) ((s' mod 3600) / 60) (s' mod 60) us')
  else Raise OverflowError.

End Datetime.
Import Datetime.


(** ** Date engine of [generate.py] *)

(** [range(n)] *)
Definition range (n : nat) : list Z := map Z.of_nat (seq 0 n).

(** [get_next_monday], as a function of what [datetime.today()] returns. *)
Definition get_next_monday (today : datetime) : result datetime :=
  let days_ahead := (7 - weekday today) mod 7 in
  datetime_add today (timedelta_days days_ahead).

(** [generate_week_dates]: the loop over [range(10)] appends one week per
    round; the comprehension over [range(7)] builds the week. *)
Definition generate_week_dates (start_date : datetime)
  : result (list (list datetime)) :=
  mapM (fun week_num =>
          week_start ← datetime_add start_date (timedelta_weeks week_num);
          mapM (fun d => datetime_add week_start (timedelta_days d)) (range 7))
       (range 10).

(** The date [n] days after [dt], at the same time of day: what
    [dt + timedelta(days=n)] is when it does not overflow. *)
Definition plus_days (dt : datetime) (n : Z) : datetime :=
  let '(y, m, d) := ord2ymd (toordinal dt + n) in
  mk_datetime y m d (hour dt) (minute dt) (second dt) (microsecond dt).

(** ** Strings *)

Definition code (c : ascii) : Z := Z.of_N (N_of_ascii c).

Definition is_digit (c : ascii) : bool := (48 <=? code c) && (code c <=? 57).

(** [str.isspace] on the code points below 256. *)
Definition is_space (c : ascii) : bool :=
  let n := code c in
  ((9 <=? n) && (n <=? 13)) || ((28 <=? n) && (n <=? 32))
  || (n =? 133) || (n =? 160).

Fixpoint lstrip (s : string) : string :=
  match s with
  | String c s' => if is_space c then lstrip s' else s
  | EmptyString => EmptyString
  end.

Fixpoint rstrip (s : string) : string :=
  match s with
  | String c s' =>
      match rstrip s' with
      | EmptyString => if is_space c then EmptyString else String c EmptyString
      | t => String c t
      end
  | EmptyString => EmptyString
  end.

(** [s.strip()] *)
Definition strip (s : string) : string := rstrip (lstrip s).

Fixpoint repeat_char (c : ascii) (n : nat) : string :=
  match n with
  | O => EmptyString
  | S n' => String c (repeat_char c n')
  end.

(** [s.zfill(width)] on a string without sign. *)
Definition zfill (width : nat) (s : string) : string :=
  (repeat_char "0" (width - String.length s) ++ s)%string.

(** [s.split(sep)] for a one-character separator. *)
Fixpoint split_on (sep : ascii) (s : string) : list string :=
  match s with
  | EmptyString => [EmptyString]
  | String c s' =>
      if Ascii.eqb c sep then EmptyString :: split_on sep s'
      else match split_on sep s' with
           | f :: fs => String c f :: fs
           | [] => [String c EmptyString]
           end
  end.

(** [needle in hay] *)
Fixpoint contains (needle hay : string) : bool :=
  String.prefix needle hay
  || match hay with
     | String _ hay' => contains needle hay'
     | EmptyString => false
     end.

Fixpoint int_digits (acc : Z) (s : string) : option Z :=
  match s with
  | EmptyString => Some acc
  | String c s' =>
      if is_digit c then int_digits (10 * acc + (code c - 48)) s' else None
  end.

(** [int(s)] on the literals [strptime] passes to it: blanks around a
    non-empty run of decimal digits. Any other string is rejected here (signs
    and underscores never reach this call). *)
Definition py_int (s : string) : result Z :=
  match strip s with
  | EmptyString => Raise (ValueError "invalid literal for int()")
  | t => match int_digits 0 t with
         | Some z => Ok z
         | None => Raise (ValueError "invalid literal for int()")
         end
  end.

(** [str(n)] for an [int]. *)
Definition str (n : Z) : string := NilZero.string_of_int (Z.to_int n).

Definition digit_char (n : Z) : ascii := ascii_of_N (Z.to_N (48 + n)).

(** The ["%02d"] of [strftime], for a field between 0 and 99. *)
Definition two_digits (n : Z) : string :=
  String (digit_char (n / 10)) (String (digit_char (n mod 10)) EmptyString).

(** [x[i]] on a list: negative indices count from the end, and an index out
    of range raises [IndexError]. *)
Definition py_index {A} (l : list A) (i : Z) : result A :=
  let n := Z.of_nat (List.length l) in
  let j := if i <? 0 then n + i else i in
  if (0 <=? j) && (j <? n) then
    match l !! Z.to_nat j with
    | Some a => Ok a
    | None => Raise IndexError
    end
  else Raise IndexError.

(** ** [datetime.strptime] *)

(** The regular expressions [_strptime] builds from a format. *)
Inductive regex : Type :=
  | Lit (c : ascii)
  | Range (lo hi : ascii)
  | Digit
  | Seq (r1 r2 : regex)
  | Alt (r1 r2 : regex)
  | Group (name : string) (r : regex).

(** What a match has consumed: [s] without its suffix [rest]. *)
Definition consumed (s rest : string) : string :=
  substring 0 (String.length s - String.length rest) s.

(** Backtracking matcher with a continuation: alternatives are tried in
    order, and the first way through the whole expression wins. The
    environment lists the groups matched so far, the last one first. *)
Fixpoint rmatch {A} (r : regex) (s : string) (env : list (string * string))
    (k : string -> list (string * string) -> option A) : option A :=
  match r with
  | Lit c =>
      match s with
      | String c' s' => if Ascii.eqb c c' then k s' env else None
      | EmptyString => None
      end
  | Range lo hi =>
      match s with
      | String c' s' =>
          if (code lo <=? code c') && (code c' <=? code hi) then k s' env
          else None
      | EmptyString => None
      end
  | Digit =>
      match s with
      | String c' s' => if is_digit c' then k s' env else None
      | EmptyString => None
      end
  | Seq r1 r2 => rmatch r1 s env (fun s' env' => rmatch r2 s' env' k)
  | Alt r1 r2 =>
      match rmatch r1 s env k with
      | Some a => Some a
      | None => rmatch r2 s env k
      end
  | Group name r1 =>
      rmatch r1 s env (fun s' env' => k s' ((name, consumed s s') :: env'))
  end.

(** [%m]: [1[0-2]|0[1-9]|[1-9]] *)
Definition re_m : regex :=
  Alt (Seq (Lit "1") (Range "0" "2"))
      (Alt (Seq (Lit "0") (Range "1" "9")) (Range "1" "9")).

(** [%d]: [3[0-1]|[1-2]\d|0[1-9]|[1-9]| [1-9]] *)
Definition re_d : regex :=
  Alt (Seq (Lit "3") (Range "0" "1"))
      (Alt (Seq (Range "1" "2") Digit)
           (Alt (Seq (Lit "0") (Range "1" "9"))
                (Alt (Range "1" "9") (Seq (Lit " ") (Range "1" "9"))))).

(** [%Y]: [\d\d\d\d] *)
Definition re_Y : regex := Seq Digit (Seq Digit (Seq Digit Digit)).

(** The expression of the format ["%m/%d/%Y"]. *)
Definition format_regex : regex :=
  Seq (Group "m" re_m)
      (Seq (Lit "/") (Seq (Group "d" re_d) (Seq (Lit "/") (Group "Y" re_Y)))).

Fixpoint group (name : string) (env : list (string * string)) : string :=
  match env with
  | [] => EmptyString
  | (n, v) :: env' => if String.eqb n name then v else group name env'
  end.

(** [datetime.strptime(data_string, "%m/%d/%Y")]: the expression must match
    at the start and consume the whole string; the three groups are read with
    [int] and passed to the [datetime] constructor. Every failure is a
    [ValueError] (the messages of the library are abridged). *)
Definition strptime (data_string : string) : result datetime :=
  match rmatch format_regex data_string [] (fun rest env => Some (rest, env))
  with
  | None => Raise (ValueError "time data does not match format")
  | Some (rest, env) =>
      match rest with
      | String _ _ => Raise (ValueError "unconverted data remains")
      | EmptyString =>
          y ← py_int (group "Y" env);
          m ← py_int (group "m" env);
          d ← py_int (group "d" env);
          if valid_ymd y m d then Ok (date_at y m d)
          else Raise (ValueError "date value out of range")
      end
  end.

Definition FORMAT_MSG : string := "Invalid date format. Please use MM/DD/YYYY.".
Definition MONDAY_MSG : string := "Date must be a Monday.".

(** [validate_date]: only the [ValueError] of [strptime] is caught. *)
Definition validate_date (date_str : string) : result datetime :=
  match strptime date_str with
  | Raise (ValueError _) => Raise (ValueError FORMAT_MSG)
  | Raise e => Raise e
  | Ok dt =>
      if negb (weekday dt =? 0) then Raise (ValueError MONDAY_MSG)
      else Ok dt
  end.

(** [format_date]: [dt.strftime("%m/%d")]. *)
Definition format_date (dt : datetime) : string :=
  (two_digits (month dt) ++ "/" ++ two_digits (day dt))%string.


(** The strings of [%m], [%d] and [%Y], spelled out. *)
Definition in_range (lo hi c : ascii) : bool :=
  (code lo <=? code c) && (code c <=? code hi).

Definition month_field (f : string) : bool :=
  match f with
  | String a EmptyString => in_range "1" "9" a
  | String a (String b EmptyString) =>
      (Ascii.eqb a "1" && in_range "0" "2" b)
      || (Ascii.eqb a "0" && in_range "1" "9" b)
  | _ => false
  end.

Definition day_field (f : string) : bool :=
  match f with
  | String a EmptyString => in_range "1" "9" a
  | String a (String b EmptyString) =>
      (Ascii.eqb a "3" && in_range "0" "1" b)
      || (in_range "1" "2" a && is_digit b)
      || (Ascii.eqb a "0" && in_range "1" "9" b)
      || (Ascii.eqb a " " && in_range "1" "9" b)
  | _ => false
  end.

Definition year_field (f : string) : bool :=
  match f with
  | String a (String b (String c (String d EmptyString))) =>
      is_digit a && is_digit b && is_digit c && is_digit d
  | _ => false
  end.

(** The shape [validate_date] lets through: a month from 1 to 12 and a day
    from 1 to 31 in one or two characters (the leading zero is optional, and
    a blank may stand for it in the day), and four digits of year, with a
    slash between them. *)
Definition date_shape (date_str : string) : bool :=
  match split_on "/" date_str with
  | [ms; ds; ys] => month_field ms && day_field ds && year_field ys
  | _ => false
  end.

(** The strict shape [MM/DD/YYYY]: two digits, two digits and four digits
    around two slashes. *)
Definition strict_shape (date_str : string) : bool :=
  match split_on "/" date_str with
  | [ms; ds; ys] =>
      month_field ms && day_field ds && year_field ys
      && (String.length ms =? 2)%nat && (String.length ds =? 2)%nat
      && negb (String.prefix " " ds)
  | _ => false
  end.

Fixpoint no_slash (s : string) : bool :=
  match s with
  | EmptyString => true
  | String c s' => negb (Ascii.eqb c "/") && no_slash s'
  end.

(** Exhaustive tests over the 256 characters. *)
Definition forall_bool (f : bool -> bool) : bool := f true && f false.

Definition forall_ascii (f : ascii -> bool) : bool :=
  forall_bool (fun b0 => forall_bool (fun b1 => forall_bool (fun b2 =>
  forall_bool (fun b3 => forall_bool (fun b4 => forall_bool (fun b5 =>
  forall_bool (fun b6 => forall_bool (fun b7 =>
    f (Ascii b0 b1 b2 b3 b4 b5 b6 b7))))))))).

(** What is checked of a month or day field: [int] reads a number in it, the
    two digits [strftime] prints for that number are the field padded with
    zeros, a field of two digits is printed as it is, and no slash occurs. *)
Definition field_ok (lo hi : Z) (f : string) : bool :=
  match py_int f with
  | Ok n =>
      (lo <=? n) && (n <=? hi)
      && String.eqb (two_digits n) (zfill 2 (strip f))
      && no_slash f
      && ((negb (String.length f =? 2)%nat) || String.prefix " " f
          || String.eqb (two_digits n) f)
  | Raise _ => false
  end.

(** What a string of that shape denotes: the date its three fields spell, when
    there is such a day. *)
Definition parsed_date (date_str : string) : option datetime :=
  match split_on "/" date_str with
  | [ms; ds; ys] =>
      if month_field ms && day_field ds && year_field ys then
        match py_int ys, py_int ms, py_int ds with
        | Ok y, Ok m, Ok d =>
            if valid_ymd y m d then Some (date_at y m d) else None
        | _, _, _ => None
        end
      else None
  | _ => None
  end.

(** What a regular expression matches: the string consumed, and the groups
    before and after. *)
Inductive matches : regex -> string -> list (string * string)
                    -> list (string * string) -> Prop :=
  | matches_Lit c env :
      matches (Lit c) (String c EmptyString) env env
  | matches_Range lo hi c env :
      in_range lo hi c = true ->
      matches (Range lo hi) (String c EmptyString) env env
  | matches_Digit c env :
      is_digit c = true ->
      matches Digit (String c EmptyString) env env
  | matches_Seq r1 r2 p1 p2 env env1 env2 :
      matches r1 p1 env env1 ->
      matches r2 p2 env1 env2 ->
      matches (Seq r1 r2) (p1 ++ p2)%string env env2
  | matches_Alt_l r1 r2 p env env1 :
      matches r1 p env env1 ->
      matches (Alt r1 r2) p env env1
  | matches_Alt_r r1 r2 p env env1 :
      matches r2 p env env1 ->
      matches (Alt r1 r2) p env env1
  | matches_Group name r p env env1 :
      matches r p env env1 ->
      matches (Group name r) p env ((name, p) :: env1).

(** ** Paths and the file system *)

Definition startswith_slash (s : string) : bool :=
  match s with
  | String c _ => Ascii.eqb c "/"
  | EmptyString => false
  end.

Fixpoint endswith_slash (s : string) : bool :=
  match s with
  | EmptyString => false
  | String c EmptyString => Ascii.eqb c "/"
  | String _ s' => endswith_slash s'
  end.

(** [os.path.join(a, b)] of [posixpath]. *)
Definition path_join (a b : string) : string :=
  if startswith_slash b then b
  else match a with
       | EmptyString => b
       | _ => if endswith_slash a then (a ++ b)%string
              else (a ++ "/" ++ b)%string
       end.

(** What a path names: a directory, or a file with its content. *)
Inductive fs_node (D : Type) : Type :=
  | Dir
  | File (content : D).
Arguments Dir {D}.
Arguments File {D} content.

(** [os.makedirs(path, exist_ok=True)]: an existing directory is left as it
    is; a file in its place raises. (The ancestors of [path] are not
    modelled.) *)
Definition makedirs_exist_ok {D} (path : string) (fs : gmap string (fs_node D))
  : result unit * gmap string (fs_node D) :=
  match fs !! path with
  | Some Dir => (Ok (), fs)
  | Some (File _) => (Raise FileExistsError, fs)
  | None => (Ok (), <[path := Dir]> fs)
  end.

(** Writing a document to [path]: a file there is replaced; a directory
    there raises. *)
Definition write_file {D} (path : string) (doc : D)
    (fs : gmap string (fs_node D)) : result unit * gmap string (fs_node D) :=
  match fs !! path with
  | Some Dir => (Raise IsADirectoryError, fs)
  | _ => (Ok (), <[path := File doc]> fs)
  end.

(** ** The [FPDF] object *)

(** The arithmetic of [float], kept abstract: [of_int] is the conversion of
    an [int] operand, [float_lit n d] the literal of value [n/d]. *)
Class FloatOps (num : Type) : Type := {
  of_int : Z -> num;
  float_lit : Z -> Z -> num;
  add : num -> num -> num;
  sub : num -> num -> num;
  mul : num -> num -> num;
  div : num -> num -> num
}.

Record font : Type := mk_font {
  family : string;
  style : string;
  size : Z
}.

Definition color : Type := Z * Z * Z.

Definition DAY_NAMES : list string :=
  ["Mon"; "Tue"; "Wed"; "Thu"; "Fri"; "Sat"; "Sun"]%string.
Definition FONT_FAMILY : string := "Helvetica".
Definition COLOR_LIGHT_BLUE : color := (173, 216, 230).
Definition COLOR_PEACH : color := (255, 218, 185).

Section Renderer.

Context {num : Type} `{FloatOps num}.

(** What reaches the page: a rectangle with its style (["D"] stroked,
    ["FD"] filled and stroked) and the fill colour in force, or a text in a
    box with its alignment and the font in force. *)
Inductive draw_op : Type :=
  | DrawRect (x y w h : num) (rect_style : string) (fill : color)
  | DrawText (x y w h : num) (text : string) (align : string) (f : font).

Record FPDF : Type := mk_FPDF {
  orientation : string;
  unit_ : string;
  page_format : string;
  auto_page_break : bool;
  pages : Z;
  cur_font : font;
  fill_color : color;
  cur_x : num;
  cur_y : num;
  content : list draw_op
}.

(** [pdf.get_string_width], by the metrics of the font in force. *)
Variable string_width : font -> string -> num.

(** A method call on the [pdf] object: it may raise, and what it did to the
    object before stays done. *)
Definition pdfM (A : Type) : Type := FPDF -> result A * FPDF.

#[export] Instance pdfM_ret : MRet pdfM := fun _ a pdf => (Ok a, pdf).
#[export] Instance pdfM_bind : MBind pdfM := fun _ _ k m pdf =>
  match m pdf with
  | (Ok a, pdf') => k a pdf'
  | (Raise e, pdf') => (Raise e, pdf')
  end.

(** A call that may raise without touching the object. *)
Definition lift {A} (r : result A) : pdfM A := fun pdf => (r, pdf).

(** [FPDF(orientation, unit, format)]: no page, no text yet; the cursor and
    the font are set by the caller before use. *)
Definition new_FPDF (o u f : string) : FPDF :=
  mk_FPDF o u f true 0 (mk_font "" "" 12) (0, 0, 0) (of_int 0) (of_int 0) [].

Definition add_page : pdfM unit := fun pdf =>
  (Ok (), mk_FPDF (orientation pdf) (unit_ pdf) (page_format pdf)
            (auto_page_break pdf) (pages pdf + 1) (cur_font pdf)
            (fill_color pdf) (cur_x pdf) (cur_y pdf) (content pdf)).

Definition set_auto_page_break (auto : bool) : pdfM unit := fun pdf =>
  (Ok (), mk_FPDF (orientation pdf) (unit_ pdf) (page_format pdf)
            auto (pages pdf) (cur_font pdf)
            (fill_color pdf) (cur_x pdf) (cur_y pdf) (content pdf)).

Definition set_font (fam sty : string) (sz : Z) : pdfM unit := fun pdf =>
  (Ok (), mk_FPDF (orientation pdf) (unit_ pdf) (page_format pdf)
            (auto_page_break pdf) (pages pdf) (mk_font fam sty sz)
            (fill_color pdf) (cur_x pdf) (cur_y pdf) (content pdf)).

Definition set_fill_color (c : color) : pdfM unit := fun pdf =>
  (Ok (), mk_FPDF (orientation pdf) (unit_ pdf) (page_format pdf)
            (auto_page_break pdf) (pages pdf) (cur_font pdf)
            c (cur_x pdf) (cur_y pdf) (content pdf)).

Definition set_xy (x y : num) : pdfM unit := fun pdf =>
  (Ok (), mk_FPDF (orientation pdf) (unit_ pdf) (page_format pdf)
            (auto_page_break pdf) (pages pdf) (cur_font pdf)
            (fill_color pdf) x y (content pdf)).

Definition emit (op : draw_op) (x : num) : pdfM unit := fun pdf =>
  (Ok (), mk_FPDF (orientation pdf) (unit_ pdf) (page_format pdf)
            (auto_page_break pdf) (pages pdf) (cur_font pdf)
            (fill_color pdf) x (cur_y pdf) (content pdf ++ [op])).

(** [pdf.rect(x, y, w, h, style)] *)
Definition rect (x y w h : num) (sty : string) : pdfM unit := fun pdf =>
  emit (DrawRect x y w h sty (fill_color pdf)) (cur_x pdf) pdf.

(** [pdf.cell(w, h, text, align=...)]: the box starts at the cursor, which
    then moves to its right edge. *)
Definition cell (w h : num) (text : string) (align : string) : pdfM unit :=
  fun pdf =>
    emit (DrawText (cur_x pdf) (cur_y pdf) w h text align (cur_font pdf))
         (add (cur_x pdf) w) pdf.

Definition get_string_width (s : string) : pdfM num := fun pdf =>
  (Ok (string_width (cur_font pdf) s), pdf).

(** A [for] loop whose body updates a local variable. *)
Fixpoint for_each {A S} (items : list A) (body : A -> S -> pdfM S) (s : S)
  : pdfM S :=
  match items with
  | [] => mret s
  | a :: rest => s' ← body a s; for_each rest body s'
  end.

(** [enumerate(l)], counting from [i]. *)
Fixpoint enumerate_from {A} (i : Z) (l : list A) : list (Z * A) :=
  match l with
  | [] => []
  | a :: rest => (i, a) :: enumerate_from (i + 1) rest
  end.

(** Truth value of an optional list: [None] and the empty list are false. *)
Definition truthy {A} (o : option (list A)) : option (list A) :=
  match o with
  | Some (a :: l) => Some (a :: l)
  | _ => None
  end.

Definition _draw_header_row (x_start y_start : Z) (col_widths : list num)
    (headers : list string) (has_total : bool) : pdfM unit :=
  let row_h := of_int 20 in
  _ ← for_each (zip headers col_widths)
        (fun '(header, w) x =>
           _ ← set_fill_color COLOR_LIGHT_BLUE;
           _ ← rect x (of_int y_start) w row_h "FD";
           _ ← set_xy x (of_int y_start);
           _ ← cell w row_h header "C";
           mret (add x w))
        (of_int x_start);
  mret ().

(** [_draw_week_row], block by block: the week number column returns the
    abscissa where the day columns start, and the day columns the one where the
    totals column starts. *)
Definition draw_week_number_column (x_start : Z) (y : num)
    (col_widths : list num) (week_num : Z) (row_h : num) : pdfM num :=
  let x := of_int x_start in
  _ ← set_fill_color COLOR_PEACH;
  w0 ← lift (py_index col_widths 0);
  _ ← rect x y w0 row_h "FD";
  _ ← set_xy x y;
  _ ← cell w0 row_h (str week_num) "C";
  mret (add x w0).

Definition draw_day_columns (x : num) (y : num) (col_widths : list num)
    (week_dates : list datetime) (row_h : num)
    (workout_labels : option (list string)) : pdfM num :=
  for_each (range 7)
    (fun day_idx x =>
       w ← lift (py_index col_widths (1 + day_idx));
       _ ← rect x y w row_h "D";
       (* Date in top-right corner *)
       dt ← lift (py_index week_dates day_idx);
       let date_str := format_date dt in
       _ ← set_font FONT_FAMILY "" 7;
       date_w ← get_string_width date_str;
       _ ← set_xy (sub (sub (add x w) date_w) (of_int 1)) (add y (of_int 5));
       _ ← cell date_w (of_int 5) date_str "R";
       (* Workout label centered in cell (if applicable) *)
       _ ← match truthy workout_labels with
           | Some labels =>
               _ ← set_font FONT_FAMILY "" 9;
               _ ← set_xy x (add y (of_int 5));
               label ← lift (py_index labels day_idx);
               cell w (sub row_h (of_int 5)) label "C"
           | None => mret ()
           end;
       mret (add x w))
    x.

Definition draw_total_column (x : num) (y : num) (col_widths : list num)
    (row_h : num) (has_total : bool) (total_content : option (list string))
  : pdfM unit :=
  if has_total then
    w ← lift (py_index col_widths (-1));
    _ ← rect x y w row_h "D";
    match truthy total_content with
    | Some lines =>
        _ ← set_font FONT_FAMILY "" 8;
        let line_h := div row_h (of_int (Z.of_nat (List.length lines))) in
        _ ← for_each (enumerate_from 0 lines)
              (fun '(li, line) (_ : unit) =>
                 _ ← set_xy (add x (of_int 2)) (add y (mul (of_int li) line_h));
                 cell (sub w (of_int 4)) line_h line "L")
              ();
        mret ()
    | None => mret ()
    end
  else mret ().

Definition _draw_week_row (x_start : Z) (y : num) (col_widths : list num)
    (week_num : Z) (week_dates : list datetime) (row_h : num)
    (has_total : bool) (total_content : option (list string))
    (workout_labels : option (list string)) : pdfM unit :=
  x ← draw_week_number_column x_start y col_widths week_num row_h;
  x ← draw_day_columns x y col_widths week_dates row_h workout_labels;
  draw_total_column x y col_widths row_h has_total total_content.

(** The loop over the weeks of [_create_calendar_pdf] (lines 145 to 149). *)
Definition draw_week_rows (x_start y_start header_h : Z)
    (col_widths : list num) (row_h : num)
    (week_dates_list : list (list datetime)) (has_total : bool)
    (total_content_fn : option (Z -> list string))
    (workout_labels : option (list string)) : pdfM unit :=
  for_each (enumerate_from 0 week_dates_list)
    (fun '(week_idx, week_dates) (_ : unit) =>
       let y := add (of_int (y_start + header_h))
                    (mul (of_int week_idx) row_h) in
       let total_content :=
         match total_content_fn with
         | Some fn => Some (fn week_idx)
         | None => None
         end in
       _draw_week_row x_start y col_widths (week_idx + 1) week_dates
         row_h has_total total_content workout_labels)
    ().

(** Lines 119 to 149 of [_create_calendar_pdf]: the page, drawn on a fresh
    object. The relative widths are [int]s, so their sum is exact and only a
    zero sum makes the division raise. *)
Definition calendar_page (headers : list string) (col_widths : list Z)
    (week_dates_list : list (list datetime)) (has_total : bool)
    (total_content_fn : option (Z -> list string))
    (workout_labels : option (list string)) : pdfM unit :=
  _ ← add_page;
  _ ← set_auto_page_break false;
  let page_w := 11 * 72 in
  let page_h := mul (float_lit 85 10) (of_int 72) in
  let margin := 20 in
  let total_col_w := page_w - 2 * margin in
  (* Scale col_widths to fit *)
  let raw_total := fold_left Z.add col_widths 0 in
  scale ← lift (if raw_total =? 0 then Raise ZeroDivisionError
                else Ok (div (of_int total_col_w) (of_int raw_total)));
  let col_widths := map (fun w => mul (of_int w) scale) col_widths in
  let header_h := 20 in
  let row_h :=
    div (sub (sub page_h (of_int (2 * margin))) (of_int header_h))
        (of_int 10) in
  let x_start := margin in
  let y_start := margin in
  (* Draw header *)
  _ ← set_font FONT_FAMILY "B" 10;
  _ ← _draw_header_row x_start y_start col_widths headers has_total;
  (* Draw week rows *)
  _ ← set_font FONT_FAMILY "" 10;
  draw_week_rows x_start y_start header_h col_widths row_h week_dates_list
    has_total total_content_fn workout_labels.

(** The directory of the script, as [os.path.abspath] gives it. *)
Variable SCRIPT_DIR : string.

Definition OUTPUT_DIR : string := path_join SCRIPT_DIR "output".

Definition file_system : Type := gmap string (fs_node FPDF).

(** [_create_calendar_pdf]: an exception while the page is drawn leaves the
    file system as it was. *)
Definition _create_calendar_pdf (filename : string) (headers : list string)
    (col_widths : list Z) (week_dates_list : list (list datetime))
    (has_total : bool) (total_content_fn : option (Z -> list string))
    (workout_labels : option (list string)) (fs : file_system)
  : result string * file_system :=
  match calendar_page headers col_widths week_dates_list has_total
          total_content_fn workout_labels (new_FPDF "L" "pt" "letter") with
  | (Raise e, _) => (Raise e, fs)
  | (Ok _, pdf) =>
      match makedirs_exist_ok OUTPUT_DIR fs with
      | (Raise e, fs1) => (Raise e, fs1)
      | (Ok _, fs1) =>
          let filepath := path_join OUTPUT_DIR filename in
          match write_file filepath pdf fs1 with
          | (Raise e, fs2) => (Raise e, fs2)
          | (Ok _, fs2) => (Ok filepath, fs2)
          end
      end
  end.

Definition generate_pages_read (start_date : datetime) (goal : Z)
    (fs : file_system) : result string * file_system :=
  let headers := ["Week"%string] ++ DAY_NAMES ++ ["TOTAL"%string] in
  let col_widths := [40] ++ replicate 7 90 ++ [80] in
  match generate_week_dates start_date with
  | Raise e => (Raise e, fs)
  | Ok week_dates_list =>
      let total_content (week_idx : Z) :=
        [("Goal: " ++ str goal)%string; "Actual:"%string] in
      _create_calendar_pdf "Pages Read.pdf" headers col_widths
        week_dates_list true (Some total_content) None fs
  end.

Definition generate_project_hours (start_date : datetime)
    (fs : file_system) : result string * file_system :=
  let headers := ["Week"%string] ++ DAY_NAMES ++ ["TOTAL"%string] in
  let col_widths := [40] ++ replicate 7 90 ++ [80] in
  match generate_week_dates start_date with
  | Raise e => (Raise e, fs)
  | Ok week_dates_list =>
      let total_content (week_idx : Z) :=
        ["Hours This Week:"%string; "Debt:"%string] in
      _create_calendar_pdf "Project Hours.pdf" headers col_widths
        week_dates_list true (Some total_content) None fs
  end.

Definition generate_workouts (start_date : datetime)
    (workout_labels : option (list string))
    (fs : file_system) : result string * file_system :=
  let headers := ["Week"%string] ++ DAY_NAMES in
  let col_widths := [40] ++ replicate 7 100 in
  match generate_week_dates start_date with
  | Raise e => (Raise e, fs)
  | Ok week_dates_list =>
      _create_calendar_pdf "Workouts.pdf" headers col_widths
        week_dates_list false None workout_labels fs
  end.

End Renderer.

(** ** The page, cell by cell *)

(** A cell of the grid as it reaches the page: its rectangle, and the texts
    drawn before the next rectangle, each with its alignment. *)
Record page_cell : Type := mk_cell {
  cell_style : string;
  cell_fill : color;
  cell_texts : list (string * string)
}.

Section Cells.

Context {num : Type}.

Fixpoint texts_until_rect (ops : list (@draw_op num)) : list (string * string) :=
  match ops with
  | DrawText _ _ _ _ text align _ :: rest =>
      (text, align) :: texts_until_rect rest
  | _ => []
  end.

Fixpoint cells_of (ops : list (@draw_op num)) : list page_cell :=
  match ops with
  | [] => []
  | DrawRect _ _ _ _ sty fill :: rest =>
      mk_cell sty fill (texts_until_rect rest) :: cells_of rest
  | DrawText _ _ _ _ _ _ _ :: rest => cells_of rest
  end.

End Cells.

Definition color_eqb (a b : color) : bool :=
  let '(r1, g1, b1) := a in
  let '(r2, g2, b2) := b in
  (r1 =? r2) && (g1 =? g2) && (b1 =? b2).

(** The label of a week-number cell is the text that follows its rectangle. *)
Definition week_number_rect (sty : string) (fill : color) : bool :=
  String.eqb sty "FD" && color_eqb fill COLOR_PEACH.

Fixpoint week_number_labels {num} (ops : list (@draw_op num)) : list string :=
  match ops with
  | [] => []
  | DrawRect _ _ _ _ sty fill :: rest =>
      (if week_number_rect sty fill then
         match rest with
         | DrawText _ _ _ _ text _ _ :: _ => [text]
         | _ => []
         end
       else [])
      ++ week_number_labels rest
  | DrawText _ _ _ _ _ _ _ :: rest => week_number_labels rest
  end.

(** The cells of the header row and of one week row, as the renderer is
    meant to fill them: centred labels on the header colour; the week number
    centred on the week-number colour; per day the date, right-aligned, and
    the label of the day if there is one, centred; the lines of the totals
    cell, left-aligned. *)
Definition header_cells (headers : list string) : list page_cell :=
  map (fun h => mk_cell "FD" COLOR_LIGHT_BLUE [(h, "C"%string)]) headers.

Definition day_cell (dt : datetime) (label : option string) : page_cell :=
  mk_cell "D" COLOR_PEACH
    ((format_date dt, "R"%string)
       :: match label with
          | Some l => [(l, "C"%string)]
          | None => []
          end).

Definition week_cells (week_num : Z) (week_dates : list datetime)
    (labels : option (list string)) (total : option (list string))
  : list page_cell :=
  [mk_cell "FD" COLOR_PEACH [(str week_num, "C"%string)]]
  ++ imap (fun d dt =>
             day_cell dt match labels with
                         | Some ls => ls !! d
                         | None => None
                         end) week_dates
  ++ match total with
     | Some lines =>
         [mk_cell "D" COLOR_PEACH (map (fun l => (l, "L"%string)) lines)]
     | None => []
     end.

Definition page_cells (headers : list string)
    (week_dates_list : list (list datetime))
    (labels : option (list string)) (total : option (Z -> list string))
  : list page_cell :=
  header_cells headers
  ++ concat (imap (fun w week_dates =>
                     week_cells (Z.of_nat w + 1) week_dates labels
                       match total with
                       | Some fn => Some (fn (Z.of_nat w))
                       | None => None
                       end) week_dates_list).

(** ** Double precision *)

(** The arithmetic of [float] by the primitive binary64 numbers. The
    conversion of an [int] is exact up to 2^53, which covers every constant of
    the program. *)
Definition float_of_int (z : Z) : PrimFloat.float :=
  match z with
  | Z0 => PrimFloat.zero
  | Zpos _ => PrimFloat.of_uint63 (Uint63.of_Z z)
  | Zneg p => PrimFloat.opp (PrimFloat.of_uint63 (Uint63.of_Z (Zpos p)))
  end.

#[export] Instance binary64 : FloatOps PrimFloat.float := {|
  of_int := float_of_int;
  float_lit n d := PrimFloat.div (float_of_int n) (float_of_int d);
  add := PrimFloat.add;
  sub := PrimFloat.sub;
  mul := PrimFloat.mul;
  div := PrimFloat.div
|}.

(** ** Tests over a range of integers *)

(** Bounded universal quantification over [n, n + k), as a test. *)
Fixpoint all_from (f : Z -> bool) (k : nat) (n : Z) : bool :=
  match k with
  | O => true
  | S k' => f n && all_from f k' (n + 1)
  end.

(** One 400-year cycle, ordinal by ordinal. *)
Definition cycle_ord_ok (n : Z) : bool :=
  let '(y, m, d) := ord2ymd n in
  (ymd2ord y m d =? n) && (1 <=? y) && (y <=? 400)
  && (1 <=? m) && (m <=? 12) && (1 <=? d) && (d <=? days_in_month y m)
  && ((145731 <? n) || (y <=? 399)).

(** One 400-year cycle, date by date. *)
Definition cycle_ymd_ok (y m d : Z) : bool :=
  negb (d <=? days_in_month y m)
  || (let n := ymd2ord y m d in
      (1 <=? n) && (n <=? DI400Y)
      && (let '(y', m', d') := ord2ymd n in
          (y' =? y) && (m' =? m) && (d' =? d))
      && ((400 <=? y) || (n <=? 145731))).



(** ** Vocabulary of the statements *)

(** The ten weeks in closed form. *)
Definition weeks_from (start : datetime) : list (list datetime) :=
  map (fun w => map (fun d => plus_days start (7 * w + d)) (range 7))
      (range 10).

(** Ten weeks of seven days: the shape of what [generate_week_dates]
    returns. *)
Definition ten_weeks (weeks : list (list datetime)) : Prop :=
  List.length weeks = 10%nat /\ Forall (fun wk => List.length wk = 7%nat) weeks.

(** The headers and relative widths of the two layouts, written out. *)
Definition HEADERS_TOTAL : list string :=
  ["Week"; "Mon"; "Tue"; "Wed"; "Thu"; "Fri"; "Sat"; "Sun"; "TOTAL"]%string.
Definition HEADERS_PLAIN : list string :=
  ["Week"; "Mon"; "Tue"; "Wed"; "Thu"; "Fri"; "Sat"; "Sun"]%string.
Definition WIDTHS_TOTAL : list Z := [40; 90; 90; 90; 90; 90; 90; 90; 80].
Definition WIDTHS_PLAIN : list Z := [40; 100; 100; 100; 100; 100; 100; 100].

(** What follows a month or a day is a slash: the continuation fails on any
    other character, so that a shorter alternative tried on backtracking
    fails as well. *)
Definition wants_slash {A}
    (k : string -> list (string * string) -> option A) : Prop :=
  forall c s env, code c <> 47 -> k (String c s) env = None.

Section PageVocabulary.

Context {num : Type} `{FloatOps num}.

Variable SCRIPT_DIR : string.



End PageVocabulary.

(** ** Concrete inputs, in double precision *)

(** A stand-in for the font metrics: half the font size per character. *)
Definition demo_string_width (f : font) (s : string) : PrimFloat.float :=
  PrimFloat.div
    (float_of_int (Z.of_nat (String.length s) * size f)) (float_of_int 2).

Definition demo_dir : string := "/home/reader/accountability-calendars"%string.

Definition demo_labels : list string :=
  ["4 Miles"; "Weights"; "Rest"; "4 Miles"; "Weights"; "Rest"; "Rest"]%string.

Definition demo_weeks : list (list datetime) := weeks_from (date_at 2026 3 2).

(** The grid of the two layouts, evaluated in double precision: the scaled
    widths, the abscissa the header row ends at (the left margin plus the
    usable width of 752 points, up to rounding), and the height of a row. *)
Definition scaled_widths (col_widths : list Z) : list PrimFloat.float :=
  let scale :=
    div (of_int (11 * 72 - 2 * 20)) (of_int (fold_left Z.add col_widths 0)) in
  map (fun w => mul (of_int w) scale) col_widths.

Definition row_height : PrimFloat.float :=
  div (sub (sub (mul (float_lit 85 10) (of_int 72)) (of_int (2 * 20)))
           (of_int 20))
      (of_int 10).

(** Within a tolerance of one millionth of a point. *)
Definition within_tolerance (x y : PrimFloat.float) : bool :=
  PrimFloat.ltb (PrimFloat.abs (PrimFloat.sub x y))
    (PrimFloat.div (float_of_int 1) (float_of_int 1000000)).

Definition sum_widths (widths : list PrimFloat.float) : PrimFloat.float :=
  fold_left PrimFloat.add widths (float_of_int 0).

(** ** Dates without their time of day *)

(** [datetime(dt.year, dt.month, dt.day)]: the day of [dt], at midnight. This
    is what [strptime] builds from the text [strftime] prints for [dt]. *)
Definition midnight (dt : datetime) : datetime :=
  date_at (year dt) (month dt) (day dt).

(** ** The console *)

(** Standard input is the list of the lines still to be read, without their
    line feeds; standard output is the list of the texts written, one entry
    per call of [print] or [input]. *)
Record console : Type := mk_console {
  stdin : list string;
  stdout : list string
}.

(** The exceptions of the interactive part: those of [exn], and two more. *)
Inductive io_exn : Type :=
  | EOFError
  | UnboundLocalError
  | Of_exn (e : exn).

Inductive io_result (A : Type) : Type :=
  | Returns (a : A)
  | Raises (e : io_exn).
Arguments Returns {A} a.
Arguments Raises {A} e.

(** The line feed. *)
Definition LF : string := String "010" EmptyString.

(** [print(s)] writes [s] and a line feed. [input(prompt)] writes the prompt
    and reads a line; with no line left it raises [EOFError]. The loops below
    read a line in every round, so they recur on the lines left. *)
Definition print (s : string) (out : list string) : list string :=
  out ++ [(s ++ LF)%string].

(** [x in l] for a list of strings. *)
Definition list_in (x : string) (l : list string) : bool :=
  existsb (String.eqb x) l.

(** ** [prompt_date] *)

(** [%Y] of [strftime]: the C library decides whether a year below 1000 is
    padded with zeros to four digits. *)
Definition strftime_Y (zero_padded : bool) (y : Z) : string :=
  if zero_padded then zfill 4 (str y) else str y.

(** [dt.strftime("%m/%d/%Y")] *)
Definition strftime_mdY (zero_padded : bool) (dt : datetime) : string :=
  (two_digits (month dt) ++ "/" ++ two_digits (day dt) ++ "/"
   ++ strftime_Y zero_padded (year dt))%string.

(** The [while True] loop of [prompt_date]. *)
Fixpoint prompt_date_loop (next_monday : datetime) (next_monday_str : string)
    (lines : list string) (out : list string)
  : io_result datetime * console :=
  let out := print (LF ++ "Choose start date:") out in
  let out := print ("  1. Use next Monday (" ++ next_monday_str ++ ")") out in
  let out := print "  2. Enter a custom Monday" out in
  let out := out ++ ["Enter choice (1 or 2): "%string] in
  match lines with
  | [] => (Raises EOFError, mk_console [] out)
  | line :: lines =>
      let choice := strip line in
      if String.eqb choice "1" then
        (Returns next_monday, mk_console lines out)
      else if String.eqb choice "2" then
        let out :=
          out ++ ["Enter start date (MM/DD/YYYY, must be a Monday): "%string]
        in
        match lines with
        | [] => (Raises EOFError, mk_console [] out)
        | line :: lines =>
            let date_str := strip line in
            match validate_date date_str with
            | Ok dt => (Returns dt, mk_console lines out)
            | Raise (ValueError e) =>
                prompt_date_loop next_monday next_monday_str lines
                  (print ("  Error: " ++ e) out)
            | Raise e => (Raises (Of_exn e), mk_console lines out)
            end
        end
      else
        prompt_date_loop next_monday next_monday_str lines
          (print "  Error: Invalid choice. Please enter 1 or 2." out)
  end.

(** [prompt_date], as a function of what [datetime.today()] returns. *)
Definition prompt_date (zero_padded : bool) (today : datetime) (c : console)
  : io_result datetime * console :=
  match get_next_monday today with
  | Raise e => (Raises (Of_exn e), c)
  | Ok next_monday =>
      let next_monday_str := strftime_mdY zero_padded next_monday in
      prompt_date_loop next_monday next_monday_str (stdin c) (stdout c)
  end.

(** ** [prompt_calendars] *)

(** The dictionary [options], in the order of its entries. *)
Definition options : list (string * string) :=
  [("1", "Pages Read"); ("2", "Project Hours"); ("3", "Workouts")]%string.

(** [d[key]] where [key in d]. *)
Fixpoint dict_get (d : list (string * string)) (key : string)
  : option string :=
  match d with
  | [] => None
  | (k, v) :: d' => if String.eqb k key then Some v else dict_get d' key
  end.

(** Lines 236 to 240: the calendars named in a comma-separated answer. *)
Definition selection (choice : string) : list string :=
  fold_left
    (fun selected c =>
       let c := strip c in
       match dict_get options c with
       | Some name =>
           if negb (list_in name selected) then selected ++ [name]
           else selected
       | None => selected
       end)
    (split_on "," choice) [].

Fixpoint prompt_calendars_loop (lines : list string) (out : list string)
  : io_result (list string) * console :=
  let out := print (LF ++ "Which calendar(s) would you like to generate?") out
  in
  let out :=
    fold_left (fun out '(key, name) => print ("  " ++ key ++ ". " ++ name) out)
      options out in
  let out := print "  4. All" out in
  let out :=
    out ++ ["Enter choice(s) separated by commas (e.g. 1,3): "%string] in
  match lines with
  | [] => (Raises EOFError, mk_console [] out)
  | line :: lines =>
      let choice := strip line in
      if String.eqb choice "4" then
        (Returns (map snd options), mk_console lines out)
      else
        match selection choice with
        | [] =>
            prompt_calendars_loop lines
              (print "  Error: Invalid selection. Please try again." out)
        | selected => (Returns selected, mk_console lines out)
        end
  end.

Definition prompt_calendars (c : console)
  : io_result (list string) * console :=
  prompt_calendars_loop (stdin c) (stdout c).

(** ** [int] of a string *)

(** The blanks [int] skips around a literal: the ASCII blanks of C, and the
    two blanks above 127 among the code points below 256. The separators 28
    to 31, which [strip] removes, are not among them. *)
Definition int_space (c : ascii) : bool :=
  let n := code c in
  ((9 <=? n) && (n <=? 13)) || (n =? 32) || (n =? 133) || (n =? 160).

Fixpoint all_int_space (s : string) : bool :=
  match s with
  | EmptyString => true
  | String c s' => int_space c && all_int_space s'
  end.

Fixpoint skip_int_space (s : string) : string :=
  match s with
  | String c s' => if int_space c then skip_int_space s' else s
  | EmptyString => EmptyString
  end.

(** Digits, with single underscores between them: the value read, the
    number of digits, and what follows them. [prev_underscore] tells whether
    the character before was an underscore. *)
Fixpoint scan_digits (s : string) (prev_underscore : bool) (acc : Z)
    (digits : nat) : option (Z * nat * string) :=
  match s with
  | String c s' =>
      if is_digit c then
        scan_digits s' false (10 * acc + (code c - 48)) (S digits)
      else if Ascii.eqb c "_" then
        if prev_underscore then None else scan_digits s' true acc digits
      else if prev_underscore then None
      else Some (acc, digits, s)
  | EmptyString =>
      if prev_underscore then None else Some (acc, digits, EmptyString)
  end.

(** [int(s)] for a string: blanks, an optional sign, digits with single
    underscores between them, blanks. [max_str_digits] is the limit of the
    interpreter on the number of digits ([sys.get_int_max_str_digits()], 0 for
    none). Every rejection is a [ValueError]; the messages are abridged. *)
Definition int_of_str (max_str_digits : nat) (s : string) : result Z :=
  let invalid := Raise (ValueError "invalid literal for int()") in
  let s := skip_int_space s in
  let '(sign, s) :=
    match s with
    | String "+" s' => (1, s')
    | String "-" s' => (-1, s')
    | _ => (1, s)
    end in
  match s with
  | String "_" _ => invalid
  | _ =>
      match scan_digits s false 0 0 with
      | None => invalid
      | Some (z, digits, rest) =>
          if (digits =? 0)%nat then invalid
          else if negb (all_int_space rest) then invalid
          else if (0 <? max_str_digits)%nat && (max_str_digits <? digits)%nat
               then Raise (ValueError "Exceeds the limit for integer string conversion")
               else Ok (sign * z)
      end
  end.

(** ** [main] *)

(** Lines 257 to 265: the loop that reads the weekly goal. *)
Fixpoint goal_loop (max_str_digits : nat) (lines : list string)
    (out : list string) : io_result Z * console :=
  let out := out ++ [(LF ++ "Enter weekly page goal (e.g. 100): ")%string] in
  match lines with
  | [] => (Raises EOFError, mk_console [] out)
  | line :: lines =>
      let goal_str := strip line in
      match int_of_str max_str_digits goal_str with
      | Ok goal =>
          if 0 <? goal then (Returns goal, mk_console lines out)
          else goal_loop max_str_digits lines
                 (print "  Error: Goal must be a positive number." out)
      | Raise (ValueError _) =>
          goal_loop max_str_digits lines
            (print "  Error: Please enter a valid number." out)
      | Raise e => (Raises (Of_exn e), mk_console lines out)
      end
  end.

(** Lines 270 to 272: one label per day name. *)
Fixpoint read_labels (days : list string) (workout_labels : list string)
    (lines : list string) (out : list string)
  : io_result (list string) * console :=
  match days with
  | [] => (Returns workout_labels, mk_console lines out)
  | day :: days =>
      let out := out ++ [("  " ++ day ++ ": ")%string] in
      match lines with
      | [] => (Raises EOFError, mk_console [] out)
      | line :: lines =>
          let label := strip line in
          read_labels days (workout_labels ++ [label]) lines out
      end
  end.

Section Main.

Context {num : Type} `{FloatOps num}.
Variable string_width : font -> string -> num.
Variable SCRIPT_DIR : string.

(** The console and the file system. *)
Definition world : Type := console * @file_system num.

Definition ioM (A : Type) : Type := world -> io_result A * world.

#[export] Instance ioM_ret : MRet ioM := fun _ a w => (Returns a, w).
#[export] Instance ioM_bind : MBind ioM := fun _ _ k m w =>
  match m w with
  | (Returns a, w') => k a w'
  | (Raises e, w') => (Raises e, w')
  end.

Definition io_print (s : string) : ioM unit := fun '(c, fs) =>
  (Returns (), (mk_console (stdin c) (print s (stdout c)), fs)).

Definition io_raise {A} (e : io_exn) : ioM A := fun w => (Raises e, w).

(** A call that uses the console only. *)
Definition on_console {A} (f : console -> io_result A * console) : ioM A :=
  fun '(c, fs) => let '(r, c') := f c in (r, (c', fs)).

(** A call that uses the file system only; its exceptions propagate. *)
Definition on_files {A}
    (f : @file_system num -> result A * @file_system num) : ioM A :=
  fun '(c, fs) =>
    match f fs with
    | (Ok a, fs') => (Returns a, (c, fs'))
    | (Raise e, fs') => (Raises (Of_exn e), (c, fs'))
    end.

(** A [for] loop whose body updates a local variable. *)
Fixpoint io_for_each {A S} (items : list A) (body : A -> S -> ioM S) (s : S)
  : ioM S :=
  match items with
  | [] => mret s
  | a :: rest => s' ← body a s; io_for_each rest body s'
  end.

(** [generate_pages_read(start_date, goal)] as [main] calls it: [goal] is
    [None] until the goal loop has assigned it, and the f-string would print
    it as [None]. *)
Definition generate_pages_read_opt (start_date : datetime) (goal : option Z)
    (fs : @file_system num) : result string * @file_system num :=
  match goal with
  | Some g => generate_pages_read string_width SCRIPT_DIR start_date g fs
  | None =>
      match generate_week_dates start_date with
      | Raise e => (Raise e, fs)
      | Ok week_dates_list =>
          _create_calendar_pdf string_width SCRIPT_DIR "Pages Read.pdf"
            (["Week"%string] ++ DAY_NAMES ++ ["TOTAL"%string])
            ([40] ++ replicate 7 90 ++ [80]) week_dates_list true
            (Some (fun _ : Z => ["Goal: None"; "Actual:"]%string)) None fs
      end
  end.

(** Lines 248 to 272 of [main]: the start date, the calendars, the goal and
    the workout labels, as a function of the platform ([zero_padded],
    [max_str_digits]) and of what [datetime.today()] returns. *)
Definition read_answers (zero_padded : bool) (max_str_digits : nat)
    (today : datetime)
  : ioM (datetime * list string * option Z * option (list string)) :=
  _ ← io_print ("=== Accountability Calendars Generator ===" ++ LF);
  start_date ← on_console (prompt_date zero_padded today);
  calendars ← on_console prompt_calendars;
  goal ← (if list_in "Pages Read" calendars then
            goal ← on_console
                     (fun c => goal_loop max_str_digits (stdin c) (stdout c));
            mret (Some goal)
          else mret None);
  workout_labels ←
    (if list_in "Workouts" calendars then
       _ ← io_print
             (LF ++ "Enter workout labels for each day (these repeat every week):");
       workout_labels ← on_console
                          (fun c => read_labels DAY_NAMES [] (stdin c)
                                      (stdout c));
       mret (Some workout_labels)
     else mret None);
  mret (start_date, calendars, goal, workout_labels).

(** Lines 274 to 285 of [main]. The variable [path] is unbound until a
    branch of the loop has assigned it. *)
Definition generate_selected (start_date : datetime)
    (calendars : list string) (goal : option Z)
    (workout_labels : option (list string)) : ioM unit :=
  _ ← io_print (LF ++ "Generating calendars...");
  _ ← io_for_each calendars
        (fun cal (path : option string) =>
           path ←
             (if String.eqb cal "Pages Read" then
                p ← on_files (generate_pages_read_opt start_date goal);
                mret (Some p)
              else if String.eqb cal "Project Hours" then
                p ← on_files
                      (generate_project_hours string_width SCRIPT_DIR
                         start_date);
                mret (Some p)
              else if String.eqb cal "Workouts" then
                p ← on_files
                      (generate_workouts string_width SCRIPT_DIR start_date
                         workout_labels);
                mret (Some p)
              else mret path);
           match path with
           | Some p => _ ← io_print ("  Created: " ++ p); mret path
           | None => io_raise UnboundLocalError
           end)
        None;
  io_print (LF ++ "Done!").

Definition main (zero_padded : bool) (max_str_digits : nat)
    (today : datetime) : ioM unit :=
  '(start_date, calendars, goal, workout_labels) ←
    read_answers zero_padded max_str_digits today;
  generate_selected start_date calendars goal workout_labels.

End Main.

(** ** Vocabulary of the statements about the console *)

(** The three calendar names. *)
Definition CALENDAR_NAMES : list string :=
  ["Pages Read"; "Project Hours"; "Workouts"]%string.

(** An answer [prompt_calendars] takes: ["4"], or a list that names at least
    one calendar; and the calendars it stands for. *)
Definition answers_calendars (line : string) : bool :=
  String.eqb (strip line) "4"
  || match selection (strip line) with
     | [] => false
     | _ => true
     end.

Definition calendars_of (line : string) : list string :=
  if String.eqb (strip line) "4" then map snd options
  else selection (strip line).

(** An answer the goal loop takes: an integer literal above zero. *)
Definition answers_goal (max_str_digits : nat) (line : string) : bool :=
  match int_of_str max_str_digits (strip line) with
  | Ok goal => 0 <? goal
  | Raise _ => false
  end.

(** What a week row needs: eight widths, seven dates and, when there are
    labels, seven labels. *)
Definition row_fits (n_widths : nat) (labels : option (list string))
    (week_dates : list datetime) : bool :=
  (8 <=? n_widths)%nat
  && (7 <=? List.length week_dates)%nat
  && match labels with
     | Some (l :: ls) => (7 <=? List.length (l :: ls))%nat
     | _ => true
     end.

(** Where the calendar called [name] is written. *)
Definition calendar_path (script_dir name : string) : string :=
  path_join (path_join script_dir "output") (name ++ ".pdf").

(** ** Tests of the texts [strftime] prints *)

(** The text printed for [n] is a field of the kind [field], holds no slash,
    and [int] reads [n] back from it. *)
Definition reads_back (field : string -> bool) (text : Z -> string) (n : Z)
  : bool :=
  field (text n) && no_slash (text n)
  && match py_int (text n) with
     | Ok k => k =? n
     | Raise _ => false
     end.

(** The text printed for [n] holds no slash and is not four digits. *)
Definition not_a_year (text : Z -> string) (n : Z) : bool :=
  negb (year_field (text n)) && no_slash (text n).

(** ** A session at the console *)

(** A session with [main]: a wrong choice, a date that is not a Monday, a
    date with one digit for the month and the day, two calendars, two goals
    that are refused, and seven labels. *)
Definition demo_session : list string :=
  ["3"; " 2 "; "03/03/2026"; "2"; "3/2/2026"; "x, 3 ,1,3"; "abc"; "-5";
   "1_00"; "4 Miles"; "Weights"; "Rest"; "4 Miles"; "Weights"; "Rest";
   " Rest "; "left over"]%string.

(** ** The grid *)

Section Grid.

Context {num : Type} `{FloatOps num}.

(** The rectangles on a page, in the order drawn: abscissa, ordinate, width
    and height. *)
Fixpoint rect_boxes (ops : list (@draw_op num))
  : list (num * num * num * num) :=
  match ops with
  | [] => []
  | DrawRect x y w h _ _ :: rest => (x, y, w, h) :: rect_boxes rest
  | DrawText _ _ _ _ _ _ _ :: rest => rect_boxes rest
  end.

(** A row of boxes of the given widths from the abscissa [x] on, each one
    beginning where the one before ends, all at the ordinate [y] and of the
    height [h]. The sums are the ones of [float], in this order. *)
Fixpoint boxes_from (x y h : num) (widths : list num)
  : list (num * num * num * num) :=
  match widths with
  | [] => []
  | w :: rest => (x, y, w, h) :: boxes_from (add x w) y h rest
  end.

(** Where a box begins and how wide it is. *)
Definition column_of (box : num * num * num * num) : num * num :=
  let '(x, _, w, _) := box in (x, w).

(** The widths of the columns and the height of a row, as
    [_create_calendar_pdf] computes them. *)
Definition scaled_col_widths (col_widths : list Z) : list num :=
  let scale :=
    div (of_int (11 * 72 - 2 * 20)) (of_int (fold_left Z.add col_widths 0)) in
  map (fun w => mul (of_int w) scale) col_widths.

Definition page_row_h : num :=
  div (sub (sub (mul (float_lit 85 10) (of_int 72)) (of_int (2 * 20)))
           (of_int 20))
      (of_int 10).

(** The widths of the boxes of a week row: the first eight, and the last one
    again for the totals. *)
Definition row_widths (widths : list num) (has_total : bool) : list num :=
  (take 8 widths
   ++ if has_total then [List.last widths (of_int 0)] else [])%list.

(** The boxes of the header row and of the week row at index [week_idx]. *)
Definition header_boxes (headers : list string) (widths : list num)
  : list (num * num * num * num) :=
  boxes_from (of_int 20) (of_int 20) (of_int 20)
    (take (List.length headers) widths).

Definition week_boxes (widths : list num) (has_total : bool) (week_idx : nat)
  : list (num * num * num * num) :=
  boxes_from (of_int 20)
    (add (of_int (20 + 20)) (mul (of_int (Z.of_nat week_idx)) page_row_h))
    page_row_h (row_widths widths has_total).

End Grid.

(** ** The type of the week numbers *)

(** The font of the label of each week-number cell: the font of the text that
    follows its rectangle. *)
Fixpoint week_number_fonts {num} (ops : list (@draw_op num)) : list font :=
  match ops with
  | [] => []
  | DrawRect _ _ _ _ sty fill :: rest =>
      (if week_number_rect sty fill then
         match rest with
         | DrawText _ _ _ _ _ _ f :: _ => [f]
         | _ => []
         end
       else [])
      ++ week_number_fonts rest
  | DrawText _ _ _ _ _ _ _ :: rest => week_number_fonts rest
  end.

(** The font that is current when [_draw_week_row] returns: the one of the
    last [set_font] it came to, for the lines of the totals, or else for the
    labels, or else for the dates. *)
Definition font_left (has_total : bool) (total_content : option (list string))
    (labels : option (list string)) : font :=
  match (if has_total then truthy total_content else None) with
  | Some _ => mk_font FONT_FAMILY "" 8
  | None =>
      match truthy labels with
      | Some _ => mk_font FONT_FAMILY "" 9
      | None => mk_font FONT_FAMILY "" 7
      end
  end.

(** * Proofs *)
(** ** Ordinals and calendar dates correspond *)

Lemma all_from_spec f k n :
  all_from f k n = true -> forall i, n <= i < n + Z.of_nat k -> f i = true.
Proof.
  revert n; induction k as [|k IH]; intros n H i Hi; [lia|].
  simpl in H. apply andb_true_iff in H as [Hn Hk].
  destruct (Z.eq_dec i n) as [->|Hne]; [exact Hn|].
  apply (IH (n + 1) Hk). lia.
Qed.

Lemma cycle_ord_check : all_from cycle_ord_ok (Z.to_nat DI400Y) 1 = true.
Proof. vm_cast_no_check (eq_refl true). Qed.

Lemma cycle_dates_check :
  all_from (fun y =>
    all_from (fun m => all_from (cycle_ymd_ok y m) 31 1) 12 1) 400 1 = true.
Proof. vm_cast_no_check (eq_refl true). Qed.


Section Periodicity.

Lemma is_leap_shift y q : is_leap (y + 400 * q) = is_leap y.
Proof.
  unfold is_leap.
  replace ((y + 400 * q) mod 4) with (y mod 4)
    by (replace (y + 400 * q) with (y + (100 * q) * 4) by ring;
        now rewrite Z_mod_plus_full).
  replace ((y + 400 * q) mod 100) with (y mod 100)
    by (replace (y + 400 * q) with (y + (4 * q) * 100) by ring;
        now rewrite Z_mod_plus_full).
  replace ((y + 400 * q) mod 400) with (y mod 400)
    by (replace (y + 400 * q) with (y + q * 400) by ring;
        now rewrite Z_mod_plus_full).
  reflexivity.
Qed.

Lemma days_before_year_shift y q :
  days_before_year (y + 400 * q) = days_before_year y + DI400Y * q.
Proof.
  unfold days_before_year, DI400Y. cbv zeta.
  replace ((y + 400 * q - 1) / 4) with ((y - 1) / 4 + 100 * q)
    by (replace (y + 400 * q - 1) with (y - 1 + (100 * q) * 4) by ring;
        now rewrite Z.div_add).
  replace ((y + 400 * q - 1) / 100) with ((y - 1) / 100 + 4 * q)
    by (replace (y + 400 * q - 1) with (y - 1 + (4 * q) * 100) by ring;
        now rewrite Z.div_add).
  replace ((y + 400 * q - 1) / 400) with ((y - 1) / 400 + q)
    by (replace (y + 400 * q - 1) with (y - 1 + q * 400) by ring;
        now rewrite Z.div_add).
  ring.
Qed.

Lemma days_in_month_shift y m q :
  days_in_month (y + 400 * q) m = days_in_month y m.
Proof. unfold days_in_month. now rewrite is_leap_shift. Qed.

Lemma ymd2ord_shift y m d q :
  ymd2ord (y + 400 * q) m d = ymd2ord y m d + DI400Y * q.
Proof.
  unfold ymd2ord, days_before_month.
  rewrite days_before_year_shift, is_leap_shift. ring.
Qed.

(** [ord2ymd] reads the 400-year cycle off the quotient by [DI400Y] and the
    rest of the date off the remainder. *)
Lemma ord2ymd_shift n q :
  1 <= n <= DI400Y ->
  ord2ymd (n + DI400Y * q) =
  let '(y, m, d) := ord2ymd n in (y + 400 * q, m, d).
Proof.
  intros Hn. unfold ord2ymd. cbv zeta.
  assert (Hq : (n + DI400Y * q - 1) / DI400Y = q).
  { replace (n + DI400Y * q - 1) with (n - 1 + q * DI400Y) by ring.
    rewrite Z.div_add by (unfold DI400Y; lia).
    rewrite Z.div_small by lia. lia. }
  assert (Hr : (n + DI400Y * q - 1) mod DI400Y = n - 1).
  { replace (n + DI400Y * q - 1) with (n - 1 + q * DI400Y) by ring.
    rewrite Z_mod_plus_full. apply Z.mod_small. lia. }
  assert (Hq0 : (n - 1) / DI400Y = 0) by (apply Z.div_small; lia).
  assert (Hr0 : (n - 1) mod DI400Y = n - 1) by (apply Z.mod_small; lia).
  rewrite Hq, Hr, Hq0, Hr0.
  destruct ((_ =? 4) || (_ =? 4)); [|destruct (_ <? _)];
    (apply pair_equal_spec; split; [apply pair_equal_spec; split|]; lia).
Qed.

End Periodicity.

Lemma days_in_month_bounds y m :
  1 <= m <= 12 -> 28 <= days_in_month y m <= 31.
Proof.
  intros Hm. unfold days_in_month. destruct (_ && _); [lia|].
  assert (Hcases : m = 1 \/ m = 2 \/ m = 3 \/ m = 4 \/ m = 5 \/ m = 6 \/ m = 7
                   \/ m = 8 \/ m = 9 \/ m = 10 \/ m = 11 \/ m = 12) by lia.
  repeat (destruct Hcases as [->|Hcases]; [cbn; lia|]). subst m; cbn; lia.
Qed.

Lemma cycle_ord_ok_all n : 1 <= n <= DI400Y -> cycle_ord_ok n = true.
Proof.
  intros Hn. apply (all_from_spec _ _ _ cycle_ord_check).
  rewrite Z2Nat.id; unfold DI400Y in *; lia.
Qed.

Lemma cycle_ymd_ok_all y m d :
  1 <= y <= 400 -> 1 <= m <= 12 -> 1 <= d <= 31 -> cycle_ymd_ok y m d = true.
Proof.
  intros Hy Hm Hd.
  apply (all_from_spec (cycle_ymd_ok y m) 31 1); [|lia].
  apply (all_from_spec
           (fun m => all_from (cycle_ymd_ok y m) 31 1) 12 1); [|lia].
  apply (all_from_spec
           (fun y => all_from
              (fun m => all_from (cycle_ymd_ok y m) 31 1) 12 1) 400 1); [|lia].
  exact cycle_dates_check.
Qed.

(** Every ordinal from 1 on is the ordinal of the date [ord2ymd] gives, and
    that date passes the constructor's checks up to [MAXORDINAL]. *)
Lemma ord2ymd_spec n :
  1 <= n <= MAXORDINAL ->
  exists y m d,
    ord2ymd n = (y, m, d) /\ valid_ymd y m d = true /\ ymd2ord y m d = n.
Proof.
  intros Hn.
  set (q := (n - 1) / DI400Y). set (r := (n - 1) mod DI400Y).
  assert (Hdm : n - 1 = DI400Y * q + r)
    by (apply Z.div_mod; unfold DI400Y; lia).
  assert (Hr : 0 <= r < DI400Y)
    by (apply Z.mod_pos_bound; unfold DI400Y; lia).
  assert (Hq : 0 <= q) by (apply Z.div_pos; unfold DI400Y; lia).
  assert (Hq24 : q <= 24) by (unfold MAXORDINAL, DI400Y in *; lia).
  pose proof (cycle_ord_ok_all (r + 1) ltac:(lia)) as Hc.
  replace n with ((r + 1) + DI400Y * q) by lia.
  rewrite ord2ymd_shift by lia.
  unfold cycle_ord_ok in Hc.
  destruct (ord2ymd (r + 1)) as [[y m] d].
  exists (y + 400 * q), m, d.
  repeat (apply andb_true_iff in Hc as [Hc ?]).
  split; [reflexivity|]. split.
  - unfold valid_ymd, MINYEAR, MAXYEAR. rewrite days_in_month_shift.
    repeat (apply andb_true_iff; split); try assumption; try lia.
    apply Z.leb_le.
    assert (q = 24 -> y <= 399).
    { intros ->. unfold MAXORDINAL, DI400Y in *.
      apply orb_true_iff in H as [H|H]; lia. }
    lia.
  - rewrite ymd2ord_shift. lia.
Qed.

(** Conversely a date that passes the checks has an ordinal in range, from
    which [ord2ymd] recovers it. *)
Lemma ymd2ord_spec y m d :
  valid_ymd y m d = true ->
  1 <= ymd2ord y m d <= MAXORDINAL /\ ord2ymd (ymd2ord y m d) = (y, m, d).
Proof.
  unfold valid_ymd, MINYEAR, MAXYEAR. intros Hv.
  repeat (apply andb_true_iff in Hv as [Hv ?]).
  set (q := (y - 1) / 400). set (y0 := (y - 1) mod 400 + 1).
  assert (Hdm : y - 1 = 400 * q + (y - 1) mod 400) by (apply Z.div_mod; lia).
  assert (Hr : 0 <= (y - 1) mod 400 < 400) by (apply Z.mod_pos_bound; lia).
  assert (Hq : 0 <= q <= 24) by (unfold q; split; [apply Z.div_pos|]; try lia;
    apply Z.div_le_upper_bound; lia).
  assert (Hy : y = y0 + 400 * q) by (unfold y0; lia).
  assert (Hdim : d <= 31)
    by (pose proof (days_in_month_bounds y m ltac:(lia)); lia).
  pose proof (cycle_ymd_ok_all y0 m d ltac:(unfold y0; lia) ltac:(lia)
                ltac:(lia)) as Hc.
  unfold cycle_ymd_ok in Hc. cbv zeta in Hc.
  assert (Hy0 : 1 <= y0 <= 400) by (unfold y0; lia).
  clearbody y0 q. subst y. rewrite days_in_month_shift in *.
  apply orb_true_iff in Hc as [Hc|Hc];
    [apply negb_true_iff in Hc; lia|].
  rewrite ymd2ord_shift.
  apply andb_true_iff in Hc as [Hc Hlast].
  apply andb_true_iff in Hc as [Hc Hsame].
  apply andb_true_iff in Hc as [Hlo Hhi].
  split.
  - unfold MAXORDINAL, DI400Y in *.
    assert (q = 24 -> ymd2ord y0 m d <= 145731).
    { intros ->. apply orb_true_iff in Hlast as [Hl|Hl]; lia. }
    lia.
  - rewrite ord2ymd_shift by lia.
    destruct (ord2ymd (ymd2ord y0 m d)) as [[y' m'] d'].
    repeat (apply andb_true_iff in Hsame as [Hsame ?]).
    apply pair_equal_spec; split; [apply pair_equal_spec; split|]; lia.
Qed.

(** ** Adding days to a [datetime] *)

Section AddDays.

Lemma valid_datetime_inv dt :
  valid_datetime dt = true ->
  valid_ymd (year dt) (month dt) (day dt) = true
  /\ 0 <= hour dt < 24 /\ 0 <= minute dt < 60 /\ 0 <= second dt < 60
  /\ 0 <= microsecond dt < 1000000.
Proof.
  unfold valid_datetime, valid_time. intros Hv.
  apply andb_true_iff in Hv as [Hv Ht].
  repeat (apply andb_true_iff in Ht as [Ht ?]). repeat split; try lia.
  assumption.
Qed.

Lemma toordinal_range dt :
  valid_datetime dt = true -> 1 <= toordinal dt <= MAXORDINAL.
Proof.
  intros Hv. apply valid_datetime_inv in Hv as [Hv _].
  apply (ymd2ord_spec _ _ _ Hv).
Qed.

(** Without seconds or microseconds in the delta nothing is carried, and
    the time of day comes back as it was. *)
Lemma datetime_add_days dt n :
  valid_datetime dt = true ->
  datetime_add dt (timedelta_days n) =
  if (0 <? toordinal dt + n) && (toordinal dt + n <=? MAXORDINAL)
  then Ok (plus_days dt n) else Raise OverflowError.
Proof.
  intros Hv. apply valid_datetime_inv in Hv as (_ & Hh & Hm & Hs & Hus).
  unfold datetime_add, plus_days, timedelta_days. cbn [td_days td_seconds td_microseconds].
  rewrite !Z.add_0_r.
  rewrite (Z.div_small (microsecond dt)) by lia.
  rewrite (Z.mod_small (microsecond dt)) by lia.
  rewrite !Z.add_0_r.
  set (s := hour dt * 3600 + minute dt * 60 + second dt).
  assert (Hs86 : 0 <= s < 86400) by (unfold s; lia).
  rewrite (Z.div_small s), (Z.mod_small s) by lia.
  rewrite Z.add_0_r.
  assert (H1 : s / 3600 = hour dt).
  { symmetry. apply (Z.div_unique s 3600 (hour dt) (minute dt * 60 + second dt));
      unfold s; lia. }
  assert (H2 : s mod 3600 = minute dt * 60 + second dt).
  { symmetry. apply (Z.mod_unique s 3600 (hour dt)); unfold s; lia. }
  assert (H3 : (s mod 3600) / 60 = minute dt).
  { rewrite H2. symmetry.
    apply (Z.div_unique _ 60 (minute dt) (second dt)); lia. }
  assert (H4 : s mod 60 = second dt).
  { symmetry. apply (Z.mod_unique s 60 (hour dt * 60 + minute dt));
      unfold s; lia. }
  rewrite H1, H3, H4.
  destruct (_ && _); [|reflexivity].
  now destruct (ord2ymd _) as [[y m] d].
Qed.

Lemma datetime_add_weeks dt n :
  valid_datetime dt = true ->
  datetime_add dt (timedelta_weeks n) =
  if (0 <? toordinal dt + 7 * n) && (toordinal dt + 7 * n <=? MAXORDINAL)
  then Ok (plus_days dt (7 * n)) else Raise OverflowError.
Proof. intros Hv. exact (datetime_add_days dt (7 * n) Hv). Qed.

Lemma plus_days_time dt n :
  hour (plus_days dt n) = hour dt /\ minute (plus_days dt n) = minute dt
  /\ second (plus_days dt n) = second dt
  /\ microsecond (plus_days dt n) = microsecond dt.
Proof.
  unfold plus_days. destruct (ord2ymd _) as [[y m] d]. cbn. auto.
Qed.

Lemma plus_days_toordinal dt n :
  1 <= toordinal dt + n <= MAXORDINAL ->
  toordinal (plus_days dt n) = toordinal dt + n.
Proof.
  intros Hr. destruct (ord2ymd_spec _ Hr) as (y & m & d & He & _ & Ho).
  unfold plus_days. rewrite He. exact Ho.
Qed.

Lemma plus_days_valid dt n :
  valid_datetime dt = true ->
  1 <= toordinal dt + n <= MAXORDINAL ->
  valid_datetime (plus_days dt n) = true.
Proof.
  intros Hv Hr. destruct (ord2ymd_spec _ Hr) as (y & m & d & He & Hy & _).
  unfold valid_datetime in *. apply andb_true_iff in Hv as [_ Ht].
  unfold plus_days. rewrite He. cbn. rewrite Hy, Ht. reflexivity.
Qed.

Lemma plus_days_0 dt : valid_datetime dt = true -> plus_days dt 0 = dt.
Proof.
  intros Hv. apply valid_datetime_inv in Hv as [Hv _].
  destruct (ymd2ord_spec _ _ _ Hv) as [_ He].
  unfold plus_days, toordinal. rewrite Z.add_0_r, He. now destruct dt.
Qed.

Lemma plus_days_plus_days dt a b :
  1 <= toordinal dt + a <= MAXORDINAL ->
  plus_days (plus_days dt a) b = plus_days dt (a + b).
Proof.
  intros Hr. pose proof (plus_days_toordinal dt a Hr) as Ho.
  destruct (plus_days_time dt a) as (Hh & Hm & Hs & Hu).
  unfold plus_days at 1. rewrite Ho, Hh, Hm, Hs, Hu.
  unfold plus_days. now rewrite Z.add_assoc.
Qed.

End AddDays.

(** ** Loops that may raise *)

Section MapM.

Context {A B : Type}.

Lemma mapM_ok (f : A -> result B) (g : A -> B) (l : list A) :
  (forall x, In x l -> f x = Ok (g x)) -> mapM f l = Ok (map g l).
Proof.
  induction l as [|a l IH]; intros Hf; [reflexivity|].
  cbn. rewrite (Hf a) by (left; reflexivity). cbn.
  rewrite IH by (intros x Hx; apply Hf; right; exact Hx). reflexivity.
Qed.

Lemma mapM_raise (f : A -> result B) (e : exn) (l : list A) :
  (forall x, In x l -> (exists b, f x = Ok b) \/ f x = Raise e) ->
  (exists x, In x l /\ f x = Raise e) ->
  mapM f l = Raise e.
Proof.
  induction l as [|a l IH]; intros Hall (x & Hx & Hfx); [destruct Hx|].
  cbn. destruct (Hall a (or_introl eq_refl)) as [[b Hb]|Hr].
  - rewrite Hb. cbn.
    destruct Hx as [->|Hx]; [congruence|].
    rewrite IH; [reflexivity| |exists x; auto].
    intros y Hy. apply Hall. right. exact Hy.
  - rewrite Hr. reflexivity.
Qed.

End MapM.

Lemma In_range n x : In x (range n) <-> 0 <= x < Z.of_nat n.
Proof.
  unfold range. rewrite in_map_iff. split.
  - intros (k & <- & Hk). apply in_seq in Hk. lia.
  - intros Hx. exists (Z.to_nat x). split; [lia|]. apply in_seq. lia.
Qed.

Lemma range_lookup n (i : nat) :
  (i < n)%nat -> range n !! i = Some (Z.of_nat i).
Proof.
  intros Hi. unfold range. rewrite list_lookup_fmap.
  rewrite lookup_seq_lt by exact Hi. reflexivity.
Qed.

(** ** [generate_week_dates] *)

Section WeekDates.


Lemma generate_week_dates_ok start :
  valid_datetime start = true ->
  toordinal start + 69 <= MAXORDINAL ->
  generate_week_dates start = Ok (weeks_from start).
Proof.
  intros Hv Hmax. pose proof (toordinal_range start Hv) as Hr.
  unfold generate_week_dates, weeks_from.
  apply mapM_ok. intros w Hw. apply In_range in Hw.
  rewrite datetime_add_weeks by exact Hv.
  replace ((0 <? toordinal start + 7 * w)
           && (toordinal start + 7 * w <=? MAXORDINAL)) with true
    by (symmetry; apply andb_true_iff; lia).
  cbn [mbind result_bind].
  apply mapM_ok. intros d Hd. apply In_range in Hd.
  rewrite datetime_add_days by (apply plus_days_valid; [exact Hv|lia]).
  rewrite plus_days_toordinal by lia.
  replace ((0 <? toordinal start + 7 * w + d)
           && (toordinal start + 7 * w + d <=? MAXORDINAL)) with true
    by (symmetry; apply andb_true_iff; lia).
  rewrite plus_days_plus_days by lia. reflexivity.
Qed.

Lemma generate_week_dates_overflow start :
  valid_datetime start = true ->
  MAXORDINAL < toordinal start + 69 ->
  generate_week_dates start = Raise OverflowError.
Proof.
  intros Hv Hmax. pose proof (toordinal_range start Hv) as Hr.
  unfold generate_week_dates.
  assert (Hweek : forall w, 0 <= w < 10 ->
    (week_start ← datetime_add start (timedelta_weeks w);
     mapM (fun d => datetime_add week_start (timedelta_days d)) (range 7))
    = (if toordinal start + 7 * w + 6 <=? MAXORDINAL
       then Ok (map (fun d => plus_days start (7 * w + d)) (range 7))
       else Raise OverflowError)).
  { intros w Hw. rewrite datetime_add_weeks by exact Hv.
    destruct (toordinal start + 7 * w + 6 <=? MAXORDINAL) eqn:E.
    - apply Z.leb_le in E.
      replace ((0 <? toordinal start + 7 * w)
               && (toordinal start + 7 * w <=? MAXORDINAL)) with true
        by (symmetry; apply andb_true_iff; lia).
      cbn [mbind result_bind].
      apply mapM_ok. intros d Hd. apply In_range in Hd.
      rewrite datetime_add_days by (apply plus_days_valid; [exact Hv|lia]).
      rewrite plus_days_toordinal by lia.
      replace ((0 <? toordinal start + 7 * w + d)
               && (toordinal start + 7 * w + d <=? MAXORDINAL)) with true
        by (symmetry; apply andb_true_iff; lia).
      rewrite plus_days_plus_days by lia. reflexivity.
    - apply Z.leb_gt in E.
      destruct ((0 <? toordinal start + 7 * w)
                && (toordinal start + 7 * w <=? MAXORDINAL)) eqn:E';
        [|reflexivity].
      apply andb_true_iff in E' as [E1 E2].
      cbn [mbind result_bind].
      apply mapM_raise.
      + intros d Hd. apply In_range in Hd.
        rewrite datetime_add_days by (apply plus_days_valid; [exact Hv|lia]).
        destruct (_ && _); [left; eexists; reflexivity|right; reflexivity].
      + exists 6. split; [apply In_range; lia|].
        rewrite datetime_add_days by (apply plus_days_valid; [exact Hv|lia]).
        rewrite plus_days_toordinal by lia.
        replace ((0 <? toordinal start + 7 * w + 6)
                 && (toordinal start + 7 * w + 6 <=? MAXORDINAL)) with false
          by (symmetry; apply andb_false_iff; right; apply Z.leb_gt; lia).
        reflexivity. }
  apply mapM_raise.
  - intros w Hw. apply In_range in Hw. rewrite (Hweek w Hw).
    destruct (_ <=? _); [left; eexists; reflexivity|right; reflexivity].
  - exists 9. split; [apply In_range; lia|]. rewrite (Hweek 9) by lia.
    replace (toordinal start + 7 * 9 + 6 <=? MAXORDINAL) with false
      by (symmetry; apply Z.leb_gt; lia).
    reflexivity.
Qed.

Lemma weeks_from_length start : List.length (weeks_from start) = 10%nat.
Proof. reflexivity. Qed.

Lemma weeks_from_lookup start (w : nat) wk :
  weeks_from start !! w = Some wk ->
  (w < 10)%nat
  /\ wk = map (fun d => plus_days start (7 * Z.of_nat w + d)) (range 7).
Proof.
  unfold weeks_from. rewrite list_lookup_fmap. intros Hw.
  destruct (range 10 !! w) as [z|] eqn:E; [|discriminate].
  assert (Hlt : (w < 10)%nat).
  { apply lookup_lt_Some in E. exact E. }
  rewrite range_lookup in E by exact Hlt. injection E as <-.
  cbn in Hw. injection Hw as <-. auto.
Qed.

Lemma week_lookup start (w : Z) (d : nat) x :
  map (fun d => plus_days start (7 * w + d)) (range 7) !! d = Some x ->
  (d < 7)%nat /\ x = plus_days start (7 * w + Z.of_nat d).
Proof.
  rewrite list_lookup_fmap. intros Hd.
  destruct (range 7 !! d) as [z|] eqn:E; [|discriminate].
  assert (Hlt : (d < 7)%nat) by (apply lookup_lt_Some in E; exact E).
  rewrite range_lookup in E by exact Hlt. injection E as <-.
  cbn in Hd. injection Hd as <-. auto.
Qed.

Lemma weeks_from_concat start :
  concat (weeks_from start) = map (plus_days start) (range 70).
Proof. reflexivity. Qed.

End WeekDates.

(** ** The claims about the date engine *)

Example first_week_over_new_year :
  exists rest,
    generate_week_dates (date_at 2025 12 29) =
    Ok ([date_at 2025 12 29; date_at 2025 12 30; date_at 2025 12 31;
         date_at 2026 1 1; date_at 2026 1 2; date_at 2026 1 3;
         date_at 2026 1 4] :: rest).
Proof. vm_compute. eexists. reflexivity. Qed.

Example last_start_date : ord2ymd (MAXORDINAL - 69) = (9999, 10, 23).
Proof. reflexivity. Qed.

(** C1, as the code has it. For every start date that leaves room for 69
    more days before 9999-12-31 (a start no later than 9999-10-23),
    [generate_week_dates] returns 10 weeks of 7 dates, 70 in all; the first
    date of week [w] is [start + 7w] days, each date of a week is the first
    one plus its index, and each of the 70 dates is its predecessor plus
    exactly one day. For a later start it raises [OverflowError]. *)
Theorem generate_week_dates_in_range (start : datetime) :
  valid_datetime start = true ->
  (toordinal start + 69 <= MAXORDINAL ->
   exists weeks,
     generate_week_dates start = Ok weeks
     /\ List.length weeks = 10%nat
     /\ Forall (fun wk => List.length wk = 7%nat) weeks
     /\ List.length (concat weeks) = 70%nat
     /\ (forall (w : nat) wk,
           weeks !! w = Some wk ->
           exists first,
             wk !! 0%nat = Some first
             /\ datetime_add start (timedelta_days (7 * Z.of_nat w)) = Ok first
             /\ forall (d : nat) x,
                  wk !! d = Some x ->
                  datetime_add first (timedelta_days (Z.of_nat d)) = Ok x)
     /\ (forall (i : nat) a b,
           concat weeks !! i = Some a ->
           concat weeks !! S i = Some b ->
           datetime_add a (timedelta_days 1) = Ok b
           /\ toordinal b = toordinal a + 1))
  /\ (MAXORDINAL < toordinal start + 69 ->
      generate_week_dates start = Raise OverflowError).
Proof.
  intros Hv. split; [|apply generate_week_dates_overflow; exact Hv].
  intros Hmax. pose proof (toordinal_range start Hv) as Hr.
  exists (weeks_from start).
  split; [apply generate_week_dates_ok; assumption|].
  split; [reflexivity|].
  split.
  { apply Forall_forall. intros wk Hwk. unfold weeks_from in Hwk.
    apply in_map_iff in Hwk as (w & <- & _). reflexivity. }
  split; [reflexivity|].
  split.
  - intros w wk Hw. apply weeks_from_lookup in Hw as [Hw ->].
    exists (plus_days start (7 * Z.of_nat w)).
    split; [cbn; now rewrite Z.add_0_r|].
    split.
    + rewrite datetime_add_days by exact Hv.
      replace ((0 <? toordinal start + 7 * Z.of_nat w)
               && (toordinal start + 7 * Z.of_nat w <=? MAXORDINAL))
        with true by (symmetry; apply andb_true_iff; lia).
      reflexivity.
    + intros d x Hd. apply week_lookup in Hd as [Hd ->].
      rewrite datetime_add_days by (apply plus_days_valid; [exact Hv|lia]).
      rewrite plus_days_toordinal by lia.
      replace ((0 <? toordinal start + 7 * Z.of_nat w + Z.of_nat d)
               && (toordinal start + 7 * Z.of_nat w + Z.of_nat d
                   <=? MAXORDINAL))
        with true by (symmetry; apply andb_true_iff; lia).
      rewrite plus_days_plus_days by lia. reflexivity.
  - intros i a b. rewrite weeks_from_concat, !list_lookup_fmap.
    intros Ha Hb.
    assert (Hi : (S i < 70)%nat).
    { destruct (range 70 !! S i) eqn:E; [|discriminate].
      apply lookup_lt_Some in E. exact E. }
    rewrite range_lookup in Ha, Hb by lia.
    cbn in Ha, Hb. injection Ha as <-. injection Hb as <-.
    rewrite datetime_add_days by (apply plus_days_valid; [exact Hv|lia]).
    rewrite !plus_days_toordinal by lia.
    replace ((0 <? toordinal start + Z.of_nat i + 1)
             && (toordinal start + Z.of_nat i + 1 <=? MAXORDINAL))
      with true by (symmetry; apply andb_true_iff; lia).
    rewrite plus_days_plus_days by lia.
    split; [f_equal; f_equal; lia|lia].
Qed.

Lemma generate_week_dates_in_range_witness :
  exists weeks,
    generate_week_dates (date_at 2026 3 2) = Ok weeks
    /\ List.length weeks = 10%nat
    /\ weeks !! 9%nat =
       Some [date_at 2026 5 4; date_at 2026 5 5; date_at 2026 5 6;
             date_at 2026 5 7; date_at 2026 5 8; date_at 2026 5 9;
             date_at 2026 5 10].
Proof.
  destruct (generate_week_dates_in_range (date_at 2026 3 2) eq_refl)
    as [Hin _].
  destruct (Hin ltac:(vm_compute; discriminate)) as (weeks & Hw & Hlen & _).
  exists weeks. split; [exact Hw|]. split; [exact Hlen|].
  assert (Hc : generate_week_dates (date_at 2026 3 2)
               = Ok (weeks_from (date_at 2026 3 2)))
    by (apply generate_week_dates_ok; [reflexivity|vm_compute; discriminate]).
  rewrite Hw in Hc. injection Hc as ->. vm_compute. reflexivity.
Defined.

(** C1 as stated fails: the Monday 9999-12-06, which [validate_date]
    accepts, has no tenth week before the last representable day. *)
Lemma generate_week_dates_counterexample :
  validate_date "12/06/9999" = Ok (date_at 9999 12 6)
  /\ valid_datetime (date_at 9999 12 6) = true
  /\ weekday (date_at 9999 12 6) = 0
  /\ generate_week_dates (date_at 9999 12 6) = Raise OverflowError
  /\ ~ (exists weeks, generate_week_dates (date_at 9999 12 6) = Ok weeks).
Proof.
  repeat split; try (vm_compute; reflexivity).
  intros [weeks Hw]. vm_compute in Hw. discriminate.
Qed.

(** ** [get_next_monday] *)

Example last_monday : toordinal (date_at 9999 12 27) = MAXORDINAL - 4.
Proof. reflexivity. Qed.

(** C4, as the code has it. For every date up to Monday 9999-12-27 the
    next-Monday computation returns a Monday between 0 and 6 days later, at
    the same time of day, and 0 days later exactly when the date is itself a
    Monday (weekday 0), in which case the date comes back unchanged. For the
    four days after it, [OverflowError] is raised. *)
Theorem get_next_monday_in_range (today : datetime) :
  valid_datetime today = true ->
  (toordinal today <= toordinal (date_at 9999 12 27) ->
   exists r,
     get_next_monday today = Ok r
     /\ valid_datetime r = true
     /\ weekday r = 0
     /\ 0 <= toordinal r - toordinal today <= 6
     /\ (toordinal r - toordinal today = 0 <-> weekday today = 0)
     /\ (weekday today = 0 -> r = today)
     /\ hour r = hour today /\ minute r = minute today
     /\ second r = second today /\ microsecond r = microsecond today)
  /\ (toordinal (date_at 9999 12 27) < toordinal today ->
      get_next_monday today = Raise OverflowError).
Proof.
  intros Hv. pose proof (toordinal_range today Hv) as Hr.
  rewrite last_monday. unfold MAXORDINAL in *.
  unfold get_next_monday. rewrite datetime_add_days by exact Hv.
  unfold weekday, MAXORDINAL.
  set (o := toordinal today) in *.
  set (k := (7 - (o + 6) mod 7) mod 7).
  assert (Hk : 0 <= k <= 6) by (unfold k; Z.to_euclidean_division_equations; lia).
  split.
  - intros Hle.
    assert (Hok : o + k <= 3652055)
      by (unfold k; Z.to_euclidean_division_equations; lia).
    replace ((0 <? o + k) && (o + k <=? 3652059)) with true
      by (symmetry; apply andb_true_iff; lia).
    exists (plus_days today k).
    assert (Ho : toordinal (plus_days today k) = o + k)
      by (apply plus_days_toordinal; unfold MAXORDINAL; fold o; lia).
    split; [reflexivity|].
    split; [apply plus_days_valid; [exact Hv|unfold MAXORDINAL; fold o; lia]|].
    rewrite Ho.
    split; [unfold k; Z.to_euclidean_division_equations; lia|].
    split; [lia|].
    split; [unfold k; Z.to_euclidean_division_equations; lia|].
    split; [|apply plus_days_time].
    intros Hmon.
    replace k with 0 by (unfold k; Z.to_euclidean_division_equations; lia).
    apply plus_days_0. exact Hv.
  - intros Hgt.
    replace ((0 <? o + k) && (o + k <=? 3652059)) with false; [reflexivity|].
    symmetry. apply andb_false_iff. right. apply Z.leb_gt.
    unfold k. Z.to_euclidean_division_equations. lia.
Qed.

Lemma get_next_monday_in_range_witness :
  exists r,
    get_next_monday (mk_datetime 2026 11 4 10 30 0 5) = Ok r
    /\ weekday r = 0
    /\ 0 <= toordinal r - toordinal (mk_datetime 2026 11 4 10 30 0 5) <= 6.
Proof.
  destruct (get_next_monday_in_range (mk_datetime 2026 11 4 10 30 0 5) eq_refl)
    as [Hin _].
  destruct (Hin ltac:(vm_compute; discriminate))
    as (r & Hr & _ & Hmon & Hdiff & _).
  exists r. auto.
Defined.

(** C4 as stated fails on Tuesday 9999-12-28: the Monday after it is not a
    representable date. *)
Lemma get_next_monday_counterexample :
  valid_datetime (date_at 9999 12 28) = true
  /\ weekday (date_at 9999 12 28) = 1
  /\ get_next_monday (date_at 9999 12 28) = Raise OverflowError
  /\ ~ (exists r, get_next_monday (date_at 9999 12 28) = Ok r).
Proof.
  repeat split; try (vm_compute; reflexivity).
  intros [r Hr]. vm_compute in Hr. discriminate.
Qed.

(** ** Strings *)

Section StringFacts.

Local Open Scope string_scope.

Lemma append_cons c (s t : string) : String c s ++ t = String c (s ++ t).
Proof. reflexivity. Qed.

Lemma append_nil_l (t : string) : "" ++ t = t.
Proof. reflexivity. Qed.

Lemma append_nil_r (s : string) : s ++ "" = s.
Proof.
  induction s as [|c s IH]; [reflexivity|]. now rewrite append_cons, IH.
Qed.

Lemma append_assoc (a b c : string) : (a ++ b) ++ c = a ++ (b ++ c).
Proof.
  induction a as [|x a IH]; [reflexivity|]. now rewrite !append_cons, IH.
Qed.

Lemma length_append (a b : string) :
  String.length (a ++ b) = (String.length a + String.length b)%nat.
Proof.
  induction a as [|x a IH]; [reflexivity|].
  rewrite append_cons. cbn. now rewrite IH.
Qed.

Lemma substring_prefix (p s : string) :
  substring 0 (String.length p) (p ++ s) = p.
Proof.
  induction p as [|c p IH].
  - rewrite append_nil_l. destruct s; reflexivity.
  - rewrite append_cons. cbn. now rewrite IH.
Qed.

Lemma consumed_app (p s : string) : consumed (p ++ s) s = p.
Proof.
  unfold consumed. rewrite length_append.
  replace (String.length p + String.length s - String.length s)%nat
    with (String.length p) by lia.
  apply substring_prefix.
Qed.

End StringFacts.

(** ** The matcher finds only what the expression denotes *)

Lemma rmatch_sound {A} (r : regex) :
  forall (s : string) env (k : string -> list (string * string) -> option A) a,
    rmatch r s env k = Some a ->
    exists p s' env',
      s = (p ++ s')%string /\ matches r p env env' /\ k s' env' = Some a.
Proof.
  induction r as [c|lo hi| |r1 IH1 r2 IH2|r1 IH1 r2 IH2|name r IH];
    intros s env k a Hm; cbn in Hm.
  - destruct s as [|c' s']; [discriminate|].
    destruct (Ascii.eqb c c') eqn:E; [|discriminate].
    apply Ascii.eqb_eq in E as <-.
    exists (String c EmptyString), s', env. repeat split; [constructor|exact Hm].
  - destruct s as [|c' s']; [discriminate|].
    destruct (_ && _) eqn:E; [|discriminate].
    exists (String c' EmptyString), s', env.
    repeat split; [constructor; exact E|exact Hm].
  - destruct s as [|c' s']; [discriminate|].
    destruct (is_digit c') eqn:E; [|discriminate].
    exists (String c' EmptyString), s', env.
    repeat split; [constructor; exact E|exact Hm].
  - apply IH1 in Hm as (p1 & s1 & env1 & -> & Hm1 & Hk1).
    apply IH2 in Hk1 as (p2 & s2 & env2 & -> & Hm2 & Hk2).
    exists (p1 ++ p2)%string, s2, env2.
    split; [now rewrite append_assoc|].
    split; [econstructor; eassumption|exact Hk2].
  - destruct (rmatch r1 s env k) as [a'|] eqn:E.
    + injection Hm as ->.
      apply IH1 in E as (p & s' & env' & -> & Hm1 & Hk).
      exists p, s', env'. repeat split; [now apply matches_Alt_l|exact Hk].
    + apply IH2 in Hm as (p & s' & env' & -> & Hm2 & Hk).
      exists p, s', env'. repeat split; [now apply matches_Alt_r|exact Hk].
  - apply IH in Hm as (p & s' & env' & -> & Hm1 & Hk).
    rewrite consumed_app in Hk.
    exists p, s', ((name, p) :: env').
    repeat split; [now constructor|exact Hk].
Qed.

Ltac invert_matches :=
  repeat match goal with
    | H : matches (Lit _) _ _ _ |- _ => inversion H; subst; clear H
    | H : matches (Range _ _) _ _ _ |- _ => inversion H; subst; clear H
    | H : matches Digit _ _ _ |- _ => inversion H; subst; clear H
    | H : matches (Seq _ _) _ _ _ |- _ => inversion H; subst; clear H
    | H : matches (Alt _ _) _ _ _ |- _ => inversion H; subst; clear H
    | H : matches (Group _ _) _ _ _ |- _ => inversion H; subst; clear H
    end.

Lemma matches_re_m p env env' :
  matches re_m p env env' -> month_field p = true /\ env' = env.
Proof.
  unfold re_m. intros Hm. invert_matches;
    rewrite ?append_cons, ?append_nil_l; cbn;
    repeat match goal with H : in_range _ _ _ = true |- _ => rewrite H end;
    rewrite ?orb_true_r; auto.
Qed.

Lemma matches_re_d p env env' :
  matches re_d p env env' -> day_field p = true /\ env' = env.
Proof.
  unfold re_d. intros Hm. invert_matches;
    rewrite ?append_cons, ?append_nil_l; cbn;
    repeat match goal with
      | H : in_range _ _ _ = true |- _ => rewrite H
      | H : is_digit _ = true |- _ => rewrite H
      end;
    rewrite ?orb_true_r; auto.
Qed.

Lemma matches_re_Y p env env' :
  matches re_Y p env env' -> year_field p = true /\ env' = env.
Proof.
  unfold re_Y. intros Hm. invert_matches.
  rewrite ?append_cons, ?append_nil_l. cbn.
  repeat match goal with H : is_digit _ = true |- _ => rewrite H end. auto.
Qed.

(** A string [strptime] accepts is three fields around two slashes, and the
    date is what [int] reads in them. *)
Lemma strptime_ok_inv s dt :
  strptime s = Ok dt ->
  exists ms ds ys y m d,
    s = (ms ++ "/" ++ ds ++ "/" ++ ys)%string
    /\ month_field ms = true /\ day_field ds = true /\ year_field ys = true
    /\ py_int ys = Ok y /\ py_int ms = Ok m /\ py_int ds = Ok d
    /\ valid_ymd y m d = true /\ dt = date_at y m d.
Proof.
  unfold strptime. intros Hs.
  destruct (rmatch format_regex s [] _) as [[rest env]|] eqn:E;
    [|discriminate].
  apply rmatch_sound in E as (p & s' & env' & -> & Hm & Hk).
  injection Hk as -> ->.
  destruct rest; [|discriminate]. rewrite append_nil_r.
  unfold format_regex in Hm.
  inversion Hm as [| | |? ? pm p1 ? envm ? Hgm H1| | |]; subst; clear Hm.
  inversion Hgm as [| | | | | |? ? ? ? envm' Hmm]; subst; clear Hgm.
  inversion H1 as [| | |? ? ps1 p2 ? e1 ? Hs1 H2| | |]; subst; clear H1.
  inversion Hs1; subst; clear Hs1.
  inversion H2 as [| | |? ? pd p3 ? envd ? Hgd H3| | |]; subst; clear H2.
  inversion Hgd as [| | | | | |? ? ? ? envd' Hdd]; subst; clear Hgd.
  inversion H3 as [| | |? ? ps2 py ? e2 ? Hs2 Hgy| | |]; subst; clear H3.
  inversion Hs2; subst; clear Hs2.
  inversion Hgy as [| | | | | |? ? ? ? envy' Hyy]; subst; clear Hgy.
  apply matches_re_m in Hmm as [Hmf ->].
  apply matches_re_d in Hdd as [Hdf ->].
  apply matches_re_Y in Hyy as [Hyf ->].
  cbn [group String.eqb Ascii.eqb Bool.eqb] in Hs.
  destruct (py_int py) as [y|] eqn:Ey; [|discriminate].
  destruct (py_int pm) as [m|] eqn:Em; [|discriminate].
  destruct (py_int pd) as [d|] eqn:Ed; [|discriminate].
  cbn [mbind result_bind] in Hs.
  destruct (valid_ymd y m d) eqn:Ev; [|discriminate].
  injection Hs as <-.
  exists pm, pd, py, y, m, d. repeat split; auto.
Qed.

Lemma strptime_raises_ValueError s e :
  strptime s = Raise e -> exists msg, e = ValueError msg.
Proof.
  unfold strptime, py_int. intros Hs.
  destruct (rmatch _ _ _ _) as [[rest env]|];
    [|injection Hs as <-; eexists; reflexivity].
  destruct rest; [|injection Hs as <-; eexists; reflexivity].
  repeat match type of Hs with
    | context [match strip ?x with _ => _ end] => destruct (strip x)
    | context [match int_digits ?a ?x with _ => _ end] =>
        destruct (int_digits a x)
    | context [if ?b then _ else _] => destruct b
    end; cbn in Hs; try discriminate;
    try (injection Hs as <-; eexists; reflexivity);
    repeat match type of Hs with
    | context [match strip ?x with _ => _ end] => destruct (strip x)
    | context [match int_digits ?a ?x with _ => _ end] =>
        destruct (int_digits a x)
    | context [if ?b then _ else _] => destruct b
    end; cbn in Hs; try discriminate;
    try (injection Hs as <-; eexists; reflexivity).
Qed.

(** ** The month and day fields, character by character *)

Section Fields.

Local Open Scope string_scope.

Lemma forall_bool_spec f : forall_bool f = true -> forall b, f b = true.
Proof.
  unfold forall_bool. intros Hf b. apply andb_true_iff in Hf as [Ht Hf].
  destruct b; assumption.
Qed.

Lemma forall_ascii_spec f : forall_ascii f = true -> forall c, f c = true.
Proof.
  unfold forall_ascii. intros Hf [b0 b1 b2 b3 b4 b5 b6 b7].
  pose proof (forall_bool_spec _ Hf b0) as H0. cbv beta in H0.
  pose proof (forall_bool_spec _ H0 b1) as H1. cbv beta in H1.
  pose proof (forall_bool_spec _ H1 b2) as H2. cbv beta in H2.
  pose proof (forall_bool_spec _ H2 b3) as H3. cbv beta in H3.
  pose proof (forall_bool_spec _ H3 b4) as H4. cbv beta in H4.
  pose proof (forall_bool_spec _ H4 b5) as H5. cbv beta in H5.
  pose proof (forall_bool_spec _ H5 b6) as H6. cbv beta in H6.
  exact (forall_bool_spec _ H6 b7).
Qed.

Lemma month_field_1_check :
  forall_ascii (fun a =>
    let f := String a "" in
    if month_field f then field_ok 1 12 f else true) = true.
Proof. vm_compute. reflexivity. Qed.

Lemma month_field_2_check :
  forall_ascii (fun a => forall_ascii (fun b =>
    let f := String a (String b "") in
    if month_field f then field_ok 1 12 f else true)) = true.
Proof. vm_compute. reflexivity. Qed.

Lemma day_field_1_check :
  forall_ascii (fun a =>
    let f := String a "" in
    if day_field f then field_ok 1 31 f else true) = true.
Proof. vm_compute. reflexivity. Qed.

Lemma day_field_2_check :
  forall_ascii (fun a => forall_ascii (fun b =>
    let f := String a (String b "") in
    if day_field f then field_ok 1 31 f else true)) = true.
Proof. vm_compute. reflexivity. Qed.

Lemma digit_not_slash_check :
  forall_ascii (fun c => if is_digit c then negb (Ascii.eqb c "/") else true)
  = true.
Proof. vm_compute. reflexivity. Qed.

Lemma month_field_ok f : month_field f = true -> field_ok 1 12 f = true.
Proof.
  destruct f as [|a [|b [|c f]]]; try discriminate; intros Hf.
  - pose proof (forall_ascii_spec _ month_field_1_check a) as Hc.
    cbv beta zeta in Hc. now rewrite Hf in Hc.
  - pose proof (forall_ascii_spec _ month_field_2_check a) as Hc.
    cbv beta in Hc.
    pose proof (forall_ascii_spec _ Hc b) as Hc'.
    cbv beta zeta in Hc'. now rewrite Hf in Hc'.
Qed.

Lemma day_field_ok f : day_field f = true -> field_ok 1 31 f = true.
Proof.
  destruct f as [|a [|b [|c f]]]; try discriminate; intros Hf.
  - pose proof (forall_ascii_spec _ day_field_1_check a) as Hc.
    cbv beta zeta in Hc. now rewrite Hf in Hc.
  - pose proof (forall_ascii_spec _ day_field_2_check a) as Hc.
    cbv beta in Hc.
    pose proof (forall_ascii_spec _ Hc b) as Hc'.
    cbv beta zeta in Hc'. now rewrite Hf in Hc'.
Qed.

Lemma field_ok_inv lo hi f n :
  field_ok lo hi f = true -> py_int f = Ok n ->
  lo <= n <= hi
  /\ two_digits n = zfill 2 (strip f)
  /\ no_slash f = true
  /\ (String.length f = 2%nat -> String.prefix " " f = false ->
      two_digits n = f).
Proof.
  unfold field_ok. intros Hf Hn. rewrite Hn in Hf.
  apply andb_true_iff in Hf as [Hf Hstrict].
  apply andb_true_iff in Hf as [Hf Hslash].
  apply andb_true_iff in Hf as [Hf Hpad].
  apply andb_true_iff in Hf as [Hlo Hhi].
  apply String.eqb_eq in Hpad.
  repeat split; try lia; auto.
  intros Hlen Hblank. rewrite Hlen, Hblank in Hstrict. cbn in Hstrict.
  now apply String.eqb_eq.
Qed.

Lemma digit_not_slash c : is_digit c = true -> Ascii.eqb c "/" = false.
Proof.
  intros Hc. pose proof (forall_ascii_spec _ digit_not_slash_check c) as H.
  cbv beta in H. rewrite Hc in H. now apply negb_true_iff in H.
Qed.

Lemma year_field_no_slash f : year_field f = true -> no_slash f = true.
Proof.
  destruct f as [|a [|b [|c [|d [|e f]]]]]; try discriminate.
  unfold year_field. cbn [no_slash].
  intros Hf.
  apply andb_true_iff in Hf as [Hf Hd]. apply andb_true_iff in Hf as [Hf Hc].
  apply andb_true_iff in Hf as [Ha Hb].
  now rewrite !digit_not_slash by assumption.
Qed.

Lemma split_on_no_slash p : no_slash p = true -> split_on "/" p = [p].
Proof.
  induction p as [|c p IH]; [reflexivity|]. cbn [no_slash split_on].
  intros Hp.
  apply andb_true_iff in Hp as [Hc Hp]. apply negb_true_iff in Hc.
  now rewrite Hc, IH.
Qed.

Lemma split_on_field p rest :
  no_slash p = true ->
  split_on "/" (p ++ "/" ++ rest) = p :: split_on "/" rest.
Proof.
  induction p as [|c p IH]; intros Hp.
  - reflexivity.
  - cbn [no_slash] in Hp. apply andb_true_iff in Hp as [Hc Hp].
    apply negb_true_iff in Hc.
    rewrite append_cons. cbn [split_on]. now rewrite Hc, IH.
Qed.

Lemma split_on_date ms ds ys :
  no_slash ms = true -> no_slash ds = true -> no_slash ys = true ->
  split_on "/" (ms ++ "/" ++ ds ++ "/" ++ ys) = [ms; ds; ys].
Proof.
  intros Hm Hd Hy.
  now rewrite !split_on_field, split_on_no_slash by assumption.
Qed.

End Fields.

(** ** The matcher accepts every string of the shape *)

Section Completeness.

Local Open Scope string_scope.

Lemma ascii_eqb_code a b : Ascii.eqb a b = (code a =? code b)%Z.
Proof.
  destruct (Ascii.eqb_spec a b) as [->|Hne].
  - symmetry. apply Z.eqb_refl.
  - symmetry. apply Z.eqb_neq. unfold code. intros Hc.
    apply N2Z.inj in Hc. apply Hne.
    rewrite <- (ascii_N_embedding a), <- (ascii_N_embedding b).
    now rewrite Hc.
Qed.

Lemma code_range c : 0 <= code c < 256.
Proof.
  unfold code. pose proof (N_ascii_bounded c). lia.
Qed.

Lemma consumed_1 a s : consumed (String a s) s = String a "".
Proof. exact (consumed_app (String a "") s). Qed.

Lemma consumed_2 a b s :
  consumed (String a (String b s)) s = String a (String b "").
Proof. exact (consumed_app (String a (String b "")) s). Qed.

Lemma consumed_4 a b c d :
  consumed (String a (String b (String c (String d "")))) ""
  = String a (String b (String c (String d ""))).
Proof. reflexivity. Qed.

(** The tests on characters become comparisons of their codes. *)
Ltac code_tests :=
  unfold in_range, is_digit in *;
  rewrite ?ascii_eqb_code in *;
  repeat match goal with
    | |- context [code (Ascii ?b0 ?b1 ?b2 ?b3 ?b4 ?b5 ?b6 ?b7)] =>
        let v := eval vm_compute in (code (Ascii b0 b1 b2 b3 b4 b5 b6 b7)) in
        change (code (Ascii b0 b1 b2 b3 b4 b5 b6 b7)) with v
    | H : context [code (Ascii ?b0 ?b1 ?b2 ?b3 ?b4 ?b5 ?b6 ?b7)] |- _ =>
        let v := eval vm_compute in (code (Ascii b0 b1 b2 b3 b4 b5 b6 b7)) in
        change (code (Ascii b0 b1 b2 b3 b4 b5 b6 b7)) with v in H
    end.

Ltac split_tests :=
  repeat match goal with
    | |- context [if ?c then _ else _] =>
        match c with
        | context [(?x =? ?y)%Z] => destruct (Z.eqb_spec x y)
        | context [(?x <=? ?y)%Z] => destruct (Z.leb_spec x y)
        end; cbn [andb orb negb]
    end.


Ltac field_cases Hk Hf :=
  rewrite ?append_cons, ?append_nil_l;
  cbn [rmatch re_m re_d month_field day_field] in *;
  rewrite ?consumed_1, ?consumed_2;
  code_tests;
  rewrite ?orb_true_iff, ?andb_true_iff, ?Z.eqb_eq, ?Z.leb_le in Hf;
  split_tests; try (exfalso; lia);
  repeat match goal with
    | |- context [?k (String ?c ?s) ?e] =>
        rewrite (Hk c s e) by (code_tests; lia)
    end;
  try reflexivity;
  repeat match goal with
    | |- context [match ?x with Some _ => _ | None => _ end] => destruct x
    end;
  reflexivity.

Lemma rmatch_month {A} ms rest env
    (k : string -> list (string * string) -> option A) :
  wants_slash k ->
  month_field ms = true ->
  rmatch (Group "m" re_m) (ms ++ String "/" rest) env k
  = k (String "/" rest) (("m", ms) :: env).
Proof.
  intros Hk.
  destruct ms as [|a [|b [|c ms]]]; try discriminate; intros Hf;
    field_cases Hk Hf.
Qed.

Lemma rmatch_day {A} ds rest env
    (k : string -> list (string * string) -> option A) :
  wants_slash k ->
  day_field ds = true ->
  rmatch (Group "d" re_d) (ds ++ String "/" rest) env k
  = k (String "/" rest) (("d", ds) :: env).
Proof.
  intros Hk.
  destruct ds as [|a [|b [|c ds]]]; try discriminate; intros Hf;
    field_cases Hk Hf.
Qed.

Lemma rmatch_year {A} ys env
    (k : string -> list (string * string) -> option A) :
  year_field ys = true ->
  rmatch (Group "Y" re_Y) ys env k = k "" (("Y", ys) :: env).
Proof.
  destruct ys as [|a [|b [|c [|d [|e ys]]]]]; try discriminate.
  unfold year_field. intros Hf.
  apply andb_true_iff in Hf as [Hf Hd]. apply andb_true_iff in Hf as [Hf Hc].
  apply andb_true_iff in Hf as [Ha Hb].
  cbn [rmatch re_Y]. rewrite Ha, Hb, Hc, Hd. reflexivity.
Qed.

Lemma rmatch_slash {A} r
    (k : string -> list (string * string) -> option A) :
  wants_slash (fun s' env' => rmatch (Seq (Lit "/") r) s' env' k).
Proof.
  intros c s' env' Hc. cbn [rmatch].
  rewrite ascii_eqb_code. destruct (Z.eqb_spec (code "/") (code c)) as [E|E];
    [|reflexivity].
  exfalso. apply Hc. rewrite <- E. reflexivity.
Qed.

Lemma rmatch_Seq {A} r1 r2 s env
    (k : string -> list (string * string) -> option A) :
  rmatch (Seq r1 r2) s env k
  = rmatch r1 s env (fun s' env' => rmatch r2 s' env' k).
Proof. reflexivity. Qed.

Lemma rmatch_Lit {A} c s env
    (k : string -> list (string * string) -> option A) :
  rmatch (Lit c) (String c s) env k = k s env.
Proof. cbn [rmatch]. now rewrite Ascii.eqb_refl. Qed.

(** The expression of the format on a string of the shape. *)
Lemma rmatch_format ms ds ys :
  month_field ms = true -> day_field ds = true -> year_field ys = true ->
  rmatch format_regex (ms ++ "/" ++ ds ++ "/" ++ ys) []
    (fun rest env => Some (rest, env))
  = Some ("", [("Y", ys); ("d", ds); ("m", ms)]).
Proof.
  intros Hm Hd Hy. unfold format_regex.
  change (ms ++ "/" ++ ds ++ "/" ++ ys)
    with (ms ++ String "/" (ds ++ String "/" ys)).
  rewrite rmatch_Seq.
  rewrite (rmatch_month ms _ _ _ (rmatch_slash _ _) Hm).
  rewrite rmatch_Seq, rmatch_Lit, rmatch_Seq.
  rewrite (rmatch_day ds _ _ _ (rmatch_slash _ _) Hd).
  rewrite rmatch_Seq, rmatch_Lit.
  exact (rmatch_year ys _ _ Hy).
Qed.

End Completeness.

(** ** [strptime] against the shape *)

Section StrptimeSpec.

Local Open Scope string_scope.

Lemma digit_not_space_check :
  forall_ascii (fun c => if is_digit c then negb (is_space c) else true)
  = true.
Proof. vm_compute. reflexivity. Qed.

Lemma digit_not_space c : is_digit c = true -> is_space c = false.
Proof.
  intros Hc. pose proof (forall_ascii_spec _ digit_not_space_check c) as H.
  cbv beta in H. rewrite Hc in H. now apply negb_true_iff in H.
Qed.

Lemma year_field_int ys :
  year_field ys = true -> exists y, py_int ys = Ok y.
Proof.
  destruct ys as [|a [|b [|c [|d [|e ys]]]]]; try discriminate.
  unfold year_field. intros Hf.
  apply andb_true_iff in Hf as [Hf Hd]. apply andb_true_iff in Hf as [Hf Hc].
  apply andb_true_iff in Hf as [Ha Hb].
  unfold py_int, strip.
  repeat (progress (cbn [lstrip rstrip];
                    rewrite ?digit_not_space by assumption)).
  cbn [int_digits]. rewrite Ha, Hb, Hc, Hd. eexists. reflexivity.
Qed.

Lemma split_on_nonempty s : split_on "/" s <> [].
Proof.
  destruct s as [|c s]; [discriminate|]. cbn [split_on].
  destruct (Ascii.eqb c "/"); [discriminate|].
  destruct (split_on "/" s); discriminate.
Qed.

Lemma concat_cons c f fs :
  String.concat "/" (String c f :: fs) = String c (String.concat "/" (f :: fs)).
Proof. destruct fs; reflexivity. Qed.

Lemma concat_two x y l :
  String.concat "/" (x :: y :: l) = x ++ "/" ++ String.concat "/" (y :: l).
Proof. reflexivity. Qed.

(** Joining the fields with slashes gives the string back. *)
Lemma split_on_join s : String.concat "/" (split_on "/" s) = s.
Proof.
  induction s as [|c s IH]; [reflexivity|]. cbn [split_on].
  destruct (Ascii.eqb_spec c "/") as [->|Hne].
  - pose proof (split_on_nonempty s) as Hs.
    destruct (split_on "/" s) as [|f fs]; [contradiction|].
    now rewrite concat_two, IH.
  - pose proof (split_on_nonempty s) as Hs.
    destruct (split_on "/" s) as [|f fs]; [contradiction|].
    now rewrite concat_cons, IH.
Qed.

Lemma split_on_three s ms ds ys :
  split_on "/" s = [ms; ds; ys] -> s = ms ++ "/" ++ ds ++ "/" ++ ys.
Proof.
  intros Hs. rewrite <- (split_on_join s), Hs. reflexivity.
Qed.

(** [strptime] returns exactly the date the shape denotes. *)
Theorem strptime_spec s dt : strptime s = Ok dt <-> parsed_date s = Some dt.
Proof.
  split.
  - intros Hs.
    apply strptime_ok_inv in Hs
      as (ms & ds & ys & y & m & d & -> & Hm & Hd & Hy & Ey & Em & Ed & Hv & ->).
    destruct (field_ok_inv _ _ _ _ (month_field_ok _ Hm) Em)
      as (_ & _ & Hsm & _).
    destruct (field_ok_inv _ _ _ _ (day_field_ok _ Hd) Ed)
      as (_ & _ & Hsd & _).
    unfold parsed_date.
    rewrite split_on_date by (auto using year_field_no_slash).
    now rewrite Hm, Hd, Hy, Ey, Em, Ed, Hv.
  - unfold parsed_date. intros Hp.
    destruct (split_on "/" s) as [|ms [|ds [|ys [|]]]] eqn:Es;
      try discriminate.
    apply split_on_three in Es as ->.
    destruct (month_field ms) eqn:Hm; [|discriminate].
    destruct (day_field ds) eqn:Hd; [|discriminate].
    destruct (year_field ys) eqn:Hy; [|discriminate].
    cbn [andb] in Hp.
    unfold strptime. rewrite rmatch_format by assumption.
    cbn [group String.eqb Ascii.eqb Bool.eqb].
    destruct (py_int ys) as [y|]; [|discriminate].
    destruct (py_int ms) as [m|]; [|discriminate].
    destruct (py_int ds) as [d|]; [|discriminate].
    cbn [mbind result_bind].
    destruct (valid_ymd y m d); [|discriminate].
    now injection Hp as <-.
Qed.

Lemma strptime_raise_spec s :
  (exists e, strptime s = Raise e) <-> parsed_date s = None.
Proof.
  split.
  - intros [e He]. destruct (parsed_date s) as [dt|] eqn:Ep; [|reflexivity].
    apply strptime_spec in Ep. congruence.
  - intros Hp. destruct (strptime s) as [dt|e] eqn:Es; [|eauto].
    apply strptime_spec in Es. congruence.
Qed.

Lemma parsed_date_shape s dt : parsed_date s = Some dt -> date_shape s = true.
Proof.
  unfold parsed_date, date_shape.
  destruct (split_on "/" s) as [|ms [|ds [|ys [|]]]]; try discriminate.
  now destruct (month_field ms && day_field ds && year_field ys).
Qed.

End StrptimeSpec.

(** ** The claims about [validate_date] and [format_date] *)

Section ValidateDate.

Local Open Scope string_scope.

Lemma validate_date_ok s dt :
  validate_date s = Ok dt <-> strptime s = Ok dt /\ weekday dt = 0.
Proof.
  unfold validate_date. destruct (strptime s) as [dt'|e].
  - destruct (Z.eqb_spec (weekday dt') 0) as [E|E]; cbn [negb].
    + split; [intros [= <-]; auto|intros [[= <-] _]; reflexivity].
    + split; [discriminate|intros [[= <-] ?]; contradiction].
  - split; [destruct e; discriminate|intros [? _]; discriminate].
Qed.

Lemma validate_date_format_error s :
  validate_date s = Raise (ValueError FORMAT_MSG)
  <-> exists e, strptime s = Raise e.
Proof.
  unfold validate_date. destruct (strptime s) as [dt|e] eqn:Es.
  - split; [|intros [e He]; discriminate].
    destruct (negb _); [|discriminate]. intros [=].
  - split; [eauto|]. intros _.
    apply strptime_raises_ValueError in Es as [msg ->]. reflexivity.
Qed.

Lemma validate_date_monday_error s :
  validate_date s = Raise (ValueError MONDAY_MSG)
  <-> exists dt, strptime s = Ok dt /\ weekday dt <> 0.
Proof.
  unfold validate_date. destruct (strptime s) as [dt|e] eqn:Es.
  - destruct (Z.eqb_spec (weekday dt) 0) as [E|E]; cbn [negb].
    + split; [discriminate|intros (dt' & [= <-] & ?); contradiction].
    + split; [eauto|reflexivity].
  - split; [|intros (dt & ? & _); discriminate].
    apply strptime_raises_ValueError in Es as [msg ->].
    intros [=].
Qed.

(** C3. For every input string, [validate_date] raises the format error
    exactly when the string is not parsable as a month/day/year date, raises
    the Monday error exactly when it parses to a date whose weekday is not
    Monday, and returns the parsed date exactly when it parses and falls on a
    Monday; the two messages differ, one naming the format and the other the
    weekday. *)
Theorem validate_date_outcomes (s : string) :
  (validate_date s = Raise (ValueError FORMAT_MSG) <-> parsed_date s = None)
  /\ (validate_date s = Raise (ValueError MONDAY_MSG)
      <-> exists dt, parsed_date s = Some dt /\ weekday dt <> 0)
  /\ (forall dt,
        validate_date s = Ok dt
        <-> parsed_date s = Some dt /\ weekday dt = 0)
  /\ FORMAT_MSG <> MONDAY_MSG
  /\ contains "format" FORMAT_MSG = true
  /\ contains "format" MONDAY_MSG = false
  /\ contains "Monday" MONDAY_MSG = true
  /\ contains "Monday" FORMAT_MSG = false.
Proof.
  split; [|split; [|split]].
  - rewrite validate_date_format_error. apply strptime_raise_spec.
  - rewrite validate_date_monday_error.
    split; intros (dt & Hdt & Hw); exists dt; split; auto;
      now apply strptime_spec.
  - intros dt. rewrite validate_date_ok, strptime_spec. reflexivity.
  - repeat split; try reflexivity. discriminate.
Qed.



(** C6, as the code has it. [validate_date] accepts only a month of one or
    two digits, a day of one or two digits (a leading zero is optional, and a
    blank may stand for it in the day) and a year of four digits, with a slash
    between them: every string that deviates from this shape, such as one
    separated by dashes, fails with the format error. *)
Theorem validate_date_rejects_other_shapes (s : string) :
  date_shape s = false ->
  validate_date s = Raise (ValueError FORMAT_MSG).
Proof.
  intros Hshape. apply validate_date_format_error, strptime_raise_spec.
  destruct (parsed_date s) as [dt|] eqn:Ep; [|reflexivity].
  apply parsed_date_shape in Ep. congruence.
Qed.

Lemma validate_date_rejects_other_shapes_witness :
  validate_date "2026-03-02" = Raise (ValueError FORMAT_MSG).
Proof.
  apply (validate_date_rejects_other_shapes "2026-03-02"). reflexivity.
Defined.

(** C6 as stated fails: a month and a day of one digit deviate from
    [MM/DD/YYYY] and are accepted all the same. *)
Lemma validate_date_single_digit_counterexample :
  strict_shape "3/2/2026" = false
  /\ validate_date "3/2/2026" = Ok (date_at 2026 3 2)
  /\ ~ (forall s, strict_shape s = false ->
                  validate_date s = Raise (ValueError FORMAT_MSG)).
Proof.
  split; [reflexivity|]. split; [reflexivity|].
  intros Hall. specialize (Hall "3/2/2026" eq_refl). discriminate.
Qed.

End ValidateDate.

(** ** Indexing *)

Section Indexing.

Context {A : Type}.

Lemma py_index_nonneg (l : list A) (i : Z) :
  0 <= i ->
  py_index l i = match l !! Z.to_nat i with
                 | Some a => Ok a
                 | None => Raise IndexError
                 end.
Proof.
  intros Hi. unfold py_index.
  replace (i <? 0) with false by (symmetry; apply Z.ltb_ge; lia).
  destruct (l !! Z.to_nat i) as [a|] eqn:E.
  - apply lookup_lt_Some in E.
    replace ((0 <=? i) && (i <? Z.of_nat (List.length l))) with true
      by (symmetry; apply andb_true_iff; lia).
    reflexivity.
  - now destruct (_ && _).
Qed.

Lemma py_index_in_bounds (l : list A) (i : Z) :
  0 <= i < Z.of_nat (List.length l) -> exists a, py_index l i = Ok a.
Proof.
  intros Hi. rewrite py_index_nonneg by lia.
  destruct (l !! Z.to_nat i) as [a|] eqn:E; [eauto|].
  apply lookup_ge_None in E. lia.
Qed.

Lemma py_index_out_of_bounds (l : list A) (i : Z) :
  Z.of_nat (List.length l) <= i -> py_index l i = Raise IndexError.
Proof.
  intros Hi. rewrite py_index_nonneg by lia.
  destruct (l !! Z.to_nat i) as [a|] eqn:E; [|reflexivity].
  apply lookup_lt_Some in E. lia.
Qed.

End Indexing.

Lemma mapM_length {A B} (f : A -> result B) (l : list A) (r : list B) :
  mapM f l = Ok r -> List.length r = List.length l.
Proof.
  revert r; induction l as [|a l IH]; intros r Hr; cbn in Hr.
  - now injection Hr as <-.
  - destruct (f a) as [b|]; [|discriminate]. cbn in Hr.
    destruct (mapM f l) as [r'|]; [|discriminate]. cbn in Hr.
    injection Hr as <-. cbn. now rewrite (IH r').
Qed.

Lemma mapM_Forall {A B} (f : A -> result B) (P : B -> Prop) (l : list A) r :
  (forall a b, f a = Ok b -> P b) -> mapM f l = Ok r -> Forall P r.
Proof.
  intros Hf. revert r; induction l as [|a l IH]; intros r Hr; cbn in Hr.
  - injection Hr as <-. constructor.
  - destruct (f a) as [b|] eqn:E; [|discriminate]. cbn in Hr.
    destruct (mapM f l) as [r'|]; [|discriminate]. cbn in Hr.
    injection Hr as <-. constructor; eauto.
Qed.


Lemma generate_week_dates_shape start weeks :
  generate_week_dates start = Ok weeks -> ten_weeks weeks.
Proof.
  unfold generate_week_dates. intros Hw. split.
  - now rewrite (mapM_length _ _ _ Hw).
  - eapply mapM_Forall; [|exact Hw]. intros w wk Hwk. cbv beta in Hwk.
    destruct (datetime_add start (timedelta_weeks w)) as [ws|]; [|discriminate].
    cbn [mbind result_bind] in Hwk. now rewrite (mapM_length _ _ _ Hwk).
Qed.

Ltac explicit_list l n :=
  match n with
  | O => destruct l as [|? ?]; [|discriminate]
  | S ?n' =>
      let x := fresh "x" in
      let l' := fresh "l" in
      destruct l as [|x l']; [discriminate|]; explicit_list l' n'
  end.

Lemma ten_weeks_explicit weeks :
  ten_weeks weeks ->
  exists d00 d01 d02 d03 d04 d05 d06 d10 d11 d12 d13 d14 d15 d16
         d20 d21 d22 d23 d24 d25 d26 d30 d31 d32 d33 d34 d35 d36
         d40 d41 d42 d43 d44 d45 d46 d50 d51 d52 d53 d54 d55 d56
         d60 d61 d62 d63 d64 d65 d66 d70 d71 d72 d73 d74 d75 d76
         d80 d81 d82 d83 d84 d85 d86 d90 d91 d92 d93 d94 d95 d96,
    weeks = [[d00; d01; d02; d03; d04; d05; d06];
             [d10; d11; d12; d13; d14; d15; d16];
             [d20; d21; d22; d23; d24; d25; d26];
             [d30; d31; d32; d33; d34; d35; d36];
             [d40; d41; d42; d43; d44; d45; d46];
             [d50; d51; d52; d53; d54; d55; d56];
             [d60; d61; d62; d63; d64; d65; d66];
             [d70; d71; d72; d73; d74; d75; d76];
             [d80; d81; d82; d83; d84; d85; d86];
             [d90; d91; d92; d93; d94; d95; d96]].
Proof.
  intros [Hlen Hweeks].
  do 10 (destruct weeks as [|? weeks]; [discriminate|]).
  destruct weeks; [|discriminate]. clear Hlen.
  repeat match goal with
    | H : Forall _ (_ :: _) |- _ => inversion H; subst; clear H
    | H : Forall _ [] |- _ => clear H
    end.
  repeat match goal with
    | H : List.length ?l = 7%nat |- _ =>
        do 7 (destruct l as [|? l]; [discriminate|]);
        destruct l; [|discriminate]; clear H
    end.
  repeat eexists.
Qed.

(** ** The pages of the three variants *)

Section VariantPages.

Context {num : Type} `{FloatOps num}.
Variable string_width : font -> string -> num.


(** The page of a variant with a totals column, for any two lines. *)
Lemma totals_page (l1 l2 : string) weeks :
  ten_weeks weeks ->
  let r := calendar_page string_width HEADERS_TOTAL WIDTHS_TOTAL weeks true
             (Some (fun _ => [l1; l2])) None (new_FPDF "L" "pt" "letter") in
  fst r = Ok ()
  /\ cells_of (content (snd r))
     = page_cells HEADERS_TOTAL weeks None (Some (fun _ => [l1; l2])).
Proof.
  intros Hw.
  destruct (ten_weeks_explicit weeks Hw)
    as (d00 & d01 & d02 & d03 & d04 & d05 & d06 &
        d10 & d11 & d12 & d13 & d14 & d15 & d16 &
        d20 & d21 & d22 & d23 & d24 & d25 & d26 &
        d30 & d31 & d32 & d33 & d34 & d35 & d36 &
        d40 & d41 & d42 & d43 & d44 & d45 & d46 &
        d50 & d51 & d52 & d53 & d54 & d55 & d56 &
        d60 & d61 & d62 & d63 & d64 & d65 & d66 &
        d70 & d71 & d72 & d73 & d74 & d75 & d76 &
        d80 & d81 & d82 & d83 & d84 & d85 & d86 &
        d90 & d91 & d92 & d93 & d94 & d95 & d96 & ->).
  clear Hw. split; cbv -[format_date str]; reflexivity.
Qed.

End VariantPages.

(** ** What the drawing code puts on the page *)

Section Emits.

Context {num : Type} `{FloatOps num}.
Variable string_width : font -> string -> num.

Abbreviation pdfM := (@pdfM num).
Abbreviation draw_op := (@draw_op num).

Ltac pdf_simpl :=
  cbv [mbind mret pdfM_bind pdfM_ret set_fill_color rect emit set_xy cell
       set_font get_string_width lift add_page set_auto_page_break
       snd fst content cur_x cur_y cur_font fill_color orientation unit_
       page_format auto_page_break pages].

Ltac pdf_simpl_in H :=
  cbv [mbind mret pdfM_bind pdfM_ret set_fill_color rect emit set_xy cell
       set_font get_string_width lift add_page set_auto_page_break
       snd fst content cur_x cur_y cur_font fill_color orientation unit_
       page_format auto_page_break pages] in H.

(** [m] only appends to the page, and what it appends satisfies [P], whether
    it returns or raises. *)
Definition emits (P : draw_op -> Prop) {A} (m : pdfM A) : Prop :=
  forall pdf, exists ops,
    content (snd (m pdf)) = content pdf ++ ops /\ Forall P ops.

Lemma bind_ok_inv {A B} (m : pdfM A) (k : A -> pdfM B) pdf b pdf' :
  (m ≫= k) pdf = (Ok b, pdf') ->
  exists a pdf1, m pdf = (Ok a, pdf1) /\ k a pdf1 = (Ok b, pdf').
Proof.
  unfold mbind, pdfM_bind. destruct (m pdf) as [[a|e] pdf1]; [eauto|].
  discriminate.
Qed.

Lemma emits_ret P {A} (a : A) : emits P (mret a : pdfM A).
Proof. intros pdf. exists []. pdf_simpl. now rewrite app_nil_r. Qed.

Lemma emits_lift P {A} (r : result A) : emits P (lift r).
Proof. intros pdf. exists []. pdf_simpl. now rewrite app_nil_r. Qed.

Lemma emits_bind P {A B} (m : pdfM A) (k : A -> pdfM B) :
  emits P m -> (forall a, emits P (k a)) -> emits P (m ≫= k).
Proof.
  intros Hm Hk pdf. unfold mbind, pdfM_bind.
  destruct (Hm pdf) as (ops1 & Hc1 & HP1).
  destruct (m pdf) as [[a|e] pdf1]; cbn [snd] in Hc1.
  - destruct (Hk a pdf1) as (ops2 & Hc2 & HP2).
    exists (ops1 ++ ops2). rewrite Hc2, Hc1, app_assoc.
    split; [reflexivity|]. now apply Forall_app.
  - exists ops1. cbn [snd]. auto.
Qed.

Lemma emits_for_each P {A S} (items : list A) (body : A -> S -> pdfM S) s :
  (forall a s, emits P (body a s)) -> emits P (for_each items body s).
Proof.
  intros Hb. revert s; induction items as [|a items IH]; intros s.
  - apply emits_ret.
  - cbn [for_each]. apply emits_bind; [apply Hb|]. intros s'. apply IH.
Qed.

Lemma emits_nothing P {A} (m : pdfM A) :
  (forall pdf, content (snd (m pdf)) = content pdf) -> emits P m.
Proof. intros Hm pdf. exists []. now rewrite Hm, app_nil_r. Qed.

Lemma emits_one P {A} (m : pdfM A) :
  (forall pdf, exists op, content (snd (m pdf)) = content pdf ++ [op] /\ P op) ->
  emits P m.
Proof.
  intros Hm pdf. destruct (Hm pdf) as (op & Hc & HP).
  exists [op]. split; [exact Hc|]. now constructor.
Qed.

(** Neither a text nor a rectangle that is not filled with the week-number
    colour starts a week-number cell. *)
Definition not_week_number_rect (op : draw_op) : Prop :=
  match op with
  | DrawRect _ _ _ _ sty fill => week_number_rect sty fill = false
  | DrawText _ _ _ _ _ _ _ => True
  end.

Lemma emits_set_font fam sty sz :
  emits not_week_number_rect (set_font fam sty sz).
Proof. now apply emits_nothing. Qed.

Lemma emits_set_xy x y : emits not_week_number_rect (set_xy x y).
Proof. now apply emits_nothing. Qed.

Lemma emits_get_string_width s :
  emits not_week_number_rect (get_string_width string_width s).
Proof. now apply emits_nothing. Qed.

Lemma emits_cell w h text align :
  emits not_week_number_rect (cell w h text align).
Proof. apply emits_one. intros pdf. eexists. split; [reflexivity|exact I]. Qed.

Lemma emits_rect_stroked x y w h :
  emits not_week_number_rect (rect x y w h "D").
Proof.
  apply emits_one. intros pdf. eexists. split; [reflexivity|reflexivity].
Qed.

Lemma emits_header_cell x y w h header :
  emits not_week_number_rect
    (_ ← set_fill_color COLOR_LIGHT_BLUE;
     _ ← rect x y w h "FD";
     _ ← set_xy x y;
     _ ← cell w h header "C";
     (mret (add x w) : pdfM num)).
Proof.
  intros pdf. eexists. split.
  - pdf_simpl. rewrite <- app_assoc. reflexivity.
  - repeat constructor.
Qed.

Lemma emits_draw_header_row x_start y_start col_widths headers has_total :
  emits not_week_number_rect
    (_draw_header_row x_start y_start col_widths headers has_total).
Proof.
  unfold _draw_header_row. apply emits_bind; [|intros; apply emits_ret].
  apply emits_for_each. intros [header w] x. apply emits_header_cell.
Qed.

Lemma emits_draw_day_columns x y col_widths week_dates row_h labels :
  emits not_week_number_rect
    (draw_day_columns string_width x y col_widths week_dates row_h labels).
Proof.
  unfold draw_day_columns. apply emits_for_each. intros day_idx x'.
  apply emits_bind; [apply emits_lift|]. intros w.
  apply emits_bind; [apply emits_rect_stroked|]. intros _.
  apply emits_bind; [apply emits_lift|]. intros dt.
  apply emits_bind; [apply emits_set_font|]. intros _.
  apply emits_bind; [apply emits_get_string_width|]. intros date_w.
  apply emits_bind; [apply emits_set_xy|]. intros _.
  apply emits_bind; [apply emits_cell|]. intros _.
  apply emits_bind; [|intros; apply emits_ret].
  destruct (truthy labels); [|apply emits_ret].
  apply emits_bind; [apply emits_set_font|]. intros _.
  apply emits_bind; [apply emits_set_xy|]. intros _.
  apply emits_bind; [apply emits_lift|]. intros label.
  apply emits_cell.
Qed.

Lemma emits_draw_total_column x y col_widths row_h has_total total_content :
  emits not_week_number_rect
    (draw_total_column x y col_widths row_h has_total total_content).
Proof.
  unfold draw_total_column. destruct has_total; [|apply emits_ret].
  apply emits_bind; [apply emits_lift|]. intros w.
  apply emits_bind; [apply emits_rect_stroked|]. intros _.
  destruct (truthy total_content); [|apply emits_ret].
  apply emits_bind; [apply emits_set_font|]. intros _.
  apply emits_bind; [|intros; apply emits_ret].
  apply emits_for_each. intros [li line] _.
  apply emits_bind; [apply emits_set_xy|]. intros _. apply emits_cell.
Qed.

(** ** The labels of the week-number cells *)

Lemma week_number_labels_none (ops : list draw_op) :
  Forall not_week_number_rect ops -> week_number_labels ops = [].
Proof.
  induction 1 as [|op ops Hop _ IH]; [reflexivity|].
  destruct op; cbn [week_number_labels]; [|exact IH].
  cbn in Hop. now rewrite Hop, IH.
Qed.

(** A rectangle opens a new cell: the labels of what comes before do not
    depend on what follows. *)
Lemma week_number_labels_app (a b : list draw_op) :
  match b with
  | DrawText _ _ _ _ _ _ _ :: _ => False
  | _ => True
  end ->
  week_number_labels (a ++ b) = week_number_labels a ++ week_number_labels b.
Proof.
  intros Hb. induction a as [|op a IH]; [reflexivity|].
  destruct op as [x y w h sty fill|]; cbn [week_number_labels app];
    [|exact IH].
  rewrite IH, app_assoc. f_equal. f_equal.
  destruct (week_number_rect sty fill); [|reflexivity].
  destruct a as [|op' a]; [|reflexivity]. cbn [app].
  destruct b as [|[] b]; [reflexivity|reflexivity|contradiction].
Qed.

Lemma draw_week_number_column_ok x_start y col_widths week_num row_h pdf x pdf' :
  draw_week_number_column x_start y col_widths week_num row_h pdf
  = (Ok x, pdf') ->
  exists w0,
    content pdf' =
    content pdf
    ++ [DrawRect (of_int x_start) y w0 row_h "FD" COLOR_PEACH;
        DrawText (of_int x_start) y w0 row_h (str week_num) "C" (cur_font pdf)].
Proof.
  unfold draw_week_number_column. pdf_simpl.
  destruct (py_index col_widths 0) as [w0|]; [|discriminate].
  intros [= _ <-]. exists w0. pdf_simpl. now rewrite <- app_assoc.
Qed.

(** One row draws one week-number cell, labelled with the number it was
    given. *)
Lemma draw_week_row_labels x_start y col_widths week_num week_dates row_h
    has_total total_content labels pdf pdf' :
  _draw_week_row string_width x_start y col_widths week_num week_dates row_h
    has_total total_content labels pdf = (Ok (), pdf') ->
  week_number_labels (content pdf')
  = week_number_labels (content pdf) ++ [str week_num].
Proof.
  unfold _draw_week_row. intros Hrow.
  apply bind_ok_inv in Hrow as (x1 & pdf1 & Hcol & Hrow).
  apply bind_ok_inv in Hrow as (x2 & pdf2 & Hdays & Htotal).
  apply draw_week_number_column_ok in Hcol as (w0 & Hc1).
  destruct (emits_draw_day_columns x1 y col_widths week_dates row_h labels pdf1)
    as (ops2 & Hc2 & HP2).
  destruct (emits_draw_total_column x2 y col_widths row_h has_total
              total_content pdf2) as (ops3 & Hc3 & HP3).
  rewrite Hdays in Hc2. rewrite Htotal in Hc3. cbn [snd] in Hc2, Hc3.
  rewrite Hc3, Hc2, Hc1, <- !app_assoc.
  rewrite week_number_labels_app by exact I. f_equal.
  cbn [app week_number_labels week_number_rect String.eqb Ascii.eqb Bool.eqb
       color_eqb COLOR_PEACH]. cbn.
  rewrite week_number_labels_none by (now apply Forall_app).
  reflexivity.
Qed.

Lemma draw_week_rows_labels x_start y_start header_h col_widths row_h weeks
    has_total total_content_fn labels :
  forall i pdf pdf',
    for_each (enumerate_from i weeks)
      (fun '(week_idx, week_dates) (_ : unit) =>
         _draw_week_row string_width x_start
           (add (of_int (y_start + header_h)) (mul (of_int week_idx) row_h))
           col_widths (week_idx + 1) week_dates row_h has_total
           match total_content_fn with
           | Some fn => Some (fn week_idx)
           | None => None
           end labels) () pdf = (Ok (), pdf') ->
    week_number_labels (content pdf')
    = week_number_labels (content pdf)
      ++ map (fun k => str (i + Z.of_nat k + 1)) (seq 0 (List.length weeks)).
Proof.
  induction weeks as [|wk weeks IH]; intros i pdf pdf' Hloop.
  - cbn in Hloop. injection Hloop as <-. cbn. now rewrite app_nil_r.
  - cbn [enumerate_from for_each] in Hloop.
    apply bind_ok_inv in Hloop as ([] & pdf1 & Hrow & Hrest).
    apply draw_week_row_labels in Hrow.
    apply IH in Hrest. rewrite Hrest, Hrow, <- app_assoc. f_equal.
    cbn [List.length seq map app]. rewrite Z.add_0_r. f_equal.
    rewrite <- seq_shift, map_map. apply map_ext. intros k. f_equal. lia.
Qed.

End Emits.

(** ** The pages of the workout variant *)

Section WorkoutPages.

Context {num : Type} `{FloatOps num}.
Variable string_width : font -> string -> num.

Ltac explicit_weeks weeks Hw :=
  destruct (ten_weeks_explicit weeks Hw)
    as (d00 & d01 & d02 & d03 & d04 & d05 & d06 &
        d10 & d11 & d12 & d13 & d14 & d15 & d16 &
        d20 & d21 & d22 & d23 & d24 & d25 & d26 &
        d30 & d31 & d32 & d33 & d34 & d35 & d36 &
        d40 & d41 & d42 & d43 & d44 & d45 & d46 &
        d50 & d51 & d52 & d53 & d54 & d55 & d56 &
        d60 & d61 & d62 & d63 & d64 & d65 & d66 &
        d70 & d71 & d72 & d73 & d74 & d75 & d76 &
        d80 & d81 & d82 & d83 & d84 & d85 & d86 &
        d90 & d91 & d92 & d93 & d94 & d95 & d96 & ->);
  clear Hw.

(** Without labels (none, or an empty list) the day cells hold the dates
    only. *)
Lemma plain_page_no_labels labels weeks :
  ten_weeks weeks ->
  truthy labels = None ->
  let r := calendar_page string_width HEADERS_PLAIN WIDTHS_PLAIN weeks false
             None labels (new_FPDF "L" "pt" "letter") in
  fst r = Ok () /\ cells_of (content (snd r))
                   = page_cells HEADERS_PLAIN weeks None None.
Proof.
  intros Hw Hl. explicit_weeks weeks Hw.
  destruct labels as [[|l ls]|]; try discriminate;
    split; cbv -[format_date str]; reflexivity.
Qed.

(** With seven labels, each day cell holds its date and the label of its
    day. *)
Lemma plain_page_seven_labels l0 l1 l2 l3 l4 l5 l6 weeks :
  ten_weeks weeks ->
  let labels := [l0; l1; l2; l3; l4; l5; l6] in
  let r := calendar_page string_width HEADERS_PLAIN WIDTHS_PLAIN weeks false
             None (Some labels) (new_FPDF "L" "pt" "letter") in
  fst r = Ok () /\ cells_of (content (snd r))
                   = page_cells HEADERS_PLAIN weeks (Some labels) None.
Proof.
  intros Hw. explicit_weeks weeks Hw.
  split; cbv -[format_date str]; reflexivity.
Qed.

(** Labels beyond the seventh are never read. *)
Lemma draw_day_columns_seven l0 l1 l2 l3 l4 l5 l6 rest x y col_widths
    week_dates row_h :
  draw_day_columns string_width x y col_widths week_dates row_h
    (Some (l0 :: l1 :: l2 :: l3 :: l4 :: l5 :: l6 :: rest))
  = draw_day_columns string_width x y col_widths week_dates row_h
      (Some [l0; l1; l2; l3; l4; l5; l6]).
Proof.
  unfold draw_day_columns.
  change (range 7) with [0; 1; 2; 3; 4; 5; 6].
  cbn [for_each truthy].
  rewrite !(py_index_nonneg (A := string)) by lia.
  reflexivity.
Qed.

Lemma for_each_ext {A S} (items : list A) (f g : A -> S -> @pdfM num S) s pdf :
  (forall a s pdf, f a s pdf = g a s pdf) ->
  for_each items f s pdf = for_each items g s pdf.
Proof.
  intros Hfg. revert s pdf; induction items as [|a items IH]; intros s pdf.
  - reflexivity.
  - cbn [for_each]. unfold mbind, pdfM_bind. rewrite Hfg.
    destruct (g a s pdf) as [[s'|e] pdf1]; [apply IH|reflexivity].
Qed.

Lemma bind_ext {A B} (m : @pdfM num A) (k1 k2 : A -> @pdfM num B) pdf :
  (forall a pdf', k1 a pdf' = k2 a pdf') -> (m ≫= k1) pdf = (m ≫= k2) pdf.
Proof.
  intros Hk. unfold mbind, pdfM_bind.
  destruct (m pdf) as [[a|e] pdf1]; [apply Hk|reflexivity].
Qed.

Lemma calendar_page_seven l0 l1 l2 l3 l4 l5 l6 rest headers col_widths weeks
    has_total total_content_fn pdf :
  calendar_page string_width headers col_widths weeks has_total
    total_content_fn (Some (l0 :: l1 :: l2 :: l3 :: l4 :: l5 :: l6 :: rest)) pdf
  = calendar_page string_width headers col_widths weeks has_total
      total_content_fn (Some [l0; l1; l2; l3; l4; l5; l6]) pdf.
Proof.
  unfold calendar_page. cbv zeta.
  repeat (apply bind_ext; intros ? ?).
  unfold draw_week_rows.
  apply for_each_ext. intros [week_idx week_dates] [] pdf_row.
  unfold _draw_week_row.
  apply bind_ext; intros x pdf_col.
  now rewrite draw_day_columns_seven.
Qed.

(** With seven labels or more, each day cell holds its date and the label of
    its day. *)
Lemma plain_page_labels labels weeks :
  ten_weeks weeks ->
  (7 <= List.length labels)%nat ->
  let r := calendar_page string_width HEADERS_PLAIN WIDTHS_PLAIN weeks false
             None (Some labels) (new_FPDF "L" "pt" "letter") in
  fst r = Ok () /\ cells_of (content (snd r))
                   = page_cells HEADERS_PLAIN weeks (Some labels) None.
Proof.
  intros Hw Hl.
  do 7 (destruct labels as [|? labels]; [cbn in Hl; lia|]). clear Hl.
  cbv zeta. rewrite calendar_page_seven.
  destruct (plain_page_seven_labels s s0 s1 s2 s3 s4 s5 weeks Hw) as [Hok Hc].
  split; [exact Hok|]. cbv zeta in Hc. rewrite Hc.
  explicit_weeks weeks Hw. reflexivity.
Qed.

End WorkoutPages.

(** ** Too few labels *)

Section ShortLabels.

Context {num : Type} `{FloatOps num}.
Variable string_width : font -> string -> num.

(** A non-empty list of fewer than seven labels: the first row is drawn up to
    the date of the first day without a label, and the page stops there. *)
Lemma plain_page_short_labels labels weeks :
  ten_weeks weeks ->
  (0 < List.length labels < 7)%nat ->
  let r := calendar_page string_width HEADERS_PLAIN WIDTHS_PLAIN weeks false
             None (Some labels) (new_FPDF "L" "pt" "letter") in
  fst r = Raise IndexError
  /\ cells_of (content (snd r))
     = header_cells HEADERS_PLAIN
       ++ take (List.length labels + 2)
            (week_cells 1 (hd [] weeks) (Some labels) None).
Proof.
  intros Hw Hl.
  destruct (ten_weeks_explicit weeks Hw)
    as (d00 & d01 & d02 & d03 & d04 & d05 & d06 &
        d10 & d11 & d12 & d13 & d14 & d15 & d16 &
        d20 & d21 & d22 & d23 & d24 & d25 & d26 &
        d30 & d31 & d32 & d33 & d34 & d35 & d36 &
        d40 & d41 & d42 & d43 & d44 & d45 & d46 &
        d50 & d51 & d52 & d53 & d54 & d55 & d56 &
        d60 & d61 & d62 & d63 & d64 & d65 & d66 &
        d70 & d71 & d72 & d73 & d74 & d75 & d76 &
        d80 & d81 & d82 & d83 & d84 & d85 & d86 &
        d90 & d91 & d92 & d93 & d94 & d95 & d96 & ->).
  clear Hw.
  destruct labels as [|l0 [|l1 [|l2 [|l3 [|l4 [|l5 [|l6 labels]]]]]]];
    cbn in Hl; try lia;
    split; cbv -[format_date str]; reflexivity.
Qed.

(** The same in any row of the eight-column layout, whatever its place on the
    page. *)
Lemma draw_week_row_short_labels labels x_start y week_num row_h has_total
    total_content pdf w0 w1 w2 w3 w4 w5 w6 w7 d0 d1 d2 d3 d4 d5 d6 :
  (0 < List.length labels < 7)%nat ->
  fst (_draw_week_row string_width x_start y
         [w0; w1; w2; w3; w4; w5; w6; w7] week_num
         [d0; d1; d2; d3; d4; d5; d6] row_h has_total total_content
         (Some labels) pdf)
  = Raise IndexError.
Proof.
  intros Hl.
  destruct labels as [|l0 [|l1 [|l2 [|l3 [|l4 [|l5 [|l6 labels]]]]]]];
    cbn in Hl; try lia; cbv -[format_date str]; reflexivity.
Qed.

End ShortLabels.

(** ** The output directory and the file *)

Section Output.

Local Open Scope string_scope.

Lemma endswith_slash_app s t :
  t <> "" -> endswith_slash (s ++ t) = endswith_slash t.
Proof.
  intros Ht. induction s as [|c s IH]; [reflexivity|].
  rewrite append_cons. cbn [endswith_slash]. rewrite IH.
  destruct (s ++ t) eqn:E; [|reflexivity].
  destruct s; [|discriminate]. rewrite append_nil_l in E. contradiction.
Qed.

Lemma append_nonempty s t : t <> "" -> s ++ t <> "".
Proof. destruct s; [now rewrite append_nil_l|discriminate]. Qed.

Lemma append_same_prefix s t : s ++ t = s -> t = "".
Proof.
  intros Hst. apply (f_equal String.length) in Hst.
  rewrite length_append in Hst. destruct t; [reflexivity|cbn in Hst; lia].
Qed.

(** The output directory is named by a non-empty path that does not end with
    a slash. *)
Lemma OUTPUT_DIR_shape script_dir :
  exists p, OUTPUT_DIR script_dir = p ++ "output".
Proof.
  unfold OUTPUT_DIR, path_join. cbn [startswith_slash Ascii.eqb Bool.eqb].
  destruct script_dir as [|c s]; [exists ""; reflexivity|].
  destruct (endswith_slash (String c s)).
  - exists (String c s). reflexivity.
  - exists (String c s ++ "/"). now rewrite append_assoc.
Qed.

Lemma path_join_OUTPUT_DIR script_dir filename :
  startswith_slash filename = false ->
  path_join (OUTPUT_DIR script_dir) filename
  = OUTPUT_DIR script_dir ++ "/" ++ filename.
Proof.
  intros Hf. unfold path_join. rewrite Hf.
  destruct (OUTPUT_DIR_shape script_dir) as [p Hp]. rewrite Hp.
  rewrite endswith_slash_app by discriminate.
  destruct (p ++ "output") eqn:E; [|reflexivity].
  now apply append_nonempty in E.
Qed.

Lemma output_path_fresh script_dir filename :
  OUTPUT_DIR script_dir ++ "/" ++ filename <> OUTPUT_DIR script_dir.
Proof. intros Heq. now apply append_same_prefix in Heq. Qed.




End Output.

Section CreateCalendarPdf.

Context {num : Type} `{FloatOps num}.
Variable string_width : font -> string -> num.
Variable SCRIPT_DIR : string.

Local Open Scope string_scope.




(** An exception while the page is drawn leaves the file system alone. *)
Lemma create_calendar_pdf_raises filename headers col_widths weeks has_total
    total_content_fn labels fs e pdf :
  calendar_page string_width headers col_widths weeks has_total
    total_content_fn labels (new_FPDF "L" "pt" "letter") = (Raise e, pdf) ->
  _create_calendar_pdf string_width SCRIPT_DIR filename headers col_widths
    weeks has_total total_content_fn labels fs = (Raise e, fs).
Proof. intros Hpage. unfold _create_calendar_pdf. now rewrite Hpage. Qed.

End CreateCalendarPdf.

(** ** The claims about the renderer and the variants *)

Section RendererClaims.

Context {num : Type} `{FloatOps num}.
Variable string_width : font -> string -> num.
Variable SCRIPT_DIR : string.

Local Open Scope string_scope.

(** C8. On every rendered page the week-number cell of the row at index [w]
    (from 0) is labelled [w + 1]: with ten weeks the labels of the first
    column are 1 to 10, and none is 0. *)
Theorem week_numbers_start_at_one headers col_widths weeks has_total
    total_content_fn labels doc :
  calendar_page string_width headers col_widths weeks has_total
    total_content_fn labels (new_FPDF "L" "pt" "letter") = (Ok (), doc) ->
  week_number_labels (content doc)
  = map (fun w => str (w + 1)) (range (List.length weeks))
  /\ (List.length weeks = 10%nat ->
      week_number_labels (content doc)
      = ["1"; "2"; "3"; "4"; "5"; "6"; "7"; "8"; "9"; "10"]).
Proof.
  intros Hpage.
  assert (Hlabels : week_number_labels (content doc)
                    = map (fun w => str (w + 1)) (range (List.length weeks))).
  { unfold calendar_page in Hpage. cbv zeta in Hpage.
    apply bind_ok_inv in Hpage as (u1 & p1 & Hp1 & Hpage).
    apply bind_ok_inv in Hpage as (u2 & p2 & Hp2 & Hpage).
    apply bind_ok_inv in Hpage as (scale & p3 & Hp3 & Hpage).
    apply bind_ok_inv in Hpage as (u4 & p4 & Hp4 & Hpage).
    apply bind_ok_inv in Hpage as (u5 & p5 & Hp5 & Hpage).
    apply bind_ok_inv in Hpage as (u6 & p6 & Hp6 & Hpage).
    injection Hp1 as _ <-. injection Hp2 as _ <-.
    unfold lift in Hp3. injection Hp3 as _ <-. injection Hp4 as _ <-.
    match type of Hp5 with
    | _draw_header_row ?a ?b ?c ?d ?e ?p = _ =>
        destruct (emits_draw_header_row a b c d e p) as (hops & Hc & HP)
    end.
    rewrite Hp5 in Hc. cbn [snd] in Hc.
    cbn [content app] in Hc.
    injection Hp6 as _ <-.
    unfold draw_week_rows in Hpage.
    apply draw_week_rows_labels in Hpage. rewrite Hpage.
    cbn [content]. rewrite Hc, week_number_labels_none by exact HP.
    cbn [app]. unfold range. rewrite map_map. apply map_ext.
    intros k. f_equal. }
  split; [exact Hlabels|]. intros Hten. rewrite Hlabels, Hten. reflexivity.
Qed.


Lemma page_result {A} (m : @pdfM num A) pdf :
  m pdf = (fst (m pdf), snd (m pdf)).
Proof. now destruct (m pdf). Qed.



(** C10. With a non-empty list of workout labels the day cells read it at the
    indices 0 to 6. With seven labels or more every one of these reads is in
    bounds and the page is drawn without an exception. With fewer, the read at
    the first missing index raises [IndexError]: every row of the layout stops
    there, the page stops in its first row after the date of that day, and
    [generate_workouts] raises without writing anything. *)
Theorem workout_labels_need_seven labels weeks :
  ten_weeks weeks ->
  labels <> [] ->
  let r := calendar_page string_width HEADERS_PLAIN WIDTHS_PLAIN weeks false
             None (Some labels) (new_FPDF "L" "pt" "letter") in
  ((7 <= List.length labels)%nat ->
   (forall d, 0 <= d < 7 -> exists l, py_index labels d = Ok l)
   /\ fst r = Ok ())
  /\ ((List.length labels < 7)%nat ->
      py_index labels (Z.of_nat (List.length labels)) = Raise IndexError
      /\ fst r = Raise IndexError
      /\ cells_of (content (snd r))
         = (header_cells HEADERS_PLAIN
            ++ take (List.length labels + 2)
                 (week_cells 1 (hd [] weeks) (Some labels) None))%list
      /\ (forall x_start y week_num row_h has_total total_content pdf
                 w0 w1 w2 w3 w4 w5 w6 w7 d0 d1 d2 d3 d4 d5 d6,
            fst (_draw_week_row string_width x_start y
                   [w0; w1; w2; w3; w4; w5; w6; w7] week_num
                   [d0; d1; d2; d3; d4; d5; d6] row_h has_total total_content
                   (Some labels) pdf)
            = Raise IndexError)
      /\ (forall start (fs : @file_system num),
            generate_week_dates start = Ok weeks ->
            generate_workouts string_width SCRIPT_DIR start (Some labels) fs
            = (Raise IndexError, fs))).
Proof.
  intros Hshape Hne r. split.
  - intros Hlen. split.
    + intros d Hd. apply py_index_in_bounds. lia.
    + now apply plain_page_labels.
  - intros Hlen.
    assert (Hpos : (0 < List.length labels < 7)%nat)
      by (destruct labels; [contradiction|cbn in *; lia]).
    destruct (plain_page_short_labels string_width labels weeks Hshape Hpos)
      as [Hraise Hcells].
    split; [apply py_index_out_of_bounds; lia|].
    split; [exact Hraise|]. split; [exact Hcells|]. split.
    + intros. now apply draw_week_row_short_labels.
    + intros start fs Hweeks. unfold generate_workouts. rewrite Hweeks.
      apply (create_calendar_pdf_raises string_width SCRIPT_DIR _ _ _ _ _ _ _
               _ _ (snd r)).
      rewrite page_result. exact (f_equal (fun r => (r, _)) Hraise).
Qed.

End RendererClaims.

(** ** The claims at concrete inputs, in double precision *)

Section Binary64.

Local Open Scope string_scope.


Lemma demo_weeks_generated :
  generate_week_dates (date_at 2026 3 2) = Ok demo_weeks.
Proof. vm_compute. reflexivity. Qed.

Lemma demo_weeks_shape : ten_weeks demo_weeks.
Proof. split; [reflexivity|repeat constructor]. Qed.



Lemma week_numbers_start_at_one_witness :
  week_number_labels
    (content
       (snd (calendar_page demo_string_width HEADERS_TOTAL WIDTHS_TOTAL
               demo_weeks true
               (Some (fun _ => ["Hours This Week:"; "Debt:"])) None
               (new_FPDF "L" "pt" "letter"))))
  = ["1"; "2"; "3"; "4"; "5"; "6"; "7"; "8"; "9"; "10"].
Proof.
  refine (proj2 (week_numbers_start_at_one demo_string_width HEADERS_TOTAL
                   WIDTHS_TOTAL demo_weeks true
                   (Some (fun _ => ["Hours This Week:"; "Debt:"])) None _ _)
                eq_refl).
  vm_compute. reflexivity.
Defined.


Lemma workout_labels_need_seven_witness :
  fst (calendar_page demo_string_width HEADERS_PLAIN WIDTHS_PLAIN demo_weeks
         false None (Some demo_labels) (new_FPDF "L" "pt" "letter"))
  = Ok ()
  /\ fst (calendar_page demo_string_width HEADERS_PLAIN WIDTHS_PLAIN demo_weeks
            false None (Some ["4 Miles"; "Weights"; "Rest"])
            (new_FPDF "L" "pt" "letter"))
     = Raise IndexError.
Proof.
  split.
  - destruct (workout_labels_need_seven demo_string_width demo_dir demo_labels
                demo_weeks demo_weeks_shape ltac:(discriminate)) as [Hlong _].
    exact (proj2 (Hlong ltac:(cbn; lia))).
  - destruct (workout_labels_need_seven demo_string_width demo_dir
                ["4 Miles"; "Weights"; "Rest"] demo_weeks demo_weeks_shape
                ltac:(discriminate)) as [_ Hshort].
    exact (proj1 (proj2 (Hshort ltac:(cbn; lia)))).
Defined.



Example scaled_widths_total :
  sum_widths (scaled_widths WIDTHS_TOTAL) = float_of_int 752.
Proof. vm_compute. reflexivity. Qed.

Example scaled_widths_plain :
  within_tolerance (sum_widths (scaled_widths WIDTHS_PLAIN)) (float_of_int 752)
  = true
  /\ PrimFloat.eqb (sum_widths (scaled_widths WIDTHS_PLAIN)) (float_of_int 752)
     = false.
Proof. split; vm_compute; reflexivity. Qed.

Example row_height_value :
  add (mul row_height (of_int 10)) (of_int 20) = float_of_int 572
  /\ mul (float_lit 85 10) (of_int 72) = float_of_int 612.
Proof. split; vm_compute; reflexivity. Qed.

End Binary64.

(** * Beyond the claims: the rest of [generate.py] *)

(** ** The table of dates, read by column *)

Section WeekTable.

Lemma generate_week_dates_inv start weeks :
  valid_datetime start = true ->
  generate_week_dates start = Ok weeks ->
  toordinal start + 69 <= MAXORDINAL /\ weeks = weeks_from start.
Proof.
  intros Hv Hw.
  destruct (Z_le_gt_dec (toordinal start + 69) MAXORDINAL) as [Hle|Hgt].
  - rewrite generate_week_dates_ok in Hw by assumption.
    injection Hw as <-. auto.
  - rewrite generate_week_dates_overflow in Hw by (assumption || lia).
    discriminate.
Qed.

(** The date in row [w] and column [d] of the table. *)
Lemma week_table_lookup start (w d : nat) wk x :
  weeks_from start !! w = Some wk -> wk !! d = Some x ->
  (w < 10)%nat /\ (d < 7)%nat
  /\ x = plus_days start (7 * Z.of_nat w + Z.of_nat d).
Proof.
  intros Hw Hd. apply weeks_from_lookup in Hw as [Hw ->].
  apply week_lookup in Hd as [Hd ->]. auto.
Qed.

End WeekTable.

(** X1. The columns of the table follow the days of the week: the date at
    index [d] of every week falls [d] days of the week after the start date,
    so that for a start on a Monday the seven columns are Monday to Sunday,
    the order of [DAY_NAMES]. *)
Theorem week_columns_follow_weekdays (start : datetime)
    (weeks : list (list datetime)) :
  valid_datetime start = true ->
  generate_week_dates start = Ok weeks ->
  forall (w d : nat) wk x,
    weeks !! w = Some wk -> wk !! d = Some x ->
    weekday x = (weekday start + Z.of_nat d) mod 7
    /\ (weekday start = 0 ->
        weekday x = Z.of_nat d /\ is_Some (DAY_NAMES !! d)).
Proof.
  intros Hv Hweeks w d wk x Hw Hd.
  apply generate_week_dates_inv in Hweeks as [Hmax ->]; [|exact Hv].
  pose proof (toordinal_range start Hv) as Hr.
  destruct (week_table_lookup _ _ _ _ _ Hw Hd) as (Hw10 & Hd7 & ->).
  unfold weekday. rewrite plus_days_toordinal by lia.
  split.
  - Z.to_euclidean_division_equations. lia.
  - intros Hmon. split.
    + Z.to_euclidean_division_equations. lia.
    + apply lookup_lt_is_Some. cbn. lia.
Qed.

Lemma week_columns_follow_weekdays_witness :
  weekday (date_at 2026 4 5) = 6
  /\ DAY_NAMES !! 6%nat = Some "Sun"%string.
Proof.
  assert (Hw : demo_weeks !! 4%nat
               = Some [date_at 2026 3 30; date_at 2026 3 31; date_at 2026 4 1;
                       date_at 2026 4 2; date_at 2026 4 3; date_at 2026 4 4;
                       date_at 2026 4 5])
    by (vm_compute; reflexivity).
  destruct (week_columns_follow_weekdays (date_at 2026 3 2) demo_weeks eq_refl
              demo_weeks_generated 4%nat 6%nat _ (date_at 2026 4 5) Hw
              eq_refl) as [_ Hmon].
  split; [exact (proj1 (Hmon eq_refl))|reflexivity].
Defined.

(** ** The date labels of a page *)

Section DateLabels.

Local Open Scope string_scope.

Lemma digit_char_inj a b :
  0 <= a <= 9 -> 0 <= b <= 9 -> digit_char a = digit_char b -> a = b.
Proof.
  intros Ha Hb Heq. unfold digit_char in Heq.
  apply (f_equal N_of_ascii) in Heq.
  rewrite !N_ascii_embedding in Heq by lia. lia.
Qed.

Lemma two_digits_inj a b :
  0 <= a < 100 -> 0 <= b < 100 -> two_digits a = two_digits b -> a = b.
Proof.
  intros Ha Hb Heq. unfold two_digits in Heq. injection Heq as H1 H2.
  apply digit_char_inj in H1, H2;
    Z.to_euclidean_division_equations; lia.
Qed.

Lemma valid_ymd_bounds y m d :
  valid_ymd y m d = true ->
  1 <= y <= 9999 /\ 1 <= m <= 12 /\ 1 <= d <= days_in_month y m
  /\ days_in_month y m <= 31.
Proof.
  unfold valid_ymd, MINYEAR, MAXYEAR. intros Hv.
  repeat (apply andb_true_iff in Hv as [Hv ?]).
  assert (Hm : 1 <= m <= 12) by lia.
  pose proof (days_in_month_bounds y m Hm). lia.
Qed.

(** The text of [format_date] determines the month and the day. *)
Lemma format_date_inj a b :
  valid_datetime a = true -> valid_datetime b = true ->
  format_date a = format_date b ->
  month a = month b /\ day a = day b.
Proof.
  intros Ha Hb Heq.
  apply valid_datetime_inv in Ha as [Ha _], Hb as [Hb _].
  apply valid_ymd_bounds in Ha, Hb.
  unfold format_date, two_digits in Heq.
  rewrite !append_cons, !append_nil_l in Heq.
  injection Heq as M1 M2 D1 D2.
  split; apply two_digits_inj; try lia; unfold two_digits; congruence.
Qed.

Lemma days_before_year_step y :
  days_before_year (y + 1)
  = days_before_year y + 365 + (if is_leap y then 1 else 0).
Proof.
  unfold days_before_year, is_leap. cbv zeta.
  replace (y + 1 - 1) with y by lia.
  destruct (Z.eqb_spec (y mod 4) 0) as [H4|H4];
    destruct (Z.eqb_spec (y mod 100) 0) as [H100|H100];
    destruct (Z.eqb_spec (y mod 400) 0) as [H400|H400]; cbn [andb orb negb];
    Z.to_euclidean_division_equations; lia.
Qed.

Lemma days_before_year_mono a b :
  a <= b -> days_before_year a <= days_before_year b.
Proof.
  intros Hab. unfold days_before_year. cbv zeta.
  assert (H4 : (a - 1) / 4 <= (b - 1) / 4) by (apply Z.div_le_mono; lia).
  assert (H400 : (a - 1) / 400 <= (b - 1) / 400)
    by (apply Z.div_le_mono; lia).
  assert (H100 : 100 * ((b - 1) / 100 - (a - 1) / 100) <= b - a + 99).
  { pose proof (Z.div_mod (a - 1) 100 ltac:(lia)).
    pose proof (Z.div_mod (b - 1) 100 ltac:(lia)).
    pose proof (Z.mod_pos_bound (a - 1) 100 ltac:(lia)).
    pose proof (Z.mod_pos_bound (b - 1) 100 ltac:(lia)). lia. }
  lia.
Qed.

(** The same day of the month in a later year is at least 365 days away. *)
Lemma same_day_later_year y1 y2 m d :
  y1 < y2 -> ymd2ord y1 m d + 365 <= ymd2ord y2 m d.
Proof.
  intros Hlt. unfold ymd2ord, days_before_month.
  pose proof (days_before_year_step y1) as Hstep.
  pose proof (days_before_year_mono (y1 + 1) y2 ltac:(lia)) as Hmono.
  destruct (2 <? m)%Z, (is_leap y1), (is_leap y2); cbn [andb]; lia.
Qed.

End DateLabels.

(** The date at position [i] of the table read row by row. *)
Lemma concat_weeks_lookup start (i : nat) a :
  concat (weeks_from start) !! i = Some a ->
  (i < 70)%nat /\ a = plus_days start (Z.of_nat i).
Proof.
  rewrite weeks_from_concat, list_lookup_fmap. intros Ha.
  assert (Hi : (i < 70)%nat).
  { destruct (range 70 !! i) as [zi|] eqn:Ei; [|discriminate].
    apply lookup_lt_Some in Ei. exact Ei. }
  rewrite range_lookup in Ha by exact Hi.
  cbn in Ha. injection Ha as <-. auto.
Qed.

Lemma within_a_year (o oa ob : Z) (i j : nat) :
  (i < 70)%nat -> (j < 70)%nat ->
  oa = o + Z.of_nat i -> ob = o + Z.of_nat j ->
  oa + 365 <= ob \/ oa = ob \/ ob + 365 <= oa ->
  i = j.
Proof. lia. Qed.

(** X2. No two cells of a calendar carry the same date label: the seventy
    dates of the table all print differently under [format_date], although
    the year is not printed. *)
Theorem date_labels_are_distinct (start : datetime)
    (weeks : list (list datetime)) :
  valid_datetime start = true ->
  generate_week_dates start = Ok weeks ->
  forall (i j : nat) a b,
    concat weeks !! i = Some a -> concat weeks !! j = Some b ->
    format_date a = format_date b -> i = j.
Proof.
  intros Hv Hweeks i j a b Ha Hb Heq.
  apply generate_week_dates_inv in Hweeks as [Hmax ->]; [|exact Hv].
  pose proof (toordinal_range start Hv) as Hr.
  apply concat_weeks_lookup in Ha as [Hi ->], Hb as [Hj ->].
  assert (Hva : valid_datetime (plus_days start (Z.of_nat i)) = true)
    by (apply plus_days_valid; [exact Hv|lia]).
  assert (Hvb : valid_datetime (plus_days start (Z.of_nat j)) = true)
    by (apply plus_days_valid; [exact Hv|lia]).
  destruct (format_date_inj _ _ Hva Hvb Heq) as [Hm Hd].
  assert (Hoi : toordinal (plus_days start (Z.of_nat i))
                = toordinal start + Z.of_nat i)
    by (apply plus_days_toordinal; lia).
  assert (Hoj : toordinal (plus_days start (Z.of_nat j))
                = toordinal start + Z.of_nat j)
    by (apply plus_days_toordinal; lia).
  apply (within_a_year (toordinal start) _ _ i j Hi Hj Hoi Hoj).
  unfold toordinal. rewrite Hm, Hd.
  destruct (Z.lt_trichotomy (year (plus_days start (Z.of_nat i)))
              (year (plus_days start (Z.of_nat j)))) as [Hlt|[Hyear|Hgt]].
  - left. now apply same_day_later_year.
  - right; left. now rewrite Hyear.
  - right; right. now apply same_day_later_year.
Qed.

Lemma date_labels_are_distinct_witness :
  format_date (date_at 2026 3 2) <> format_date (date_at 2026 5 10).
Proof.
  intros Heq.
  assert (Ha : concat demo_weeks !! 0%nat = Some (date_at 2026 3 2))
    by (vm_compute; reflexivity).
  assert (Hb : concat demo_weeks !! 69%nat = Some (date_at 2026 5 10))
    by (vm_compute; reflexivity).
  pose proof (date_labels_are_distinct (date_at 2026 3 2) demo_weeks eq_refl
                demo_weeks_generated 0%nat 69%nat _ _ Ha Hb Heq).
  discriminate.
Defined.

(** ** The time of day of the start date *)

Lemma py_index_map {A B} (f : A -> B) (l : list A) (i : Z) :
  py_index (map f l) i
  = match py_index l i with
    | Ok a => Ok (f a)
    | Raise e => Raise e
    end.
Proof.
  unfold py_index. rewrite length_map.
  destruct ((0 <=? _) && _); [|reflexivity].
  rewrite list_lookup_fmap. now destruct (l !! _).
Qed.

Lemma enumerate_from_map {A B} (f : A -> B) (l : list A) (i : Z) :
  enumerate_from i (map f l)
  = map (fun p => (fst p, f (snd p))) (enumerate_from i l).
Proof.
  revert i. induction l as [|a l IH]; intros i; [reflexivity|].
  cbn. now rewrite IH.
Qed.

Section DatesOnThePage.

Context {num : Type} `{FloatOps num}.
Variable string_width : font -> string -> num.

(** A loop over a mapped list is the loop over the list with the map in its
    body. *)
Lemma for_each_map {A B S} (f : A -> B) (items : list A)
    (body : B -> S -> @pdfM num S) s pdf :
  for_each (map f items) body s pdf
  = for_each items (fun a => body (f a)) s pdf.
Proof.
  revert s pdf. induction items as [|a items IH]; intros s pdf;
    [reflexivity|].
  cbn [map for_each]. apply bind_ext. intros s' pdf'. apply IH.
Qed.

Variable f : datetime -> datetime.
Hypothesis format_date_f : forall dt, format_date (f dt) = format_date dt.

(** The page reads its dates through [format_date] only. *)
Lemma draw_day_columns_dates x y col_widths week_dates row_h labels pdf :
  draw_day_columns string_width x y col_widths (map f week_dates) row_h
    labels pdf
  = draw_day_columns string_width x y col_widths week_dates row_h labels pdf.
Proof.
  unfold draw_day_columns. apply for_each_ext. intros day_idx x' pdf'.
  apply bind_ext. intros w pdf1. apply bind_ext. intros u pdf2.
  rewrite py_index_map.
  cbv [mbind pdfM_bind lift].
  destruct (py_index week_dates day_idx) as [dt|e]; [|reflexivity].
  now rewrite format_date_f.
Qed.

Lemma draw_week_row_dates x_start y col_widths week_num week_dates row_h
    has_total total_content labels pdf :
  _draw_week_row string_width x_start y col_widths week_num
    (map f week_dates) row_h has_total total_content labels pdf
  = _draw_week_row string_width x_start y col_widths week_num week_dates
      row_h has_total total_content labels pdf.
Proof.
  unfold _draw_week_row. apply bind_ext. intros x pdf1.
  cbv [mbind pdfM_bind]. now rewrite draw_day_columns_dates.
Qed.

Lemma draw_week_rows_dates x_start y_start header_h col_widths row_h weeks
    has_total total_content_fn labels pdf :
  draw_week_rows string_width x_start y_start header_h col_widths row_h
    (map (map f) weeks) has_total total_content_fn labels pdf
  = draw_week_rows string_width x_start y_start header_h col_widths row_h
      weeks has_total total_content_fn labels pdf.
Proof.
  unfold draw_week_rows. rewrite enumerate_from_map, for_each_map.
  apply for_each_ext. intros [week_idx week_dates] [] pdf'. cbn [fst snd].
  apply draw_week_row_dates.
Qed.

Lemma calendar_page_dates headers col_widths weeks has_total
    total_content_fn labels pdf :
  calendar_page string_width headers col_widths (map (map f) weeks)
    has_total total_content_fn labels pdf
  = calendar_page string_width headers col_widths weeks has_total
      total_content_fn labels pdf.
Proof.
  unfold calendar_page. cbv zeta.
  repeat (apply bind_ext; intros ? ?).
  apply draw_week_rows_dates.
Qed.

Lemma create_calendar_pdf_dates SCRIPT_DIR filename headers col_widths weeks
    has_total total_content_fn labels fs :
  _create_calendar_pdf string_width SCRIPT_DIR filename headers col_widths
    (map (map f) weeks) has_total total_content_fn labels fs
  = _create_calendar_pdf string_width SCRIPT_DIR filename headers col_widths
      weeks has_total total_content_fn labels fs.
Proof. unfold _create_calendar_pdf. now rewrite calendar_page_dates. Qed.

End DatesOnThePage.

Section Midnight.

Lemma format_date_midnight dt : format_date (midnight dt) = format_date dt.
Proof. reflexivity. Qed.

Lemma toordinal_midnight dt : toordinal (midnight dt) = toordinal dt.
Proof. reflexivity. Qed.

Lemma valid_midnight dt :
  valid_datetime dt = true -> valid_datetime (midnight dt) = true.
Proof.
  intros Hv. apply valid_datetime_inv in Hv as [Hv _].
  unfold valid_datetime, midnight. cbn. now rewrite Hv.
Qed.

Lemma plus_days_midnight dt n :
  plus_days (midnight dt) n = midnight (plus_days dt n).
Proof.
  unfold plus_days. rewrite toordinal_midnight.
  now destruct (ord2ymd _) as [[y m] d].
Qed.

Lemma weeks_from_midnight start :
  weeks_from (midnight start) = map (map midnight) (weeks_from start).
Proof.
  unfold weeks_from. rewrite map_map. apply map_ext. intros w.
  rewrite map_map. apply map_ext. intros d. apply plus_days_midnight.
Qed.

(** The table of a start date at midnight is the table of the start date,
    each entry at midnight; one overflows when the other does. *)
Lemma generate_week_dates_midnight start :
  valid_datetime start = true ->
  generate_week_dates (midnight start)
  = match generate_week_dates start with
    | Ok weeks => Ok (map (map midnight) weeks)
    | Raise e => Raise e
    end.
Proof.
  intros Hv. pose proof (valid_midnight start Hv) as Hv0.
  destruct (Z_le_gt_dec (toordinal start + 69) MAXORDINAL) as [Hle|Hgt].
  - rewrite !generate_week_dates_ok by assumption.
    now rewrite weeks_from_midnight.
  - rewrite !generate_week_dates_overflow
      by (try assumption; rewrite ?toordinal_midnight; lia).
    reflexivity.
Qed.

End Midnight.

Section StartTime.

Context {num : Type} `{FloatOps num}.
Variable string_width : font -> string -> num.
Variable SCRIPT_DIR : string.

(** X3. The time of day of the start date never reaches the page: each of
    the three generators does for a start date what it does for midnight of
    the same day, down to the document written and the exception raised. (A
    start date chosen as the next Monday carries the time of the clock; one
    typed in is at midnight.) *)
Theorem time_of_day_is_not_printed (start : datetime) (goal : Z)
    (labels : option (list string)) (fs : @file_system num) :
  valid_datetime start = true ->
  generate_pages_read string_width SCRIPT_DIR (midnight start) goal fs
  = generate_pages_read string_width SCRIPT_DIR start goal fs
  /\ generate_project_hours string_width SCRIPT_DIR (midnight start) fs
     = generate_project_hours string_width SCRIPT_DIR start fs
  /\ generate_workouts string_width SCRIPT_DIR (midnight start) labels fs
     = generate_workouts string_width SCRIPT_DIR start labels fs.
Proof.
  intros Hv.
  unfold generate_pages_read, generate_project_hours, generate_workouts.
  rewrite generate_week_dates_midnight by exact Hv.
  destruct (generate_week_dates start) as [weeks|e]; [|auto].
  repeat split;
    apply (create_calendar_pdf_dates string_width midnight
             format_date_midnight).
Qed.

End StartTime.

Lemma time_of_day_is_not_printed_witness :
  generate_workouts demo_string_width demo_dir (date_at 2026 3 2)
    (Some demo_labels) ∅
  = generate_workouts demo_string_width demo_dir
      (mk_datetime 2026 3 2 17 45 12 250000) (Some demo_labels) ∅.
Proof.
  exact (proj2 (proj2 (time_of_day_is_not_printed demo_string_width demo_dir
                         (mk_datetime 2026 3 2 17 45 12 250000) 100
                         (Some demo_labels) ∅ eq_refl))).
Defined.

(** ** When the renderer returns and when it raises *)

Section Outcomes.

Context {num : Type} `{FloatOps num}.
Variable string_width : font -> string -> num.

(** A call that returns, or raises [e], whatever the state of the object. *)
Definition succeeds {A} (m : @pdfM num A) : Prop :=
  forall pdf, exists a pdf', m pdf = (Ok a, pdf').

Definition raises (e : exn) {A} (m : @pdfM num A) : Prop :=
  forall pdf, exists pdf', m pdf = (Raise e, pdf').

Lemma succeeds_ret {A} (a : A) : succeeds (mret a).
Proof. intros pdf. now eexists _, _. Qed.

Lemma succeeds_lift {A} (a : A) : succeeds (lift (Ok a)).
Proof. intros pdf. now eexists _, _. Qed.

Lemma raises_lift {A} e : raises e (lift (Raise e : result A)).
Proof. intros pdf. now eexists. Qed.

Lemma succeeds_bind {A B} (m : @pdfM num A) (k : A -> @pdfM num B) :
  succeeds m -> (forall a, succeeds (k a)) -> succeeds (m ≫= k).
Proof.
  intros Hm Hk pdf. destruct (Hm pdf) as (a & pdf1 & Em).
  unfold mbind, pdfM_bind. rewrite Em. apply Hk.
Qed.

Lemma raises_bind_l {A B} e (m : @pdfM num A) (k : A -> @pdfM num B) :
  raises e m -> raises e (m ≫= k).
Proof.
  intros Hm pdf. destruct (Hm pdf) as (pdf1 & Em).
  unfold mbind, pdfM_bind. rewrite Em. now eexists.
Qed.

Lemma raises_bind_r {A B} e (m : @pdfM num A) (k : A -> @pdfM num B) :
  succeeds m -> (forall a, raises e (k a)) -> raises e (m ≫= k).
Proof.
  intros Hm Hk pdf. destruct (Hm pdf) as (a & pdf1 & Em).
  unfold mbind, pdfM_bind. rewrite Em. apply Hk.
Qed.

Lemma succeeds_not_raises {A} e (m : @pdfM num A) pdf :
  succeeds m -> fst (m pdf) <> Raise e.
Proof. intros Hm. destruct (Hm pdf) as (a & pdf1 & ->). discriminate. Qed.

Lemma succeeds_set_font fam sty sz : succeeds (set_font fam sty sz).
Proof. intros pdf. now eexists _, _. Qed.

Lemma succeeds_set_fill_color c : succeeds (set_fill_color c).
Proof. intros pdf. now eexists _, _. Qed.

Lemma succeeds_set_xy x y : succeeds (set_xy x y).
Proof. intros pdf. now eexists _, _. Qed.

Lemma succeeds_rect x y w h sty : succeeds (rect x y w h sty).
Proof. intros pdf. now eexists _, _. Qed.

Lemma succeeds_cell w h text align : succeeds (cell w h text align).
Proof. intros pdf. now eexists _, _. Qed.

Lemma succeeds_get_string_width s :
  succeeds (get_string_width string_width s).
Proof. intros pdf. now eexists _, _. Qed.

Lemma succeeds_add_page : succeeds add_page.
Proof. intros pdf. now eexists _, _. Qed.

Lemma succeeds_set_auto_page_break b : succeeds (set_auto_page_break b).
Proof. intros pdf. now eexists _, _. Qed.

Lemma succeeds_for_each {A S} (items : list A)
    (body : A -> S -> @pdfM num S) s :
  (forall a s, succeeds (body a s)) -> succeeds (for_each items body s).
Proof.
  intros Hb. revert s. induction items as [|a items IH]; intros s.
  - apply succeeds_ret.
  - cbn [for_each]. apply succeeds_bind; [apply Hb|]. intros s'. apply IH.
Qed.

(** A loop whose rounds either all return, or one of them raises [e]. *)
Lemma for_each_outcome {A S} e (good : A -> bool) (items : list A)
    (body : A -> S -> @pdfM num S) s :
  (forall a s, In a items -> good a = true -> succeeds (body a s)) ->
  (forall a s, In a items -> good a = false -> raises e (body a s)) ->
  if forallb good items then succeeds (for_each items body s)
  else raises e (for_each items body s).
Proof.
  intros Hgood Hbad. revert s.
  induction items as [|a items IH]; intros s.
  - apply succeeds_ret.
  - cbn [forallb for_each]. destruct (good a) eqn:Ea; cbn [andb].
    + specialize (IH (fun a s Hin => Hgood a s (or_intror Hin))
                     (fun a s Hin => Hbad a s (or_intror Hin))).
      destruct (forallb good items).
      * apply succeeds_bind; [now apply Hgood; [left|]|]. intros s'. apply IH.
      * apply raises_bind_r; [now apply Hgood; [left|]|]. intros s'. apply IH.
    + apply raises_bind_l. apply Hbad; [now left|exact Ea].
Qed.

Lemma py_index_outcome {A} (l : list A) (i : Z) :
  0 <= i ->
  if i <? Z.of_nat (List.length l)
  then exists a, py_index l i = Ok a
  else py_index l i = Raise IndexError.
Proof.
  intros Hi. destruct (Z.ltb_spec i (Z.of_nat (List.length l))).
  - apply py_index_in_bounds. lia.
  - apply py_index_out_of_bounds. lia.
Qed.

Lemma py_index_last {A} (l : list A) :
  match l with
  | [] => py_index l (-1) = Raise IndexError
  | _ => exists a, py_index l (-1) = Ok a
  end.
Proof.
  destruct l as [|a l]; [reflexivity|].
  unfold py_index. cbn [Z.ltb Z.compare].
  set (n := Z.of_nat (List.length (a :: l))).
  assert (Hn : 0 < n) by (unfold n; cbn [List.length]; lia).
  replace ((0 <=? n + -1) && (n + -1 <? n)) with true
    by (symmetry; apply andb_true_iff; lia).
  destruct (lookup_lt_is_Some_2 (a :: l) (Z.to_nat (n + -1))) as [x Hx].
  { unfold n. lia. }
  rewrite Hx. eauto.
Qed.

(** What a day column needs: a width at index [1 + day_idx], a date at index
    [day_idx] and, when there are labels, a label at index [day_idx]. *)
Definition day_fits (col_widths : list num) (week_dates : list datetime)
    (labels : option (list string)) (day_idx : Z) : bool :=
  (1 + day_idx <? Z.of_nat (List.length col_widths))
  && (day_idx <? Z.of_nat (List.length week_dates))
  && match truthy labels with
     | Some ls => day_idx <? Z.of_nat (List.length ls)
     | None => true
     end.

Lemma draw_day_columns_outcome x y col_widths week_dates row_h labels :
  if forallb (day_fits col_widths week_dates labels) (range 7)
  then succeeds (draw_day_columns string_width x y col_widths week_dates
                   row_h labels)
  else raises IndexError
         (draw_day_columns string_width x y col_widths week_dates row_h
            labels).
Proof.
  unfold draw_day_columns. apply for_each_outcome.
  - intros i x' Hin Hfit. apply In_range in Hin. unfold day_fits in Hfit.
    apply andb_true_iff in Hfit as [Hfit Hl].
    apply andb_true_iff in Hfit as [Hw Hd].
    pose proof (py_index_outcome col_widths (1 + i) ltac:(lia)) as Ew.
    rewrite Hw in Ew. destruct Ew as [w ->].
    pose proof (py_index_outcome week_dates i ltac:(lia)) as Ed.
    rewrite Hd in Ed. destruct Ed as [dt ->].
    apply succeeds_bind; [apply succeeds_lift|]. intros w'.
    apply succeeds_bind; [apply succeeds_rect|]. intros _.
    apply succeeds_bind; [apply succeeds_lift|]. intros dt'.
    apply succeeds_bind; [apply succeeds_set_font|]. intros _.
    apply succeeds_bind; [apply succeeds_get_string_width|]. intros date_w.
    apply succeeds_bind; [apply succeeds_set_xy|]. intros _.
    apply succeeds_bind; [apply succeeds_cell|]. intros _.
    apply succeeds_bind; [|intros _; apply succeeds_ret].
    destruct (truthy labels) as [ls|]; [|apply succeeds_ret].
    pose proof (py_index_outcome ls i ltac:(lia)) as El.
    rewrite Hl in El. destruct El as [l ->].
    apply succeeds_bind; [apply succeeds_set_font|]. intros _.
    apply succeeds_bind; [apply succeeds_set_xy|]. intros _.
    apply succeeds_bind; [apply succeeds_lift|]. intros l'.
    apply succeeds_cell.
  - intros i x' Hin Hfit. apply In_range in Hin. unfold day_fits in Hfit.
    pose proof (py_index_outcome col_widths (1 + i) ltac:(lia)) as Ew.
    destruct (1 + i <? _); [destruct Ew as [w ->]|rewrite Ew];
      [|apply raises_bind_l, raises_lift].
    apply raises_bind_r; [apply succeeds_lift|]. intros w'.
    apply raises_bind_r; [apply succeeds_rect|]. intros _.
    pose proof (py_index_outcome week_dates i ltac:(lia)) as Ed.
    destruct (i <? Z.of_nat (List.length week_dates));
      [destruct Ed as [dt ->]|rewrite Ed];
      [|apply raises_bind_l, raises_lift].
    cbn [andb] in Hfit.
    apply raises_bind_r; [apply succeeds_lift|]. intros dt'.
    apply raises_bind_r; [apply succeeds_set_font|]. intros _.
    apply raises_bind_r; [apply succeeds_get_string_width|]. intros date_w.
    apply raises_bind_r; [apply succeeds_set_xy|]. intros _.
    apply raises_bind_r; [apply succeeds_cell|]. intros _.
    apply raises_bind_l.
    destruct (truthy labels) as [ls|]; [|discriminate].
    pose proof (py_index_outcome ls i ltac:(lia)) as El.
    rewrite Hfit in El. rewrite El.
    apply raises_bind_r; [apply succeeds_set_font|]. intros _.
    apply raises_bind_r; [apply succeeds_set_xy|]. intros _.
    apply raises_bind_l, raises_lift.
Qed.

Lemma draw_week_number_column_outcome x_start y (col_widths : list num)
    week_num row_h :
  match col_widths with
  | [] => raises IndexError
            (draw_week_number_column x_start y col_widths week_num row_h)
  | _ => succeeds
           (draw_week_number_column x_start y col_widths week_num row_h)
  end.
Proof.
  unfold draw_week_number_column. destruct col_widths as [|w0 ws].
  - apply raises_bind_r; [apply succeeds_set_fill_color|]. intros _.
    apply raises_bind_l, raises_lift.
  - apply succeeds_bind; [apply succeeds_set_fill_color|]. intros _.
    apply succeeds_bind; [apply succeeds_lift|]. intros w.
    apply succeeds_bind; [apply succeeds_rect|]. intros _.
    apply succeeds_bind; [apply succeeds_set_xy|]. intros _.
    apply succeeds_bind; [apply succeeds_cell|]. intros _.
    apply succeeds_ret.
Qed.

(** With a width to read, the totals column is drawn whatever its lines are:
    the height of a line is computed for a non-empty list only. *)
Lemma draw_total_column_outcome x y (col_widths : list num) row_h
    (has_total : bool) total_content :
  match col_widths with
  | [] => if has_total
          then raises IndexError
                 (draw_total_column x y col_widths row_h has_total
                    total_content)
          else succeeds
                 (draw_total_column x y col_widths row_h has_total
                    total_content)
  | _ => succeeds
           (draw_total_column x y col_widths row_h has_total total_content)
  end.
Proof.
  unfold draw_total_column.
  pose proof (py_index_last col_widths) as Hlast.
  destruct col_widths as [|w0 ws], has_total; try apply succeeds_ret.
  - rewrite Hlast. apply raises_bind_l, raises_lift.
  - destruct Hlast as [w ->].
    apply succeeds_bind; [apply succeeds_lift|]. intros w'.
    apply succeeds_bind; [apply succeeds_rect|]. intros _.
    destruct (truthy total_content) as [lines|]; [|apply succeeds_ret].
    apply succeeds_bind; [apply succeeds_set_font|]. intros _.
    apply succeeds_bind; [|intros _; apply succeeds_ret].
    apply succeeds_for_each. intros [li line] [].
    apply succeeds_bind; [apply succeeds_set_xy|]. intros _.
    apply succeeds_cell.
Qed.

Lemma forallb_day_fits col_widths week_dates labels :
  forallb (day_fits col_widths week_dates labels) (range 7)
  = row_fits (List.length col_widths) labels week_dates.
Proof.
  unfold row_fits, day_fits. cbn [range seq map forallb Z.of_nat].
  destruct labels as [[|l ls]|]; cbn [truthy];
    apply eq_true_iff_eq; rewrite ?andb_true_iff, ?Z.ltb_lt, ?Nat.leb_le;
    cbn; lia.
Qed.

Lemma draw_week_row_outcome x_start y col_widths week_num week_dates row_h
    has_total total_content labels :
  if row_fits (List.length col_widths) labels week_dates
  then succeeds (_draw_week_row string_width x_start y col_widths week_num
                   week_dates row_h has_total total_content labels)
  else raises IndexError
         (_draw_week_row string_width x_start y col_widths week_num
            week_dates row_h has_total total_content labels).
Proof.
  unfold _draw_week_row.
  pose proof (draw_week_number_column_outcome x_start y col_widths week_num
                row_h) as Hcol.
  pose proof (fun x => draw_day_columns_outcome x y col_widths week_dates
                         row_h labels) as Hdays.
  pose proof (fun x => draw_total_column_outcome x y col_widths row_h
                         has_total total_content) as Htotal.
  rewrite forallb_day_fits in Hdays.
  destruct col_widths as [|w0 ws].
  - cbn. now apply raises_bind_l.
  - destruct (row_fits (List.length (w0 :: ws)) labels week_dates).
    + apply succeeds_bind; [exact Hcol|]. intros x.
      apply succeeds_bind; [apply Hdays|]. intros x'. apply Htotal.
    + apply raises_bind_r; [exact Hcol|]. intros x.
      apply raises_bind_l, Hdays.
Qed.

Lemma draw_week_rows_outcome x_start y_start header_h col_widths row_h weeks
    has_total total_content_fn labels :
  if forallb (row_fits (List.length col_widths) labels) weeks
  then succeeds (draw_week_rows string_width x_start y_start header_h
                   col_widths row_h weeks has_total total_content_fn labels)
  else raises IndexError
         (draw_week_rows string_width x_start y_start header_h col_widths
            row_h weeks has_total total_content_fn labels).
Proof.
  unfold draw_week_rows. generalize 0 at 1 2.
  induction weeks as [|wk weeks IH]; intros i.
  - apply succeeds_ret.
  - cbn [forallb enumerate_from for_each].
    match goal with
    | |- context [_draw_week_row _ ?a ?b ?c ?d ?e ?f ?g ?h ?l] =>
        pose proof (draw_week_row_outcome a b c d e f g h l) as Hrow
    end.
    specialize (IH (i + 1)).
    destruct (row_fits (List.length col_widths) labels wk); cbn [andb].
    + destruct (forallb (row_fits (List.length col_widths) labels) weeks).
      * apply succeeds_bind; [exact Hrow|]. intros []. exact IH.
      * apply raises_bind_r; [exact Hrow|]. intros []. exact IH.
    + now apply raises_bind_l.
Qed.

Lemma succeeds_draw_header_row x_start y_start col_widths headers has_total :
  succeeds (_draw_header_row x_start y_start col_widths headers has_total).
Proof.
  unfold _draw_header_row.
  apply succeeds_bind; [|intros _; apply succeeds_ret].
  apply succeeds_for_each. intros [header w] x.
  apply succeeds_bind; [apply succeeds_set_fill_color|]. intros _.
  apply succeeds_bind; [apply succeeds_rect|]. intros _.
  apply succeeds_bind; [apply succeeds_set_xy|]. intros _.
  apply succeeds_bind; [apply succeeds_cell|]. intros _.
  apply succeeds_ret.
Qed.

(** The three ways the page can go. *)
Lemma calendar_page_outcome headers col_widths weeks has_total
    total_content_fn labels :
  let page := calendar_page string_width headers col_widths weeks has_total
                total_content_fn labels in
  if fold_left Z.add col_widths 0 =? 0 then raises ZeroDivisionError page
  else if forallb (row_fits (List.length col_widths) labels) weeks
       then succeeds page
       else raises IndexError page.
Proof.
  cbv zeta. unfold calendar_page. cbv zeta.
  destruct (fold_left Z.add col_widths 0 =? 0).
  - apply raises_bind_r; [apply succeeds_add_page|]. intros _.
    apply raises_bind_r; [apply succeeds_set_auto_page_break|]. intros _.
    apply raises_bind_l, raises_lift.
  - destruct (forallb _ weeks) eqn:Efit.
    + apply succeeds_bind; [apply succeeds_add_page|]. intros _.
      apply succeeds_bind; [apply succeeds_set_auto_page_break|]. intros _.
      apply succeeds_bind; [apply succeeds_lift|]. intros scale.
      apply succeeds_bind; [apply succeeds_set_font|]. intros _.
      apply succeeds_bind; [apply succeeds_draw_header_row|]. intros _.
      apply succeeds_bind; [apply succeeds_set_font|]. intros _.
      match goal with
      | |- succeeds (draw_week_rows _ ?a ?b ?c ?d ?e ?f ?g ?h ?l) =>
          pose proof (draw_week_rows_outcome a b c d e f g h l) as Hrows
      end.
      now rewrite length_map, Efit in Hrows.
    + apply raises_bind_r; [apply succeeds_add_page|]. intros _.
      apply raises_bind_r; [apply succeeds_set_auto_page_break|]. intros _.
      apply raises_bind_r; [apply succeeds_lift|]. intros scale.
      apply raises_bind_r; [apply succeeds_set_font|]. intros _.
      apply raises_bind_r; [apply succeeds_draw_header_row|]. intros _.
      apply raises_bind_r; [apply succeeds_set_font|]. intros _.
      match goal with
      | |- raises _ (draw_week_rows _ ?a ?b ?c ?d ?e ?f ?g ?h ?l) =>
          pose proof (draw_week_rows_outcome a b c d e f g h l) as Hrows
      end.
      now rewrite length_map, Efit in Hrows.
Qed.

End Outcomes.

(** ** The renderer and the file system, case by case *)


Lemma forallb_true_Forall {A} (f : A -> bool) (l : list A) :
  forallb f l = true <-> Forall (fun x => f x = true) l.
Proof. rewrite forallb_forall, Forall_forall. reflexivity. Qed.

Section PageOutcome.

Context {num : Type} `{FloatOps num}.
Variable string_width : font -> string -> num.

Lemma calendar_page_cases headers col_widths weeks has_total
    total_content_fn labels pdf :
  fst (calendar_page string_width headers col_widths weeks has_total
         total_content_fn labels pdf)
  = if fold_left Z.add col_widths 0 =? 0 then Raise ZeroDivisionError
    else if forallb (row_fits (List.length col_widths) labels) weeks
         then Ok ()
         else Raise IndexError.
Proof.
  pose proof (calendar_page_outcome string_width headers col_widths weeks
                has_total total_content_fn labels) as Hpage.
  cbv zeta in Hpage.
  destruct (fold_left Z.add col_widths 0 =? 0).
  - now destruct (Hpage pdf) as [pdf' ->].
  - destruct (forallb _ weeks).
    + now destruct (Hpage pdf) as ([] & pdf' & ->).
    + now destruct (Hpage pdf) as [pdf' ->].
Qed.


End PageOutcome.

Section FilesOutcome.

Context {num : Type} `{FloatOps num}.
Variable string_width : font -> string -> num.
Variable SCRIPT_DIR : string.

Local Open Scope string_scope.





End FilesOutcome.



(** ** The cells of a page, for any layout *)

Section CellsOfAnyLayout.

Context {num : Type} `{FloatOps num}.
Variable string_width : font -> string -> num.

Local Open Scope string_scope.

Abbreviation pdfM := (@pdfM num).
Abbreviation draw_op := (@draw_op num).

Ltac pdf_simpl_in H :=
  cbv [mbind mret pdfM_bind pdfM_ret set_fill_color rect emit set_xy cell
       set_font get_string_width lift add_page set_auto_page_break
       snd fst content cur_x cur_y cur_font fill_color orientation unit_
       page_format auto_page_break pages] in H.

(** What is drawn begins a new cell. *)
Definition starts_with_rect (ops : list draw_op) : Prop :=
  match ops with
  | DrawText _ _ _ _ _ _ _ :: _ => False
  | _ => True
  end.

Lemma texts_until_rect_app (a b : list draw_op) :
  starts_with_rect b -> texts_until_rect (a ++ b) = texts_until_rect a.
Proof.
  intros Hb. induction a as [|[] a IH]; cbn [app texts_until_rect].
  - destruct b as [|[] b]; [reflexivity|reflexivity|contradiction].
  - reflexivity.
  - now rewrite IH.
Qed.

Lemma cells_of_app (a b : list draw_op) :
  starts_with_rect b -> cells_of (a ++ b) = (cells_of a ++ cells_of b)%list.
Proof.
  intros Hb. induction a as [|[] a IH]; cbn [app cells_of].
  - reflexivity.
  - now rewrite texts_until_rect_app, IH.
  - exact IH.
Qed.

Lemma starts_with_rect_app (a b : list draw_op) :
  starts_with_rect a -> starts_with_rect b -> starts_with_rect (a ++ b).
Proof. now destruct a as [|[] a]. Qed.

(** A call that returns has drawn the cells [cs], given a fill colour that
    satisfies [pre], and leaves one that satisfies [post]. *)
Definition draws (pre post : color -> Prop) (cs : list page_cell) {A}
    (m : pdfM A) : Prop :=
  forall pdf a pdf',
    pre (fill_color pdf) -> m pdf = (Ok a, pdf') ->
    post (fill_color pdf')
    /\ exists ops,
         content pdf' = (content pdf ++ ops)%list
         /\ starts_with_rect ops /\ cells_of ops = cs.

Definition any_fill (c : color) : Prop := True.
Definition peach (c : color) : Prop := c = COLOR_PEACH.

Lemma draws_ret P {A} (a : A) : draws P P [] (mret a).
Proof.
  intros pdf a' pdf' HP [= <- <-]. split; [exact HP|].
  exists []. now rewrite app_nil_r.
Qed.

Lemma draws_bind P Q R cs1 cs2 {A B} (m : pdfM A) (k : A -> pdfM B) :
  draws P Q cs1 m -> (forall a, draws Q R cs2 (k a)) ->
  draws P R (cs1 ++ cs2) (m ≫= k).
Proof.
  intros Hm Hk pdf b pdf' HP Hbind.
  apply bind_ok_inv in Hbind as (a & pdf1 & Em & Ek).
  destruct (Hm _ _ _ HP Em) as (HQ & ops1 & Hc1 & Hs1 & Hcs1).
  destruct (Hk a _ _ _ HQ Ek) as (HR & ops2 & Hc2 & Hs2 & Hcs2).
  split; [exact HR|]. exists (ops1 ++ ops2)%list.
  split; [now rewrite Hc2, Hc1, app_assoc|].
  split; [now apply starts_with_rect_app|].
  now rewrite cells_of_app, Hcs1, Hcs2.
Qed.

Lemma draws_weaken (P P' Q Q' : color -> Prop) cs {A} (m : pdfM A) :
  (forall c, P' c -> P c) -> (forall c, Q c -> Q' c) ->
  draws P Q cs m -> draws P' Q' cs m.
Proof.
  intros HP HQ Hm pdf a pdf' Hpre Em.
  destruct (Hm _ _ _ (HP _ Hpre) Em) as (Hpost & Hops). auto.
Qed.

(** A call that leaves the page and the fill colour as they are. *)
Lemma draws_nothing P {A} (m : pdfM A) :
  (forall pdf a pdf',
     m pdf = (Ok a, pdf') ->
     content pdf' = content pdf /\ fill_color pdf' = fill_color pdf) ->
  draws P P [] m.
Proof.
  intros Hm pdf a pdf' HP Em. destruct (Hm _ _ _ Em) as [Hc Hf].
  split; [now rewrite Hf|]. exists []. now rewrite app_nil_r.
Qed.

Lemma draws_for_each P {A S} (cs : A -> list page_cell) (items : list A)
    (body : A -> S -> pdfM S) :
  (forall a s, In a items -> draws P P (cs a) (body a s)) ->
  forall s, draws P P (concat (map cs items)) (for_each items body s).
Proof.
  induction items as [|a items IH]; intros Hb s.
  - apply draws_ret.
  - cbn [for_each map concat]. apply (draws_bind P P P).
    + apply Hb. now left.
    + intros s'. apply IH. intros a' s'' Hin. apply Hb. now right.
Qed.

(** *** The header row *)

Lemma zip_header_cells (headers : list string) (col_widths : list num) :
  concat (map (fun p : string * num =>
                 [mk_cell "FD" COLOR_LIGHT_BLUE [(fst p, "C")]])
            (zip headers col_widths))
  = header_cells (take (List.length col_widths) headers).
Proof.
  revert col_widths. induction headers as [|h headers IH];
    intros [|w col_widths]; try reflexivity.
  cbn. f_equal. apply IH.
Qed.

Lemma draws_draw_header_row x_start y_start (col_widths : list num) headers
    has_total :
  draws any_fill any_fill
    (header_cells (take (List.length col_widths) headers))
    (_draw_header_row x_start y_start col_widths headers has_total).
Proof.
  unfold _draw_header_row. rewrite <- zip_header_cells.
  rewrite <- (app_nil_r (concat _)).
  apply (draws_bind any_fill any_fill any_fill);
    [|intros _; apply draws_ret].
  apply draws_for_each. intros [header w] x _ pdf a pdf' _ Hm.
  pdf_simpl_in Hm. injection Hm as <- <-.
  split; [exact I|]. eexists [_; _].
  cbn [content]. split; [now rewrite <- app_assoc|]. split; reflexivity.
Qed.

(** *** A week row *)

Lemma draws_draw_week_number_column x_start y (col_widths : list num)
    week_num row_h :
  draws any_fill peach [mk_cell "FD" COLOR_PEACH [(str week_num, "C")]]
    (draw_week_number_column x_start y col_widths week_num row_h).
Proof.
  intros pdf a pdf' _ Hm. unfold draw_week_number_column in Hm.
  pdf_simpl_in Hm.
  destruct (py_index col_widths 0) as [w0|]; [|discriminate].
  injection Hm as <- <-. split; [reflexivity|]. eexists [_; _].
  cbn [content]. split; [now rewrite <- app_assoc|]. split; reflexivity.
Qed.

(** The cell of the day at index [day_idx], when there is a date for it. *)
Definition day_cells_at (week_dates : list datetime)
    (labels : option (list string)) (day_idx : Z) : list page_cell :=
  match week_dates !! Z.to_nat day_idx with
  | Some dt =>
      [day_cell dt match truthy labels with
                   | Some ls => ls !! Z.to_nat day_idx
                   | None => None
                   end]
  | None => []
  end.

Lemma py_index_ok_lookup {A} (l : list A) (i : Z) (a : A) :
  (0 <= i)%Z -> py_index l i = Ok a -> l !! Z.to_nat i = Some a.
Proof.
  intros Hi. rewrite py_index_nonneg by exact Hi.
  destruct (l !! Z.to_nat i); [now intros [= ->]|discriminate].
Qed.

Lemma draws_draw_day_columns x y (col_widths : list num) week_dates row_h
    labels :
  draws peach peach (concat (map (day_cells_at week_dates labels) (range 7)))
    (draw_day_columns string_width x y col_widths week_dates row_h labels).
Proof.
  unfold draw_day_columns. apply draws_for_each.
  intros i x' Hin pdf a pdf' Hfill Hm. apply In_range in Hin.
  unfold peach in *. unfold day_cells_at.
  destruct pdf as [o u f apb pg fnt fill cx cy ops0].
  cbn [fill_color] in Hfill. subst fill.
  pdf_simpl_in Hm.
  destruct (py_index col_widths (1 + i)) as [w|]; [|discriminate].
  destruct (py_index week_dates i) as [dt|] eqn:Edt; [|discriminate].
  apply py_index_ok_lookup in Edt; [|lia]. rewrite Edt.
  destruct (truthy labels) as [ls|].
  - destruct (py_index ls i) as [l|] eqn:El; [|discriminate].
    apply py_index_ok_lookup in El; [|lia]. rewrite El.
    injection Hm as <- <-. cbn [fill_color]. split; [reflexivity|].
    eexists [_; _; _]. cbn [content].
    split; [now rewrite <- !app_assoc|]. split; reflexivity.
  - injection Hm as <- <-. cbn [fill_color]. split; [reflexivity|].
    eexists [_; _]. cbn [content].
    split; [now rewrite <- !app_assoc|]. split; reflexivity.
Qed.

(** The lines of the totals cell are texts in the cell begun before. *)
Lemma total_lines_texts (x y w line_h : num) (lines : list string) :
  forall i pdf pdf',
    for_each (enumerate_from i lines)
      (fun '(li, line) (_ : unit) =>
         _ ← set_xy (add x (of_int 2)) (add y (mul (of_int li) line_h));
         cell (sub w (of_int 4)) line_h line "L")
      () pdf = (Ok (), pdf') ->
    fill_color pdf' = fill_color pdf
    /\ exists ops,
         content pdf' = (content pdf ++ ops)%list
         /\ cells_of ops = []
         /\ texts_until_rect ops = map (fun l => (l, "L")) lines.
Proof.
  induction lines as [|line lines IH]; intros i pdf pdf' Hm.
  - injection Hm as <-. split; [reflexivity|]. exists [].
    now rewrite app_nil_r.
  - cbn [enumerate_from for_each] in Hm.
    apply bind_ok_inv in Hm as ([] & pdf1 & Hstep & Hrest).
    pdf_simpl_in Hstep. injection Hstep as <-.
    apply IH in Hrest as (Hfill & ops & Hc & Hcells & Htexts).
    cbn [fill_color content] in Hfill, Hc. split; [exact Hfill|].
    eexists (_ :: ops). split; [rewrite Hc, <- app_assoc; reflexivity|].
    cbn [cells_of texts_until_rect map]. now rewrite Hcells, Htexts.
Qed.

(** The totals cell of a row. *)
Definition total_cells (has_total : bool) (total_content : option (list string))
  : list page_cell :=
  if has_total then
    [mk_cell "D" COLOR_PEACH
       (map (fun l => (l, "L"))
          match truthy total_content with
          | Some lines => lines
          | None => []
          end)]
  else [].

Lemma draws_draw_total_column x y (col_widths : list num) row_h has_total
    total_content :
  draws peach peach (total_cells has_total total_content)
    (draw_total_column x y col_widths row_h has_total total_content).
Proof.
  intros pdf a pdf' Hfill Hm. unfold peach in *.
  unfold draw_total_column in Hm. unfold total_cells.
  destruct has_total.
  2:{ injection Hm as <- <-. split; [exact Hfill|]. exists [].
      now rewrite app_nil_r. }
  destruct pdf as [o u f apb pg fnt fill cx cy ops0].
  cbn [fill_color] in Hfill. subst fill.
  apply bind_ok_inv in Hm as (w & pdf1 & Hw & Hm).
  unfold lift in Hw. destruct (py_index col_widths (-1)); [|discriminate].
  injection Hw as -> <-.
  apply bind_ok_inv in Hm as ([] & pdf2 & Hrect & Hm).
  pdf_simpl_in Hrect. injection Hrect as <-.
  destruct (truthy total_content) as [lines|].
  - apply bind_ok_inv in Hm as ([] & pdf3 & Hfont & Hm).
    pdf_simpl_in Hfont. injection Hfont as <-.
    apply bind_ok_inv in Hm as ([] & pdf4 & Hloop & Hret).
    injection Hret as <- <-.
    apply total_lines_texts in Hloop as (Hf & ops & Hc & Hcells & Htexts).
    cbn [fill_color content] in Hf, Hc.
    split; [exact Hf|]. eexists (_ :: ops).
    split; [rewrite Hc, <- app_assoc; reflexivity|]. split; [reflexivity|].
    cbn [cells_of]. now rewrite Hcells, Htexts.
  - injection Hm as <- <-. cbn [fill_color content].
    split; [reflexivity|]. eexists [_].
    split; [reflexivity|]. split; reflexivity.
Qed.

(** The cells of a week row, as it is drawn. *)
Definition row_cells (week_num : Z) (week_dates : list datetime)
    (labels : option (list string)) (has_total : bool)
    (total_content : option (list string)) : list page_cell :=
  ([mk_cell "FD" COLOR_PEACH [(str week_num, "C")]]
   ++ concat (map (day_cells_at week_dates labels) (range 7))
   ++ total_cells has_total total_content)%list.

Lemma draws_draw_week_row x_start y (col_widths : list num) week_num
    week_dates row_h has_total total_content labels :
  draws any_fill any_fill
    (row_cells week_num week_dates labels has_total total_content)
    (_draw_week_row string_width x_start y col_widths week_num week_dates
       row_h has_total total_content labels).
Proof.
  unfold _draw_week_row, row_cells.
  apply (draws_weaken any_fill any_fill peach any_fill);
    [auto|easy|].
  apply (draws_bind any_fill peach peach);
    [apply draws_draw_week_number_column|]. intros x.
  apply (draws_bind peach peach peach);
    [apply draws_draw_day_columns|]. intros x'.
  apply draws_draw_total_column.
Qed.

Lemma draws_draw_week_rows x_start y_start header_h (col_widths : list num)
    row_h weeks has_total total_content_fn labels :
  draws any_fill any_fill
    (concat
       (map (fun p : Z * list datetime =>
               row_cells (fst p + 1) (snd p) labels has_total
                 match total_content_fn with
                 | Some fn => Some (fn (fst p))
                 | None => None
                 end)
          (enumerate_from 0 weeks)))
    (draw_week_rows string_width x_start y_start header_h col_widths row_h
       weeks has_total total_content_fn labels).
Proof.
  unfold draw_week_rows. apply draws_for_each.
  intros [week_idx week_dates] [] _. apply draws_draw_week_row.
Qed.

(** The cells of a page, as it is drawn. *)
Lemma draws_calendar_page headers col_widths weeks has_total total_content_fn
    labels :
  draws any_fill any_fill
    (header_cells (take (List.length col_widths) headers)
     ++ concat
          (map (fun p : Z * list datetime =>
                  row_cells (fst p + 1) (snd p) labels has_total
                    match total_content_fn with
                    | Some fn => Some (fn (fst p))
                    | None => None
                    end)
             (enumerate_from 0 weeks)))
    (calendar_page string_width headers col_widths weeks has_total
       total_content_fn labels).
Proof.
  unfold calendar_page. cbv zeta.
  apply (draws_bind any_fill any_fill any_fill []);
    [apply draws_nothing; intros pdf a pdf' [= _ <-]; auto|]. intros _.
  apply (draws_bind any_fill any_fill any_fill []);
    [apply draws_nothing; intros pdf a pdf' [= _ <-]; auto|]. intros _.
  apply (draws_bind any_fill any_fill any_fill []);
    [apply draws_nothing; unfold lift; intros pdf a pdf' [= _ <-]; auto|].
  intros scale.
  apply (draws_bind any_fill any_fill any_fill []);
    [apply draws_nothing; intros pdf a pdf' [= _ <-]; auto|]. intros _.
  apply (draws_bind any_fill any_fill any_fill).
  { pose proof (draws_draw_header_row 20 20
                  (map (fun w : Z => mul (of_int w) scale) col_widths)
                  headers has_total) as Hh.
    now rewrite length_map in Hh. }
  intros _.
  apply (draws_bind any_fill any_fill any_fill []);
    [apply draws_nothing; intros pdf a pdf' [= _ <-]; auto|]. intros _.
  apply draws_draw_week_rows.
Qed.

(** *** The cells as [page_cells] lists them *)

Lemma row_cells_week_cells week_num week_dates labels has_total
    total_content :
  row_fits 8 labels week_dates = true ->
  row_cells week_num week_dates labels has_total total_content
  = week_cells week_num (take 7 week_dates) (truthy labels)
      (if has_total
       then Some match truthy total_content with
                 | Some lines => lines
                 | None => []
                 end
       else None).
Proof.
  unfold row_fits. intros Hfit.
  apply andb_true_iff in Hfit as [Hfit Hlabels].
  apply andb_true_iff in Hfit as [_ Hdates].
  apply Nat.leb_le in Hdates.
  destruct week_dates as [|d0 [|d1 [|d2 [|d3 [|d4 [|d5 [|d6 rest]]]]]]];
    try (cbn in Hdates; lia).
  unfold row_cells, week_cells, total_cells.
  destruct labels as [[|l0 ls]|]; cbn [truthy].
  - now destruct has_total.
  - apply Nat.leb_le in Hlabels.
    destruct ls as [|l1 [|l2 [|l3 [|l4 [|l5 [|l6 more]]]]]];
      try (cbn in Hlabels; lia).
    now destruct has_total.
  - now destruct has_total.
Qed.

Lemma rows_week_cells labels has_total total_content_fn weeks :
  Forall (fun week_dates => row_fits 8 labels week_dates = true) weeks ->
  forall i : nat,
    concat
      (map (fun p : Z * list datetime =>
              row_cells (fst p + 1) (snd p) labels has_total
                match total_content_fn with
                | Some fn => Some (fn (fst p))
                | None => None
                end)
         (enumerate_from (Z.of_nat i) weeks))
    = concat
        (imap (fun w week_dates =>
                 week_cells (Z.of_nat (i + w) + 1) week_dates (truthy labels)
                   (if has_total
                    then Some match total_content_fn with
                              | Some fn => fn (Z.of_nat (i + w))
                              | None => []
                              end
                    else None))
           (map (take 7) weeks)).
Proof.
  induction 1 as [|week_dates weeks Hfit _ IH]; intros i; [reflexivity|].
  cbn [enumerate_from map imap concat fst snd].
  rewrite row_cells_week_cells by exact Hfit. f_equal.
  - rewrite Nat.add_0_r. f_equal.
    destruct has_total; [|reflexivity]. f_equal.
    destruct total_content_fn as [fn|]; [|reflexivity]. cbn [truthy].
    now destruct (fn (Z.of_nat i)).
  - replace (Z.of_nat i + 1)%Z with (Z.of_nat (S i)) by lia.
    rewrite IH. f_equal. apply imap_ext. intros w wd _. cbn.
    now rewrite Nat.add_succ_r.
Qed.

Lemma row_fits_more n labels week_dates :
  (8 <= n)%nat ->
  row_fits n labels week_dates = row_fits 8 labels week_dates.
Proof.
  intros Hn. unfold row_fits.
  replace (8 <=? n)%nat with true by (symmetry; now apply Nat.leb_le).
  reflexivity.
Qed.

(** X14. The cells of a page for any layout that the renderer draws to the
    end: one header cell for each header that has a width (headers beyond the
    widths are dropped without an error, and so is the header of a totals
    column that has none); then for each week its number from 1 on, the first
    seven dates of the week, each with the label of its day when the list of
    labels is not empty, and a totals cell when [has_total] is set (drawn with
    the last width), holding the lines of [total_content_fn], or none. *)
Theorem page_cells_of_any_layout (headers : list string)
    (col_widths : list Z) (weeks : list (list datetime)) (has_total : bool)
    (total_content_fn : option (Z -> list string))
    (labels : option (list string)) (doc : @FPDF num) :
  calendar_page string_width headers col_widths weeks has_total
    total_content_fn labels (new_FPDF "L" "pt" "letter") = (Ok (), doc) ->
  cells_of (content doc)
  = page_cells (take (List.length col_widths) headers) (map (take 7) weeks)
      (truthy labels)
      (if has_total
       then Some (fun week_idx =>
                    match total_content_fn with
                    | Some fn => fn week_idx
                    | None => []
                    end)
       else None).
Proof.
  intros Hpage.
  pose proof (calendar_page_cases string_width headers col_widths weeks
                has_total total_content_fn labels (new_FPDF "L" "pt" "letter"))
    as Hcases.
  rewrite Hpage in Hcases. cbn [fst] in Hcases.
  destruct (fold_left Z.add col_widths 0 =? 0)%Z; [discriminate|].
  destruct (forallb _ weeks) eqn:Hfits; [|discriminate].
  apply forallb_true_Forall in Hfits.
  destruct (draws_calendar_page headers col_widths weeks has_total
              total_content_fn labels _ _ _ I Hpage)
    as (_ & ops & Hc & _ & Hcells).
  cbn [content new_FPDF app] in Hc. rewrite Hc, Hcells.
  unfold page_cells. f_equal.
  destruct weeks as [|week_dates weeks]; [reflexivity|].
  assert (Hn : (8 <= List.length col_widths)%nat).
  { inversion Hfits as [|? ? Hfit _]; subst. unfold row_fits in Hfit.
    apply andb_true_iff in Hfit as [Hfit _].
    apply andb_true_iff in Hfit as [Hfit _]. now apply Nat.leb_le. }
  assert (Hfits8 : Forall (fun wd => row_fits 8 labels wd = true)
                     (week_dates :: weeks)).
  { eapply Forall_impl; [|exact Hfits]. intros wd Hwd. cbv beta in Hwd.
    now rewrite <- (row_fits_more (List.length col_widths)). }
  pose proof (rows_week_cells labels has_total total_content_fn
                (week_dates :: weeks) Hfits8 0%nat) as Hrows.
  change (Z.of_nat 0) with 0%Z in Hrows. rewrite Hrows.
  f_equal. apply imap_ext. intros w wd _. cbn [Nat.add].
  now destruct has_total.
Qed.

End CellsOfAnyLayout.

Lemma page_cells_of_any_layout_witness :
  cells_of
    (content
       (snd (calendar_page demo_string_width HEADERS_TOTAL WIDTHS_PLAIN
               demo_weeks true None (Some [])
               (new_FPDF "L" "pt" "letter"))))
  = page_cells HEADERS_PLAIN demo_weeks None (Some (fun _ => [])).
Proof.
  assert (Hr : fst (calendar_page demo_string_width HEADERS_TOTAL WIDTHS_PLAIN
                      demo_weeks true None (Some [])
                      (new_FPDF "L" "pt" "letter"))
               = Ok ()) by (vm_compute; reflexivity).
  exact (page_cells_of_any_layout demo_string_width HEADERS_TOTAL WIDTHS_PLAIN
           demo_weeks true None (Some []) _
           (eq_trans (surjective_pairing _)
              (f_equal (fun x => (x, _)) Hr))).
Defined.

(** ** The grid of a page *)

Section GridOfAPage.

Context {num : Type} `{FloatOps num}.
Variable string_width : font -> string -> num.

Local Open Scope string_scope.

Abbreviation pdfM := (@pdfM num).
Abbreviation draw_op := (@draw_op num).
Abbreviation box := (num * num * num * num)%type.

Ltac pdf_simpl_in H :=
  cbv [mbind mret pdfM_bind pdfM_ret set_fill_color rect emit set_xy cell
       set_font get_string_width lift add_page set_auto_page_break
       snd fst content cur_x cur_y cur_font fill_color orientation unit_
       page_format auto_page_break pages] in H.

Lemma rect_boxes_app (a b : list draw_op) :
  rect_boxes (a ++ b) = (rect_boxes a ++ rect_boxes b)%list.
Proof.
  induction a as [|[] a IH]; cbn [app rect_boxes]; [reflexivity| |exact IH].
  now rewrite IH.
Qed.

Lemma rect_boxes_no_cells (ops : list draw_op) :
  cells_of ops = [] -> rect_boxes ops = [].
Proof.
  induction ops as [|[] ops IH]; cbn [cells_of rect_boxes];
    [reflexivity|discriminate|exact IH].
Qed.

Lemma boxes_from_app (x y h : num) (a b : list num) :
  boxes_from x y h (a ++ b)
  = (boxes_from x y h a ++ boxes_from (fold_left add a x) y h b)%list.
Proof.
  revert x. induction a as [|w a IH]; intros x; [reflexivity|].
  cbn [app boxes_from fold_left]. now rewrite IH.
Qed.

(** What a call that returns has added to the page, as boxes. *)
Definition boxes (bs : list box) {A} (m : pdfM A) (pdf pdf' : @FPDF num)
  : Prop :=
  exists ops,
    content pdf' = (content pdf ++ ops)%list /\ rect_boxes ops = bs.

Lemma boxes_none (pdf : @FPDF num) {A} (m : pdfM A) : boxes [] m pdf pdf.
Proof. exists []. now rewrite app_nil_r. Qed.

Lemma boxes_then bs1 bs2 {A B C} (m1 : pdfM A) (m2 : pdfM B) (m : pdfM C)
    pdf pdf1 pdf2 :
  boxes bs1 m1 pdf pdf1 -> boxes bs2 m2 pdf1 pdf2 ->
  boxes (bs1 ++ bs2) m pdf pdf2.
Proof.
  intros (ops1 & Hc1 & Hb1) (ops2 & Hc2 & Hb2).
  exists (ops1 ++ ops2)%list.
  split; [now rewrite Hc2, Hc1, app_assoc|].
  now rewrite rect_boxes_app, Hb1, Hb2.
Qed.

(** *** The header row *)

Lemma snd_zip_take {A B} (l : list A) (k : list B) :
  map snd (zip l k) = take (List.length l) k.
Proof.
  revert k. induction l as [|a l IH]; intros [|b k]; try reflexivity.
  cbn. now rewrite IH.
Qed.

Lemma header_loop_boxes (y_start : Z) (items : list (string * num)) :
  forall x pdf x' pdf',
    for_each items
      (fun '(header, w) x =>
         _ ← set_fill_color COLOR_LIGHT_BLUE;
         _ ← rect x (of_int y_start) w (of_int 20) "FD";
         _ ← set_xy x (of_int y_start);
         _ ← cell w (of_int 20) header "C";
         mret (add x w))
      x pdf = (Ok x', pdf') ->
    boxes (boxes_from x (of_int y_start) (of_int 20) (map snd items))
      (mret () : pdfM unit) pdf pdf'.
Proof.
  induction items as [|[header w] items IH]; intros x pdf x' pdf' Hm.
  - injection Hm as _ <-. apply boxes_none.
  - cbn [for_each] in Hm.
    apply bind_ok_inv in Hm as (x1 & pdf1 & Hstep & Hrest).
    pdf_simpl_in Hstep. injection Hstep as <- <-.
    apply IH in Hrest. cbn [map snd boxes_from].
    change (?b :: ?l) with ([b] ++ l)%list.
    refine (boxes_then _ _ (mret ()) (mret ()) _ _ _ _ _ Hrest).
    eexists [_; _]. cbn [content]. split; [now rewrite <- app_assoc|].
    reflexivity.
Qed.

Lemma draw_header_row_boxes x_start y_start (col_widths : list num) headers
    has_total pdf pdf' :
  _draw_header_row x_start y_start col_widths headers has_total pdf
  = (Ok (), pdf') ->
  boxes (boxes_from (of_int x_start) (of_int y_start) (of_int 20)
           (take (List.length headers) col_widths))
    (mret () : pdfM unit) pdf pdf'.
Proof.
  unfold _draw_header_row. intros Hm.
  apply bind_ok_inv in Hm as (x & pdf1 & Hloop & Hret).
  injection Hret as <-. apply header_loop_boxes in Hloop.
  now rewrite snd_zip_take in Hloop.
Qed.

(** *** A week row *)

Lemma py_index_first {A} (l : list A) (a : A) :
  py_index l 0 = Ok a -> exists rest, l = a :: rest.
Proof.
  destruct l as [|b l]; [discriminate|]. intros [= <-]. eauto.
Qed.

Lemma py_index_last_eq {A} (l : list A) (a d : A) :
  py_index l (-1) = Ok a -> List.last l d = a.
Proof.
  destruct l as [|b l] using rev_ind; [discriminate|]. clear IHl.
  rewrite last_last. unfold py_index. cbv zeta.
  change (-1 <? 0)%Z with true. cbv iota.
  rewrite length_app. cbn [List.length].
  assert (Hn : Z.to_nat (Z.of_nat (List.length l + 1) + -1) = List.length l)
    by lia.
  rewrite Hn, lookup_app_r by lia. rewrite Nat.sub_diag. cbn [lookup].
  destruct (_ && _); [|discriminate]. cbn. now intros [= ->].
Qed.

(** The widths read by the day columns. *)
Definition day_widths (col_widths : list num) (days : list Z) : list num :=
  omap (fun day_idx => col_widths !! Z.to_nat (1 + day_idx)) days.

Lemma day_loop_boxes y (col_widths : list num) week_dates row_h labels
    (days : list Z) :
  Forall (fun day_idx => 0 <= day_idx)%Z days ->
  forall x pdf x' pdf',
    for_each days
      (fun day_idx x =>
         w ← lift (py_index col_widths (1 + day_idx));
         _ ← rect x y w row_h "D";
         dt ← lift (py_index week_dates day_idx);
         let date_str := format_date dt in
         _ ← set_font FONT_FAMILY "" 7;
         date_w ← get_string_width string_width date_str;
         _ ← set_xy (sub (sub (add x w) date_w) (of_int 1))
               (add y (of_int 5));
         _ ← cell date_w (of_int 5) date_str "R";
         _ ← match truthy labels with
             | Some labels =>
                 _ ← set_font FONT_FAMILY "" 9;
                 _ ← set_xy x (add y (of_int 5));
                 label ← lift (py_index labels day_idx);
                 cell w (sub row_h (of_int 5)) label "C"
             | None => mret ()
             end;
         mret (add x w))
      x pdf = (Ok x', pdf') ->
    x' = fold_left add (day_widths col_widths days) x
    /\ boxes (boxes_from x y row_h (day_widths col_widths days))
         (mret () : pdfM unit) pdf pdf'.
Proof.
  induction 1 as [|i days Hi _ IH]; intros x pdf x' pdf' Hm.
  - injection Hm as <- <-. split; [reflexivity|apply boxes_none].
  - cbn [for_each] in Hm.
    apply bind_ok_inv in Hm as (x1 & pdf1 & Hstep & Hrest).
    apply IH in Hrest as [Hx Hrest]. clear IH.
    pdf_simpl_in Hstep.
    destruct (py_index col_widths (1 + i)) as [w|] eqn:Ew; [|discriminate].
    apply py_index_ok_lookup in Ew; [|lia].
    unfold day_widths. cbn [omap list_omap]. rewrite Ew.
    fold (day_widths col_widths days).
    assert (Hbox : x1 = add x w
                   /\ boxes [(x, y, w, row_h)] (mret () : pdfM unit) pdf pdf1).
    { destruct (py_index week_dates i) as [dt|]; [|discriminate].
      destruct (truthy labels) as [ls|].
      - destruct (py_index ls i) as [l|]; [|discriminate].
        injection Hstep as <- <-. split; [reflexivity|].
        eexists [_; _; _]. cbn [content].
        split; [now rewrite <- !app_assoc|reflexivity].
      - injection Hstep as <- <-. split; [reflexivity|].
        eexists [_; _]. cbn [content].
        split; [now rewrite <- !app_assoc|reflexivity]. }
    destruct Hbox as [-> Hbox]. cbn [fold_left boxes_from].
    split; [exact Hx|].
    change (?b :: ?l) with ([b] ++ l)%list.
    exact (boxes_then _ _ (mret ()) (mret ()) _ _ _ _ Hbox Hrest).
Qed.

Lemma total_column_boxes x y (col_widths : list num) row_h has_total
    total_content pdf pdf' :
  draw_total_column x y col_widths row_h has_total total_content pdf
  = (Ok (), pdf') ->
  boxes (boxes_from x y row_h
           (if has_total then [List.last col_widths (of_int 0)] else []))
    (mret () : pdfM unit) pdf pdf'.
Proof.
  unfold draw_total_column. intros Hm. destruct has_total.
  2:{ injection Hm as <-. apply boxes_none. }
  apply bind_ok_inv in Hm as (w & pdf1 & Hw & Hm).
  unfold lift in Hw.
  destruct (py_index col_widths (-1)) as [w'|] eqn:Ew; [|discriminate].
  injection Hw as -> <-.
  apply (py_index_last_eq _ _ (of_int 0)) in Ew. rewrite Ew.
  apply bind_ok_inv in Hm as ([] & pdf2 & Hrect & Hm).
  assert (Hbox : boxes [(x, y, w, row_h)] (mret () : pdfM unit) pdf pdf2).
  { pdf_simpl_in Hrect. injection Hrect as <-.
    eexists [_]. cbn [content]. split; reflexivity. }
  clear Hrect. cbn [boxes_from]. rewrite <- (app_nil_r [_]).
  refine (boxes_then _ _ (mret ()) (mret ()) _ _ _ _ Hbox _).
  destruct (truthy total_content) as [lines|].
  - apply bind_ok_inv in Hm as ([] & pdf3 & Hfont & Hm).
    pdf_simpl_in Hfont. injection Hfont as <-.
    apply bind_ok_inv in Hm as ([] & pdf4 & Hloop & Hret).
    injection Hret as <-.
    apply total_lines_texts in Hloop as (_ & ops & Hc & Hcells & _).
    cbn [content] in Hc. exists ops. cbn [content].
    split; [exact Hc|now apply rect_boxes_no_cells].
  - injection Hm as <-. apply boxes_none.
Qed.

Lemma day_widths_range (col_widths : list num) :
  (8 <= List.length col_widths)%nat ->
  exists w0 seven,
    take 8 col_widths = w0 :: seven
    /\ day_widths col_widths (range 7) = seven
    /\ py_index col_widths 0 = Ok w0.
Proof.
  intros Hlen.
  destruct col_widths as [|w0 [|w1 [|w2 [|w3 [|w4 [|w5 [|w6 [|w7 rest]]]]]]]];
    try (cbn in Hlen; lia).
  eexists _, _. split; [reflexivity|]. split; reflexivity.
Qed.

Lemma draw_week_row_boxes x_start y (col_widths : list num) week_num
    week_dates row_h has_total total_content labels pdf pdf' :
  _draw_week_row string_width x_start y col_widths week_num week_dates row_h
    has_total total_content labels pdf = (Ok (), pdf') ->
  boxes (boxes_from (of_int x_start) y row_h (row_widths col_widths has_total))
    (mret () : pdfM unit) pdf pdf'.
Proof.
  intros Hrow.
  assert (Hfit : row_fits (List.length col_widths) labels week_dates = true).
  { pose proof (draw_week_row_outcome string_width x_start y col_widths
                  week_num week_dates row_h has_total total_content labels)
      as Hout.
    destruct (row_fits _ labels week_dates); [reflexivity|].
    destruct (Hout pdf) as [pdf1 Hraise]. congruence. }
  unfold row_fits in Hfit. apply andb_true_iff in Hfit as [Hfit _].
  apply andb_true_iff in Hfit as [Hlen _]. apply Nat.leb_le in Hlen.
  destruct (day_widths_range col_widths Hlen) as (w0 & seven & Ht & Hd & H0).
  unfold _draw_week_row in Hrow.
  apply bind_ok_inv in Hrow as (x1 & pdf1 & Hcol & Hrow).
  apply bind_ok_inv in Hrow as (x2 & pdf2 & Hdays & Htotal).
  unfold draw_week_number_column in Hcol. pdf_simpl_in Hcol.
  rewrite H0 in Hcol. injection Hcol as <- <-.
  unfold draw_day_columns in Hdays.
  apply day_loop_boxes in Hdays as [-> Hdays].
  2:{ apply Forall_forall. intros i Hi. apply In_range in Hi. lia. }
  apply total_column_boxes in Htotal.
  rewrite Hd in Hdays, Htotal.
  unfold row_widths. rewrite Ht.
  change (w0 :: seven) with ([w0] ++ seven)%list.
  rewrite <- app_assoc, !boxes_from_app. cbn [fold_left].
  refine (boxes_then _ _ (mret ()) (mret ()) _ _ _ _ _
            (boxes_then _ _ (mret ()) (mret ()) _ _ _ _ Hdays Htotal)).
  eexists [_; _]. cbn [content boxes_from].
  split; [now rewrite <- app_assoc|reflexivity].
Qed.

Lemma week_rows_boxes x_start y_start header_h (col_widths : list num) row_h
    has_total total_content_fn labels weeks :
  forall (i : nat) pdf pdf',
    for_each (enumerate_from (Z.of_nat i) weeks)
      (fun '(week_idx, week_dates) (_ : unit) =>
         _draw_week_row string_width x_start
           (add (of_int (y_start + header_h)) (mul (of_int week_idx) row_h))
           col_widths (week_idx + 1) week_dates row_h has_total
           match total_content_fn with
           | Some fn => Some (fn week_idx)
           | None => None
           end labels) () pdf = (Ok (), pdf') ->
    boxes
      (concat
         (imap (fun w (_ : list datetime) =>
                  boxes_from (of_int x_start)
                    (add (of_int (y_start + header_h))
                       (mul (of_int (Z.of_nat (i + w))) row_h))
                    row_h (row_widths col_widths has_total))
            weeks))
      (mret () : pdfM unit) pdf pdf'.
Proof.
  induction weeks as [|week_dates weeks IH]; intros i pdf pdf' Hm.
  - injection Hm as <-. apply boxes_none.
  - cbn [enumerate_from for_each] in Hm.
    apply bind_ok_inv in Hm as ([] & pdf1 & Hrow & Hrest).
    apply draw_week_row_boxes in Hrow.
    replace (Z.of_nat i + 1)%Z with (Z.of_nat (S i)) in Hrest by lia.
    apply IH in Hrest. cbn [imap concat]. rewrite Nat.add_0_r.
    refine (boxes_then _ _ (mret ()) (mret ()) _ _ _ _ Hrow _).
    destruct Hrest as (ops & Hc & Hb). exists ops. split; [exact Hc|].
    rewrite Hb. f_equal. apply imap_ext. intros w wd _. cbn.
    now rewrite Nat.add_succ_r.
Qed.

Lemma take_columns (ws : list num) (x : num) (n : nat) :
  forall y h,
    take n (map column_of (boxes_from x y h ws))
    = map column_of (boxes_from x y h (take n ws)).
Proof.
  revert x n. induction ws as [|w ws IH]; intros x [|n] y h;
    try reflexivity.
  cbn [boxes_from map take firstn column_of]. now rewrite IH.
Qed.

Lemma columns_any_row (ws : list num) (x y h y' h' : num) :
  map column_of (boxes_from x y h ws) = map column_of (boxes_from x y' h' ws).
Proof.
  revert x. induction ws as [|w ws IH]; intros x; [reflexivity|].
  cbn [boxes_from map column_of]. now rewrite IH.
Qed.

Lemma row_widths_nine (ws : list num) :
  List.length ws = 9%nat -> row_widths ws true = ws.
Proof.
  intros Hlen.
  destruct ws as [|w0 [|w1 [|w2 [|w3 [|w4 [|w5 [|w6 [|w7 [|w8 [|w9 ws]]]]]]]]]];
    try discriminate Hlen.
  reflexivity.
Qed.

(** X16. The grid of a page that is drawn to the end. The rectangles are the
    boxes of the header row followed by the boxes of each week row: every row
    starts at the left margin of 20 points, each of its boxes begins where the
    one before ends, the header is 20 points high at 20 points from the top,
    and the row at index [w] is at [40 + w * row_h] with the height [row_h].
    The columns line up exactly, whatever the rounding of [float] is: the
    boxes of a week row begin at the same abscissas and have the same widths
    as the boxes of the header above them, for the first eight columns that
    have a header, and for the totals column too when there are nine
    widths. *)
Theorem columns_line_up (headers : list string) (col_widths : list Z)
    (weeks : list (list datetime)) (has_total : bool)
    (total_content_fn : option (Z -> list string))
    (labels : option (list string)) (doc : @FPDF num) :
  calendar_page string_width headers col_widths weeks has_total
    total_content_fn labels (new_FPDF "L" "pt" "letter") = (Ok (), doc) ->
  let widths := scaled_col_widths col_widths in
  rect_boxes (content doc)
  = (header_boxes headers widths
     ++ concat (imap (fun w _ => week_boxes widths has_total w) weeks))%list
  /\ forall (w n : nat),
       (w < List.length weeks)%nat ->
       (n <= List.length headers)%nat ->
       (n <= 8)%nat
       \/ (has_total = true /\ List.length col_widths = 9%nat) ->
       take n (map column_of (week_boxes widths has_total w))
       = take n (map column_of (header_boxes headers widths)).
Proof.
  intros Hpage widths.
  pose proof (calendar_page_cases string_width headers col_widths weeks
                has_total total_content_fn labels (new_FPDF "L" "pt" "letter"))
    as Hcases.
  rewrite Hpage in Hcases. cbn [fst] in Hcases.
  destruct (fold_left Z.add col_widths 0 =? 0)%Z eqn:Hsum; [discriminate|].
  destruct (forallb _ weeks) eqn:Hfits; [|discriminate].
  split.
  - unfold calendar_page in Hpage. cbv zeta in Hpage.
    apply bind_ok_inv in Hpage as (u1 & p1 & Hp1 & Hpage).
    apply bind_ok_inv in Hpage as (u2 & p2 & Hp2 & Hpage).
    apply bind_ok_inv in Hpage as (scale & p3 & Hp3 & Hpage).
    apply bind_ok_inv in Hpage as (u4 & p4 & Hp4 & Hpage).
    apply bind_ok_inv in Hpage as (u5 & p5 & Hp5 & Hpage).
    apply bind_ok_inv in Hpage as (u6 & p6 & Hp6 & Hpage).
    injection Hp1 as _ <-. injection Hp2 as _ <-.
    unfold lift in Hp3. rewrite Hsum in Hp3. injection Hp3 as <- <-.
    injection Hp4 as _ <-. injection Hp6 as _ <-.
    destruct u5. apply draw_header_row_boxes in Hp5.
    unfold draw_week_rows in Hpage.
    apply (week_rows_boxes _ _ _ _ _ _ _ _ _ 0%nat) in Hpage.
    destruct (boxes_then _ _ (mret ()) (mret ()) (mret () : pdfM unit)
                _ _ _ Hp5 Hpage) as (ops & Hc & Hb).
    cbn [content app] in Hc. rewrite Hc. exact Hb.
  - intros w n Hw Hn Hcol.
    assert (Hlen : (8 <= List.length widths)%nat).
    { destruct weeks as [|wk weeks]; [cbn in Hw; lia|].
      cbn [forallb] in Hfits. apply andb_true_iff in Hfits as [Hfit _].
      unfold row_fits in Hfit. apply andb_true_iff in Hfit as [Hfit _].
      apply andb_true_iff in Hfit as [Hfit _]. apply Nat.leb_le in Hfit.
      unfold widths, scaled_col_widths. now rewrite length_map. }
    unfold week_boxes, header_boxes. rewrite !take_columns, take_take.
    replace (n `min` List.length headers)%nat with n by lia.
    destruct Hcol as [Hn8|[-> Hnine]].
    + unfold row_widths.
      rewrite take_app_le by (rewrite length_take; lia).
      rewrite take_take. replace (n `min` 8)%nat with n by lia.
      apply columns_any_row.
    + rewrite row_widths_nine
        by (unfold widths, scaled_col_widths; now rewrite length_map).
      apply columns_any_row.
Qed.

End GridOfAPage.

Lemma columns_line_up_witness :
  map column_of (week_boxes (scaled_col_widths WIDTHS_TOTAL) true 9)
  = map column_of
      (header_boxes HEADERS_TOTAL
         (scaled_col_widths (num := PrimFloat.float) WIDTHS_TOTAL))
  /\ List.length
       (rect_boxes
          (content
             (snd (calendar_page demo_string_width HEADERS_TOTAL WIDTHS_TOTAL
                     demo_weeks true None None
                     (new_FPDF "L" "pt" "letter")))))
     = 99%nat.
Proof.
  assert (Hr : fst (calendar_page demo_string_width HEADERS_TOTAL WIDTHS_TOTAL
                      demo_weeks true None None
                      (new_FPDF "L" "pt" "letter"))
               = Ok ()) by (vm_compute; reflexivity).
  destruct (columns_line_up demo_string_width HEADERS_TOTAL WIDTHS_TOTAL
              demo_weeks true None None _
              (eq_trans (surjective_pairing _)
                 (f_equal (fun x => (x, _)) Hr))) as [Hboxes Hcols].
  assert (H9 : (9 < List.length demo_weeks)%nat) by (vm_compute; lia).
  assert (Hh : (9 <= List.length HEADERS_TOTAL)%nat) by (vm_compute; lia).
  split.
  - exact (Hcols 9%nat 9%nat H9 Hh (or_intror (conj eq_refl eq_refl))).
  - rewrite Hboxes. reflexivity.
Defined.

(** ** The type of the week numbers *)

Section WeekNumberFonts.

Context {num : Type} `{FloatOps num}.
Variable string_width : font -> string -> num.

Local Open Scope string_scope.

Abbreviation pdfM := (@pdfM num).
Abbreviation draw_op := (@draw_op num).

Ltac pdf_simpl_in H :=
  cbv [mbind mret pdfM_bind pdfM_ret set_fill_color rect emit set_xy cell
       set_font get_string_width lift add_page set_auto_page_break
       snd fst content cur_x cur_y cur_font fill_color orientation unit_
       page_format auto_page_break pages] in H.

Lemma week_number_fonts_none (ops : list draw_op) :
  Forall not_week_number_rect ops -> week_number_fonts ops = [].
Proof.
  induction 1 as [|op ops Hop _ IH]; [reflexivity|].
  destruct op; cbn [week_number_fonts]; [|exact IH].
  cbn in Hop. now rewrite Hop, IH.
Qed.

Lemma week_number_fonts_app (a b : list draw_op) :
  match b with
  | DrawText _ _ _ _ _ _ _ :: _ => False
  | _ => True
  end ->
  week_number_fonts (a ++ b)
  = (week_number_fonts a ++ week_number_fonts b)%list.
Proof.
  intros Hb. induction a as [|op a IH]; [reflexivity|].
  destruct op as [x y w h sty fill|]; cbn [week_number_fonts app];
    [|exact IH].
  rewrite IH, app_assoc. f_equal. f_equal.
  destruct (week_number_rect sty fill); [|reflexivity].
  destruct a as [|op' a]; [|reflexivity]. cbn [app].
  destruct b as [|[] b]; [reflexivity|reflexivity|contradiction].
Qed.

(** The font after the day columns: the one of the labels, or else the one
    of the dates; the one before when there is no day. *)
Lemma day_loop_font y (col_widths : list num) week_dates row_h labels
    (days : list Z) :
  forall x pdf x' pdf',
    for_each days
      (fun day_idx x =>
         w ← lift (py_index col_widths (1 + day_idx));
         _ ← rect x y w row_h "D";
         dt ← lift (py_index week_dates day_idx);
         let date_str := format_date dt in
         _ ← set_font FONT_FAMILY "" 7;
         date_w ← get_string_width string_width date_str;
         _ ← set_xy (sub (sub (add x w) date_w) (of_int 1))
               (add y (of_int 5));
         _ ← cell date_w (of_int 5) date_str "R";
         _ ← match truthy labels with
             | Some labels =>
                 _ ← set_font FONT_FAMILY "" 9;
                 _ ← set_xy x (add y (of_int 5));
                 label ← lift (py_index labels day_idx);
                 cell w (sub row_h (of_int 5)) label "C"
             | None => mret ()
             end;
         mret (add x w))
      x pdf = (Ok x', pdf') ->
    cur_font pdf'
    = match days with
      | [] => cur_font pdf
      | _ :: _ => font_left false None labels
      end.
Proof.
  induction days as [|i days IH]; intros x pdf x' pdf' Hm.
  - now injection Hm as _ <-.
  - cbn [for_each] in Hm.
    apply bind_ok_inv in Hm as (x1 & pdf1 & Hstep & Hrest).
    apply IH in Hrest. rewrite Hrest. clear IH Hrest.
    destruct days as [|j days]; [|reflexivity].
    destruct pdf. pdf_simpl_in Hstep. unfold font_left.
    destruct (py_index col_widths (1 + i)) as [w|]; [|discriminate].
    destruct (py_index week_dates i) as [dt|]; [|discriminate].
    destruct (truthy labels) as [ls|].
    + destruct (py_index ls i) as [l|]; [|discriminate].
      now injection Hstep as _ <-.
    + now injection Hstep as _ <-.
Qed.

Lemma total_lines_font (x y w line_h : num) (lines : list string) :
  forall i pdf pdf',
    for_each (enumerate_from i lines)
      (fun '(li, line) (_ : unit) =>
         _ ← set_xy (add x (of_int 2)) (add y (mul (of_int li) line_h));
         cell (sub w (of_int 4)) line_h line "L")
      () pdf = (Ok (), pdf') ->
    cur_font pdf' = cur_font pdf.
Proof.
  induction lines as [|line lines IH]; intros i pdf pdf' Hm.
  - now injection Hm as <-.
  - cbn [enumerate_from for_each] in Hm.
    apply bind_ok_inv in Hm as ([] & pdf1 & Hstep & Hrest).
    apply IH in Hrest. rewrite Hrest.
    destruct pdf. pdf_simpl_in Hstep. now injection Hstep as <-.
Qed.

Lemma total_column_font x y (col_widths : list num) row_h has_total
    total_content labels pdf pdf' :
  cur_font pdf = font_left false None labels ->
  draw_total_column x y col_widths row_h has_total total_content pdf
  = (Ok (), pdf') ->
  cur_font pdf' = font_left has_total total_content labels.
Proof.
  unfold draw_total_column, font_left. intros Hfont Hm.
  destruct has_total.
  2:{ injection Hm as <-. exact Hfont. }
  apply bind_ok_inv in Hm as (w & pdf1 & Hw & Hm).
  unfold lift in Hw.
  destruct (py_index col_widths (-1)) as [w'|]; [|discriminate].
  injection Hw as -> <-.
  apply bind_ok_inv in Hm as ([] & pdf2 & Hrect & Hm).
  destruct (truthy total_content) as [lines|].
  - apply bind_ok_inv in Hm as ([] & pdf3 & Hset & Hm).
    apply bind_ok_inv in Hm as ([] & pdf4 & Hloop & Hret).
    injection Hret as <-. apply total_lines_font in Hloop. rewrite Hloop.
    destruct pdf2. pdf_simpl_in Hset. now injection Hset as <-.
  - injection Hm as <-. rewrite <- Hfont.
    destruct pdf. pdf_simpl_in Hrect. now injection Hrect as <-.
Qed.

(** One row: its number is set in the font it finds, and it leaves the font
    of the last text it sets. *)
Lemma draw_week_row_fonts x_start y (col_widths : list num) week_num
    week_dates row_h has_total total_content labels pdf pdf' :
  _draw_week_row string_width x_start y col_widths week_num week_dates row_h
    has_total total_content labels pdf = (Ok (), pdf') ->
  week_number_fonts (content pdf')
  = (week_number_fonts (content pdf) ++ [cur_font pdf])%list
  /\ cur_font pdf' = font_left has_total total_content labels.
Proof.
  unfold _draw_week_row. intros Hrow.
  apply bind_ok_inv in Hrow as (x1 & pdf1 & Hcol & Hrow).
  apply bind_ok_inv in Hrow as (x2 & pdf2 & Hdays & Htotal).
  split.
  - apply draw_week_number_column_ok in Hcol as (w0 & Hc1).
    destruct (emits_draw_day_columns string_width x1 y col_widths week_dates
                row_h labels pdf1) as (ops2 & Hc2 & HP2).
    destruct (emits_draw_total_column x2 y col_widths row_h has_total
                total_content pdf2) as (ops3 & Hc3 & HP3).
    rewrite Hdays in Hc2. rewrite Htotal in Hc3. cbn [snd] in Hc2, Hc3.
    rewrite Hc3, Hc2, Hc1, <- !app_assoc.
    rewrite week_number_fonts_app by exact I. f_equal.
    cbn [app week_number_fonts week_number_rect String.eqb Ascii.eqb Bool.eqb
         color_eqb COLOR_PEACH]. cbn.
    rewrite week_number_fonts_none by (now apply Forall_app).
    reflexivity.
  - unfold draw_day_columns in Hdays. apply day_loop_font in Hdays.
    change (range 7) with (0 :: map Z.of_nat (seq 1 6))%Z in Hdays.
    cbv iota in Hdays.
    exact (total_column_font _ _ _ _ _ _ _ _ _ Hdays Htotal).
Qed.

(** The fonts of the week numbers of the rows from the index [i] on, the
    first of them set in [f]. *)
Fixpoint fonts_from (has_total : bool)
    (total_content_fn : option (Z -> list string))
    (labels : option (list string)) (f : font) (i : Z)
    (weeks : list (list datetime))
  : list font :=
  match weeks with
  | [] => []
  | _ :: rest =>
      f :: fonts_from has_total total_content_fn labels
             (font_left has_total
                match total_content_fn with
                | Some fn => Some (fn i)
                | None => None
                end labels)
             (i + 1) rest
  end.

Lemma week_rows_fonts x_start y_start header_h (col_widths : list num) row_h
    has_total total_content_fn labels weeks :
  forall i pdf pdf',
    for_each (enumerate_from i weeks)
      (fun '(week_idx, week_dates) (_ : unit) =>
         _draw_week_row string_width x_start
           (add (of_int (y_start + header_h)) (mul (of_int week_idx) row_h))
           col_widths (week_idx + 1) week_dates row_h has_total
           match total_content_fn with
           | Some fn => Some (fn week_idx)
           | None => None
           end labels) () pdf = (Ok (), pdf') ->
    week_number_fonts (content pdf')
    = (week_number_fonts (content pdf)
       ++ fonts_from has_total total_content_fn labels (cur_font pdf) i
            weeks)%list.
Proof.
  induction weeks as [|wk weeks IH]; intros i pdf pdf' Hloop.
  - injection Hloop as <-. cbn. now rewrite app_nil_r.
  - cbn [enumerate_from for_each] in Hloop.
    apply bind_ok_inv in Hloop as ([] & pdf1 & Hrow & Hrest).
    apply draw_week_row_fonts in Hrow as [Hrow Hfont].
    apply IH in Hrest. rewrite Hrest, Hrow, Hfont, <- app_assoc.
    reflexivity.
Qed.

Lemma fonts_from_imap has_total total_content_fn labels weeks :
  forall f (i : nat),
    fonts_from has_total total_content_fn labels f (Z.of_nat i) weeks
    = imap (fun k (_ : list datetime) =>
              match k with
              | O => f
              | S j =>
                  font_left has_total
                    match total_content_fn with
                    | Some fn => Some (fn (Z.of_nat (i + j)))
                    | None => None
                    end labels
              end) weeks.
Proof.
  induction weeks as [|wk weeks IH]; intros f i; [reflexivity|].
  cbn [fonts_from imap]. f_equal.
  replace (Z.of_nat i + 1)%Z with (Z.of_nat (S i)) by lia.
  rewrite IH. apply imap_ext. intros k wd _. cbn.
  destruct k as [|j].
  - now rewrite Nat.add_0_r.
  - now rewrite Nat.add_succ_r.
Qed.

(** X17. The week numbers are not all set in the same type. On a page that is
    drawn to the end, the number of the first week is set in Helvetica 10,
    the font chosen before the rows; the number of every later week is set in
    the font the row before it left: size 8 when that row wrote lines in its
    totals cell, else size 9 when there are labels, else size 7, the size of
    the dates. No row sets the font for its own number. *)
Theorem week_numbers_after_the_first_are_smaller (headers : list string)
    (col_widths : list Z) (weeks : list (list datetime)) (has_total : bool)
    (total_content_fn : option (Z -> list string))
    (labels : option (list string)) (doc : @FPDF num) :
  calendar_page string_width headers col_widths weeks has_total
    total_content_fn labels (new_FPDF "L" "pt" "letter") = (Ok (), doc) ->
  week_number_fonts (content doc)
  = imap (fun week_idx _ =>
            match week_idx with
            | O => mk_font FONT_FAMILY "" 10
            | S before =>
                font_left has_total
                  match total_content_fn with
                  | Some fn => Some (fn (Z.of_nat before))
                  | None => None
                  end labels
            end) weeks.
Proof.
  intros Hpage. unfold calendar_page in Hpage. cbv zeta in Hpage.
  apply bind_ok_inv in Hpage as (u1 & p1 & Hp1 & Hpage).
  apply bind_ok_inv in Hpage as (u2 & p2 & Hp2 & Hpage).
  apply bind_ok_inv in Hpage as (scale & p3 & Hp3 & Hpage).
  apply bind_ok_inv in Hpage as (u4 & p4 & Hp4 & Hpage).
  apply bind_ok_inv in Hpage as (u5 & p5 & Hp5 & Hpage).
  apply bind_ok_inv in Hpage as (u6 & p6 & Hp6 & Hpage).
  injection Hp1 as _ <-. injection Hp2 as _ <-.
  unfold lift in Hp3.
  destruct (fold_left Z.add col_widths 0 =? 0)%Z; [discriminate|].
  injection Hp3 as <- <-. injection Hp4 as _ <-.
  destruct (emits_draw_header_row 20 20
              (map (fun w : Z =>
                      mul (of_int w)
                        (div (of_int (11 * 72 - 2 * 20))
                           (of_int (fold_left Z.add col_widths 0))))
                 col_widths) headers has_total
              (snd (set_font FONT_FAMILY "B" 10
                      (snd (set_auto_page_break false
                              (snd (add_page (new_FPDF "L" "pt" "letter"
                                              : @FPDF num))))))))
    as (ops & Hc & Hops).
  cbn [set_font set_auto_page_break add_page new_FPDF snd content
       orientation unit_ page_format auto_page_break pages cur_font
       fill_color cur_x cur_y] in Hc.
  cbn [set_font set_auto_page_break add_page new_FPDF snd content
       orientation unit_ page_format auto_page_break pages cur_font
       fill_color cur_x cur_y] in Hp5.
  rewrite Hp5 in Hc. cbn [snd app] in Hc.
  injection Hp6 as _ <-.
  unfold draw_week_rows in Hpage.
  apply week_rows_fonts in Hpage. rewrite Hpage.
  cbn [content cur_font set_font snd]. rewrite Hc.
  rewrite week_number_fonts_none by exact Hops. cbn [app].
  change 0%Z with (Z.of_nat 0). rewrite fonts_from_imap.
  apply imap_ext. intros k wd _. reflexivity.
Qed.

End WeekNumberFonts.

Lemma week_numbers_after_the_first_are_smaller_witness :
  week_number_fonts
    (content
       (snd (calendar_page demo_string_width HEADERS_TOTAL WIDTHS_TOTAL
               demo_weeks true (Some (fun _ => ["Hours This Week:"; "Debt:"]))
               None (new_FPDF "L" "pt" "letter"))))
  = (mk_font FONT_FAMILY "" 10 :: repeat (mk_font FONT_FAMILY "" 8) 9)%list.
Proof.
  assert (Hr : fst (calendar_page demo_string_width HEADERS_TOTAL WIDTHS_TOTAL
                      demo_weeks true
                      (Some (fun _ => ["Hours This Week:"; "Debt:"])) None
                      (new_FPDF "L" "pt" "letter"))
               = Ok ()) by (vm_compute; reflexivity).
  rewrite (week_numbers_after_the_first_are_smaller demo_string_width
             HEADERS_TOTAL WIDTHS_TOTAL demo_weeks true _ None _
             (eq_trans (surjective_pairing _)
                (f_equal (fun x => (x, _)) Hr))).
  reflexivity.
Defined.

(** ** The answers [prompt_calendars] takes *)

Section Selection.

Local Open Scope string_scope.

Lemma list_in_spec x l : list_in x l = true <-> In x l.
Proof.
  unfold list_in. rewrite existsb_exists. split.
  - intros (y & Hy & Heq). apply String.eqb_eq in Heq. now subst.
  - intros Hx. exists x. split; [exact Hx|apply String.eqb_refl].
Qed.

Lemma dict_get_options c name :
  dict_get options c = Some name -> In name CALENDAR_NAMES.
Proof.
  unfold options, CALENDAR_NAMES. cbn [dict_get].
  repeat (destruct (String.eqb _ c);
          [intros [= <-]; cbn; tauto|]).
  discriminate.
Qed.

(** One round of the loop over the fields of the answer. *)
Definition select_step (selected : list string) (c : string) : list string :=
  match dict_get options (strip c) with
  | Some name =>
      if negb (list_in name selected) then selected ++ [name] else selected
  | None => selected
  end.

Lemma select_step_spec selected c :
  List.NoDup selected -> incl selected CALENDAR_NAMES ->
  List.NoDup (select_step selected c)
  /\ incl (select_step selected c) CALENDAR_NAMES
  /\ forall name,
       In name (select_step selected c)
       <-> In name selected \/ dict_get options (strip c) = Some name.
Proof.
  intros Hnd Hincl. unfold select_step.
  destruct (dict_get options (strip c)) as [name|] eqn:Eget.
  - destruct (list_in name selected) eqn:Ein; cbn [negb].
    + apply list_in_spec in Ein.
      split; [exact Hnd|]. split; [exact Hincl|].
      intros x. split; [now left|].
      intros [Hx|[= <-]]; assumption.
    + assert (Hnot : ~ In name selected).
      { intros Hin. apply list_in_spec in Hin. congruence. }
      split; [|split].
      * rewrite <- (rev_involutive (selected ++ [name])).
        apply NoDup_rev. rewrite rev_app_distr. cbn.
        constructor; [now rewrite <- in_rev|now apply NoDup_rev].
      * apply incl_app; [exact Hincl|].
        intros x [<-|[]]. eapply dict_get_options, Eget.
      * intros x. rewrite in_app_iff. cbn. split.
        -- intros [Hx|[<-|[]]]; auto.
        -- intros [Hx|[= <-]]; auto.
  - split; [exact Hnd|]. split; [exact Hincl|].
    intros x. split; [now left|].
    intros [Hx|Hx]; [exact Hx|discriminate].
Qed.

Lemma fold_select_spec fields selected :
  List.NoDup selected -> incl selected CALENDAR_NAMES ->
  List.NoDup (fold_left select_step fields selected)
  /\ incl (fold_left select_step fields selected) CALENDAR_NAMES
  /\ forall name,
       In name (fold_left select_step fields selected)
       <-> In name selected
           \/ exists c, In c fields /\ dict_get options (strip c) = Some name.
Proof.
  revert selected. induction fields as [|c fields IH]; intros selected Hnd Hi.
  - cbn [fold_left]. split; [exact Hnd|]. split; [exact Hi|].
    intros name. split; [now left|].
    intros [Hn|(c & [] & _)]; exact Hn.
  - cbn [fold_left].
    destruct (select_step_spec selected c Hnd Hi) as (Hnd1 & Hi1 & Hin1).
    destruct (IH _ Hnd1 Hi1) as (Hnd2 & Hi2 & Hin2).
    split; [exact Hnd2|]. split; [exact Hi2|].
    intros name. rewrite Hin2, Hin1. split.
    + intros [[Hn|Hc]|(c' & Hc' & Hget)]; eauto.
      * right. exists c. split; [now left|exact Hc].
      * right. exists c'. split; [now right|exact Hget].
    + intros [Hn|(c' & [<-|Hc'] & Hget)]; eauto.
Qed.

Lemma selection_fold choice :
  selection choice = fold_left select_step (split_on "," choice) [].
Proof. reflexivity. Qed.

End Selection.

(** X7. The calendars read from an answer: no calendar is listed twice, only
    the three known names are listed, and a name is listed exactly when its
    number is one of the comma-separated fields of the answer, blanks around
    it aside. Anything else between the commas is ignored. *)
Theorem selection_lists_what_was_named (choice : string) :
  List.NoDup (selection choice)
  /\ incl (selection choice) CALENDAR_NAMES
  /\ (List.length (selection choice) <= 3)%nat
  /\ forall name,
       In name (selection choice)
       <-> exists c,
             In c (split_on "," choice)
             /\ dict_get options (strip c) = Some name.
Proof.
  rewrite selection_fold.
  destruct (fold_select_spec (split_on "," choice) [] (List.NoDup_nil _)
              (incl_nil_l _)) as (Hnd & Hincl & Hin).
  split; [exact Hnd|]. split; [exact Hincl|]. split.
  - change 3%nat with (List.length CALENDAR_NAMES).
    now apply NoDup_incl_length.
  - intros name. rewrite Hin. split; [intros [[]|Hc]; exact Hc|auto].
Qed.

(** ** The loops that ask again *)

Section AskAgain.

Local Open Scope string_scope.

(** What a round of [prompt_calendars] writes before it reads. *)
Definition calendars_menu (out : list string) : list string :=
  (print "  4. All"
     (fold_left
        (fun out '(key, name) =>
           print ("  " ++ key ++ ". " ++ name)%string out)
        options
        (print (LF ++ "Which calendar(s) would you like to generate?")%string
           out))
   ++ ["Enter choice(s) separated by commas (e.g. 1,3): "%string])%list.

Lemma prompt_calendars_loop_round line lines out :
  prompt_calendars_loop (line :: lines) out
  = if answers_calendars line
    then (Returns (calendars_of line),
          mk_console lines (calendars_menu out))
    else prompt_calendars_loop lines
           (print "  Error: Invalid selection. Please try again."
              (calendars_menu out)).
Proof.
  cbn [prompt_calendars_loop]. fold (calendars_menu out).
  unfold answers_calendars, calendars_of.
  destruct (String.eqb (strip line) "4"); [reflexivity|]. cbn [orb].
  now destruct (selection (strip line)).
Qed.

Lemma prompt_calendars_loop_skips skipped :
  Forall (fun l => answers_calendars l = false) skipped ->
  forall out,
    fst (prompt_calendars_loop skipped out) = Raises EOFError
    /\ forall line rest,
         answers_calendars line = true ->
         fst (prompt_calendars_loop (skipped ++ line :: rest) out)
         = Returns (calendars_of line)
         /\ stdin (snd (prompt_calendars_loop (skipped ++ line :: rest) out))
            = rest.
Proof.
  induction 1 as [|l skipped Hl _ IH]; intros out.
  - split; [reflexivity|]. intros line rest Hline. cbn [app].
    rewrite prompt_calendars_loop_round, Hline. split; reflexivity.
  - split.
    + rewrite prompt_calendars_loop_round, Hl. apply IH.
    + intros line rest Hline. cbn [app].
      rewrite prompt_calendars_loop_round, Hl. now apply IH.
Qed.

Lemma calendars_of_spec line :
  answers_calendars line = true ->
  calendars_of line <> []
  /\ List.NoDup (calendars_of line)
  /\ incl (calendars_of line) CALENDAR_NAMES
  /\ (strip line = "4" -> calendars_of line = CALENDAR_NAMES).
Proof.
  unfold answers_calendars, calendars_of. intros Hline.
  destruct (String.eqb_spec (strip line) "4") as [E4|E4].
  - split; [discriminate|]. split.
    + repeat constructor; cbn; intuition discriminate.
    + split; [apply incl_refl|reflexivity].
  - cbn [orb] in Hline.
    destruct (fold_select_spec (split_on "," (strip line)) []
                (List.NoDup_nil _) (incl_nil_l _)) as (Hnd & Hincl & _).
    rewrite <- selection_fold in Hnd, Hincl.
    split; [now destruct (selection (strip line))|].
    split; [exact Hnd|]. split; [exact Hincl|]. contradiction.
Qed.

(** What a round of the goal loop does. *)
Lemma goal_loop_round max_str_digits line lines out :
  goal_loop max_str_digits (line :: lines) out
  = let out := (out ++ [(LF ++ "Enter weekly page goal (e.g. 100): ")%string])%list in
    match int_of_str max_str_digits (strip line) with
    | Ok goal =>
        if (0 <? goal)%Z then (Returns goal, mk_console lines out)
        else goal_loop max_str_digits lines
               (print "  Error: Goal must be a positive number." out)
    | Raise (ValueError _) =>
        goal_loop max_str_digits lines
          (print "  Error: Please enter a valid number." out)
    | Raise e => (Raises (Of_exn e), mk_console lines out)
    end.
Proof. reflexivity. Qed.

(** [int] rejects with [ValueError] only. *)
Lemma int_of_str_raises max_str_digits s e :
  int_of_str max_str_digits s = Raise e -> exists msg, e = ValueError msg.
Proof.
  unfold int_of_str. cbv zeta.
  destruct (match skip_int_space s with
            | String "+" s' => (1, s')
            | String "-" s' => (-1, s')
            | _ => (1, skip_int_space s)
            end) as [sign t].
  assert (Hbody :
    match scan_digits t false 0 0 with
    | Some (z, digits, rest) =>
        if (digits =? 0)%nat
        then Raise (ValueError "invalid literal for int()")
        else if negb (all_int_space rest)
             then Raise (ValueError "invalid literal for int()")
             else if (0 <? max_str_digits)%nat && (max_str_digits <? digits)%nat
                  then Raise (ValueError "Exceeds the limit for integer string conversion")
                  else Ok (sign * z)
    | None => Raise (ValueError "invalid literal for int()")
    end = Raise e -> exists msg, e = ValueError msg).
  { destruct (scan_digits t false 0 0) as [[[z digits] rest]|];
      [|intros [= <-]; eauto].
    destruct (digits =? 0)%nat; [intros [= <-]; eauto|].
    destruct (negb _); [intros [= <-]; eauto|].
    destruct (_ && _); [intros [= <-]; eauto|discriminate]. }
  destruct t as [|c t']; [exact Hbody|].
  destruct (ascii_dec c "_") as [->|Hc].
  - intros [= <-]. eauto.
  - destruct c as [[] [] [] [] [] [] [] []]; try exact Hbody.
    now contradiction Hc.
Qed.

Lemma goal_loop_skips max_str_digits skipped :
  Forall (fun l => answers_goal max_str_digits l = false) skipped ->
  forall out,
    fst (goal_loop max_str_digits skipped out) = Raises EOFError
    /\ forall line rest goal,
         int_of_str max_str_digits (strip line) = Ok goal -> (0 < goal)%Z ->
         fst (goal_loop max_str_digits (skipped ++ line :: rest) out)
         = Returns goal
         /\ stdin (snd (goal_loop max_str_digits (skipped ++ line :: rest)
                          out))
            = rest.
Proof.
  induction 1 as [|l skipped Hl _ IH]; intros out.
  - split; [reflexivity|]. intros line rest goal Hint Hpos. cbn [app].
    rewrite goal_loop_round. cbv zeta. rewrite Hint.
    replace (0 <? goal)%Z with true by (symmetry; now apply Z.ltb_lt).
    split; reflexivity.
  - assert (Hround : forall lines,
              goal_loop max_str_digits (l :: lines) out
              = goal_loop max_str_digits lines
                  (print match int_of_str max_str_digits (strip l) with
                         | Ok _ => "  Error: Goal must be a positive number."
                         | Raise _ => "  Error: Please enter a valid number."
                         end
                     (out ++ [(LF ++ "Enter weekly page goal (e.g. 100): ")%string])%list)).
    { intros lines. rewrite goal_loop_round. cbv zeta.
      unfold answers_goal in Hl.
      destruct (int_of_str max_str_digits (strip l)) as [g|e] eqn:Eint.
      - now rewrite Hl.
      - apply int_of_str_raises in Eint as [msg ->]. reflexivity. }
    split.
    + rewrite Hround. apply IH.
    + intros line rest goal Hint Hpos. cbn [app].
      rewrite Hround. now apply IH.
Qed.

End AskAgain.

(** X8. [prompt_calendars] asks until an answer is ["4"] or names a calendar:
    the answers before it are skipped, the first such answer decides, and
    nothing after it is read. With no such answer the input runs out and
    [EOFError] is raised. What is returned is never empty, lists no calendar
    twice and only the three known names, and is all three for ["4"]. *)
Theorem prompt_calendars_takes_first_valid_answer (skipped : list string)
    (out : list string) :
  Forall (fun l => answers_calendars l = false) skipped ->
  fst (prompt_calendars (mk_console skipped out)) = Raises EOFError
  /\ forall line rest,
       answers_calendars line = true ->
       let r := prompt_calendars (mk_console (skipped ++ line :: rest) out) in
       fst r = Returns (calendars_of line)
       /\ stdin (snd r) = rest
       /\ calendars_of line <> []
       /\ List.NoDup (calendars_of line)
       /\ incl (calendars_of line) CALENDAR_NAMES
       /\ (strip line = "4"%string -> calendars_of line = CALENDAR_NAMES).
Proof.
  intros Hskipped. unfold prompt_calendars. cbn [stdin stdout].
  destruct (prompt_calendars_loop_skips skipped Hskipped out) as [Heof Hret].
  split; [exact Heof|]. intros line rest Hline. cbv zeta.
  destruct (Hret line rest Hline) as [Hr Hs].
  split; [exact Hr|]. split; [exact Hs|]. now apply calendars_of_spec.
Qed.

Lemma prompt_calendars_takes_first_valid_answer_witness :
  fst (prompt_calendars
         (mk_console ["0"; "x,y"; " 3, 1,3 "; "2"]%string []))
  = Returns ["Workouts"; "Pages Read"]%string
  /\ stdin (snd (prompt_calendars
                   (mk_console ["0"; "x,y"; " 3, 1,3 "; "2"]%string [])))
     = ["2"%string].
Proof.
  destruct (prompt_calendars_takes_first_valid_answer
              ["0"; "x,y"]%string []
              ltac:(repeat constructor)) as [_ Hret].
  destruct (Hret " 3, 1,3 "%string ["2"%string] eq_refl)
    as (Hr & Hs & _).
  split; [exact Hr|exact Hs].
Defined.

(** X9. The goal loop asks until an answer is an integer literal above zero:
    answers that [int] rejects, and integers that are zero or negative, are
    skipped; the first positive integer is the goal, and nothing after it is
    read. With no such answer the input runs out and [EOFError] is raised. *)
Theorem goal_loop_takes_first_positive_integer (max_str_digits : nat)
    (skipped : list string) (out : list string) :
  Forall (fun l => answers_goal max_str_digits l = false) skipped ->
  fst (goal_loop max_str_digits skipped out) = Raises EOFError
  /\ forall line rest,
       answers_goal max_str_digits line = true ->
       exists goal,
         int_of_str max_str_digits (strip line) = Ok goal
         /\ 0 < goal
         /\ fst (goal_loop max_str_digits (skipped ++ line :: rest) out)
            = Returns goal
         /\ stdin (snd (goal_loop max_str_digits (skipped ++ line :: rest)
                          out))
            = rest.
Proof.
  intros Hskipped.
  destruct (goal_loop_skips max_str_digits skipped Hskipped out)
    as [Heof Hret].
  split; [exact Heof|]. intros line rest Hline. unfold answers_goal in Hline.
  destruct (int_of_str max_str_digits (strip line)) as [goal|] eqn:Eint;
    [|discriminate].
  apply Z.ltb_lt in Hline. exists goal.
  split; [reflexivity|]. split; [exact Hline|]. now apply Hret.
Qed.

Lemma goal_loop_takes_first_positive_integer_witness :
  fst (goal_loop 4300 ["abc"; "-5"; "0"; " +1_00 "; "7"]%string [])
  = Returns 100
  /\ stdin (snd (goal_loop 4300 ["abc"; "-5"; "0"; " +1_00 "; "7"]%string []))
     = ["7"%string].
Proof.
  destruct (goal_loop_takes_first_positive_integer 4300
              ["abc"; "-5"; "0"]%string []
              ltac:(repeat constructor)) as [_ Hret].
  destruct (Hret " +1_00 "%string ["7"%string] eq_refl)
    as (goal & Hint & _ & Hr & Hs).
  injection Hint as <-. split; [exact Hr|exact Hs].
Defined.

(** ** [prompt_date] *)

Section NextMonday.

Lemma get_next_monday_outcome today :
  valid_datetime today = true ->
  (exists r, get_next_monday today = Ok r
             /\ valid_datetime r = true /\ weekday r = 0)
  \/ get_next_monday today = Raise OverflowError.
Proof.
  intros Hv. pose proof (toordinal_range today Hv) as Hr.
  unfold get_next_monday. rewrite datetime_add_days by exact Hv.
  set (k := (7 - weekday today) mod 7).
  assert (Hk : 0 <= k <= 6)
    by (unfold k; Z.to_euclidean_division_equations; lia).
  destruct ((0 <? toordinal today + k) && (toordinal today + k <=? MAXORDINAL))
    eqn:Ein; [left|now right].
  apply andb_true_iff in Ein as [Hlo Hhi].
  apply Z.ltb_lt in Hlo. apply Z.leb_le in Hhi.
  exists (plus_days today k). split; [reflexivity|].
  split; [apply plus_days_valid; [exact Hv|lia]|].
  unfold weekday at 1. rewrite plus_days_toordinal by lia.
  unfold k, weekday. Z.to_euclidean_division_equations. lia.
Qed.

Lemma validate_date_returns s dt :
  validate_date s = Ok dt ->
  valid_datetime dt = true /\ weekday dt = 0 /\ midnight dt = dt.
Proof.
  intros Hs. apply validate_date_ok in Hs as [Hs Hmon].
  apply strptime_ok_inv in Hs
    as (ms & ds & ys & y & m & d & _ & _ & _ & _ & _ & _ & _ & Hv & ->).
  split; [|split; [exact Hmon|reflexivity]].
  unfold valid_datetime, date_at. cbn. now rewrite Hv.
Qed.

Lemma validate_date_raises s e :
  validate_date s = Raise e -> exists msg, e = ValueError msg.
Proof.
  unfold validate_date. destruct (strptime s) as [dt|e'] eqn:Es.
  - destruct (negb _); [|discriminate]. intros [= <-]. eauto.
  - apply strptime_raises_ValueError in Es as [msg ->]. intros [= <-]. eauto.
Qed.

(** What the loop of [prompt_date] can end with. *)
Lemma prompt_date_loop_outcome next_monday next_monday_str n :
  forall lines out,
    (List.length lines <= n)%nat ->
    match fst (prompt_date_loop next_monday next_monday_str lines out) with
    | Returns dt =>
        dt = next_monday
        \/ exists l, In l lines /\ validate_date (strip l) = Ok dt
    | Raises e => e = EOFError
    end.
Proof.
  induction n as [|n IH]; intros lines out Hlen.
  - destruct lines; [reflexivity|cbn in Hlen; lia].
  - destruct lines as [|l1 lines]; [reflexivity|].
    cbn [List.length] in Hlen. cbn [prompt_date_loop].
    destruct (String.eqb (strip l1) "1"); [now left|].
    destruct (String.eqb (strip l1) "2").
    + destruct lines as [|l2 lines]; [reflexivity|].
      cbn [List.length] in Hlen.
      destruct (validate_date (strip l2)) as [dt|e] eqn:Ev.
      * right. exists l2. split; [now right; left|exact Ev].
      * apply validate_date_raises in Ev as [msg ->].
        match goal with
        | |- context [prompt_date_loop _ _ lines ?o] =>
            specialize (IH lines o ltac:(lia))
        end.
        destruct (fst (prompt_date_loop _ _ lines _)) as [dt|e];
          [|exact IH].
        destruct IH as [->|(l & Hl & Hdt)]; [now left|].
        right. exists l. split; [now right; right|exact Hdt].
    + match goal with
      | |- context [prompt_date_loop _ _ lines ?o] =>
          specialize (IH lines o ltac:(lia))
      end.
      destruct (fst (prompt_date_loop _ _ lines _)) as [dt|e]; [|exact IH].
      destruct IH as [->|(l & Hl & Hdt)]; [now left|].
      right. exists l. split; [now right|exact Hdt].
Qed.

Lemma prompt_date_outcome (zero_padded : bool) (today : datetime)
    (c : console) :
  valid_datetime today = true ->
  let r := prompt_date zero_padded today c in
  (forall dt,
     fst r = Returns dt ->
     valid_datetime dt = true /\ weekday dt = 0
     /\ (get_next_monday today = Ok dt
         \/ exists l, In l (stdin c) /\ validate_date (strip l) = Ok dt))
  /\ (forall e,
        fst r = Raises e ->
        e = EOFError
        \/ (e = Of_exn OverflowError
            /\ get_next_monday today = Raise OverflowError /\ snd r = c)).
Proof.
  intros Hv. cbv zeta. unfold prompt_date.
  destruct (get_next_monday_outcome today Hv) as [(nm & -> & Hvnm & Hmon)| ->].
  - pose proof (prompt_date_loop_outcome nm (strftime_mdY zero_padded nm)
                  (List.length (stdin c)) (stdin c) (stdout c) (le_n _))
      as Hloop.
    destruct (fst (prompt_date_loop _ _ _ _)) as [dt|e].
    + split; [|discriminate]. intros dt' [= <-].
      destruct Hloop as [->|(l & Hl & Hdt)]; [auto|].
      destruct (validate_date_returns _ _ Hdt) as (Hvdt & Hmdt & _). eauto 6.
    + split; [discriminate|]. intros e' [= <-]. now left.
  - split; [discriminate|]. intros e [= <-]. right. auto.
Qed.

End NextMonday.

(** X10. [prompt_date] returns Mondays only: the date it returns is a valid
    date whose weekday is 0, and it is either the next Monday or a date read
    from a line of the input that [validate_date] accepts. It raises
    [OverflowError] when there is no next Monday (then nothing is written or
    read), [EOFError] when the input runs out, and nothing else: the
    [ValueError] of a rejected date is caught. *)
Theorem prompt_date_returns_a_monday (zero_padded : bool)
    (today : datetime) (c : console) :
  valid_datetime today = true ->
  let r := prompt_date zero_padded today c in
  (forall dt,
     fst r = Returns dt ->
     valid_datetime dt = true /\ weekday dt = 0
     /\ (get_next_monday today = Ok dt
         \/ exists l, In l (stdin c) /\ validate_date (strip l) = Ok dt))
  /\ (forall e,
        fst r = Raises e ->
        e = EOFError
        \/ (e = Of_exn OverflowError
            /\ get_next_monday today = Raise OverflowError /\ snd r = c)).
Proof. apply prompt_date_outcome. Qed.

Lemma prompt_date_returns_a_monday_witness :
  fst (prompt_date false (mk_datetime 2026 11 4 10 30 0 0)
         (mk_console ["3"; "2"; "03/03/2026"; "2"; "3/2/2026"; "1"]%string []))
  = Returns (date_at 2026 3 2)
  /\ weekday (date_at 2026 3 2) = 0.
Proof.
  destruct (prompt_date_returns_a_monday false
              (mk_datetime 2026 11 4 10 30 0 0)
              (mk_console ["3"; "2"; "03/03/2026"; "2"; "3/2/2026"; "1"]%string
                 [])
              eq_refl) as [Hret _].
  assert (Hr : fst (prompt_date false (mk_datetime 2026 11 4 10 30 0 0)
                      (mk_console
                         ["3"; "2"; "03/03/2026"; "2"; "3/2/2026"; "1"]%string
                         []))
               = Returns (date_at 2026 3 2))
    by (vm_compute; reflexivity).
  split; [exact Hr|]. exact (proj1 (proj2 (Hret _ Hr))).
Defined.

(** ** The date shown in the menu, typed back *)

Section TypedBack.

Local Open Scope string_scope.

Lemma months_read_back :
  all_from (reads_back month_field two_digits) 12 1 = true.
Proof. vm_compute. reflexivity. Qed.

Lemma days_read_back :
  all_from (reads_back day_field two_digits) 31 1 = true.
Proof. vm_compute. reflexivity. Qed.

Lemma padded_years_read_back :
  all_from (reads_back year_field (strftime_Y true)) (Z.to_nat 9999) 1 = true.
Proof. vm_compute. reflexivity. Qed.

Lemma long_years_read_back :
  all_from (reads_back year_field (strftime_Y false)) (Z.to_nat 9000) 1000
  = true.
Proof. vm_compute. reflexivity. Qed.

Lemma short_years_are_not_years :
  all_from (not_a_year (strftime_Y false)) (Z.to_nat 999) 1 = true.
Proof. vm_compute. reflexivity. Qed.

Lemma reads_back_inv field text n :
  reads_back field text n = true ->
  field (text n) = true /\ no_slash (text n) = true
  /\ py_int (text n) = Ok n.
Proof.
  unfold reads_back. intros Hr.
  apply andb_true_iff in Hr as [Hr Hint].
  apply andb_true_iff in Hr as [Hf Hs].
  destruct (py_int (text n)) as [k|]; [|discriminate].
  apply Z.eqb_eq in Hint. subst. auto.
Qed.

Lemma year_reads_back zero_padded y :
  1 <= y <= 9999 -> zero_padded = true \/ 1000 <= y ->
  reads_back year_field (strftime_Y zero_padded) y = true.
Proof.
  intros Hy [->|Hlong].
  - apply (all_from_spec _ _ _ padded_years_read_back). lia.
  - destruct zero_padded.
    + apply (all_from_spec _ _ _ padded_years_read_back). lia.
    + apply (all_from_spec _ _ _ long_years_read_back). lia.
Qed.

(** What [strptime] makes of the text of a valid date. *)
Lemma parsed_date_strftime zero_padded dt :
  valid_datetime dt = true ->
  parsed_date (strftime_mdY zero_padded dt)
  = if zero_padded || (1000 <=? year dt)%Z then Some (midnight dt) else None.
Proof.
  intros Hv. apply valid_datetime_inv in Hv as [Hv _].
  pose proof (valid_ymd_bounds _ _ _ Hv) as (Hy & Hm & Hd & Hd31).
  destruct (reads_back_inv _ _ _
              (all_from_spec _ _ _ months_read_back (month dt) ltac:(lia)))
    as (Fm & Sm & Im).
  destruct (reads_back_inv _ _ _
              (all_from_spec _ _ _ days_read_back (day dt) ltac:(lia)))
    as (Fd & Sd & Id).
  unfold parsed_date, strftime_mdY.
  destruct (zero_padded || (1000 <=? year dt)%Z) eqn:Ey.
  - assert (Hlong : zero_padded = true \/ (1000 <= year dt)%Z).
    { apply orb_true_iff in Ey as [Ey|Ey]; [now left|right].
      now apply Z.leb_le. }
    destruct (reads_back_inv _ _ _ (year_reads_back zero_padded _ Hy Hlong))
      as (Fy & Sy & Iy).
    rewrite split_on_date by assumption.
    rewrite Fm, Fd, Fy, Iy, Im, Id, Hv. reflexivity.
  - apply orb_false_iff in Ey as [-> Ey]. apply Z.leb_gt in Ey.
    pose proof (all_from_spec _ _ _ short_years_are_not_years (year dt)
                  ltac:(lia)) as Hshort.
    unfold not_a_year in Hshort.
    apply andb_true_iff in Hshort as [Fy Sy]. apply negb_true_iff in Fy.
    rewrite split_on_date by assumption.
    rewrite Fy, !andb_false_r. reflexivity.
Qed.

End TypedBack.

(** X11. The date shown as the next Monday can be typed back: for a valid date
    on a Monday, [validate_date] of its text in the form [%m/%d/%Y] is the
    same day at midnight, provided the year is printed with four digits (a
    year from 1000 on, or a C library that pads with zeros). A shorter year is
    rejected with the format error. *)
Theorem shown_date_can_be_typed_back (zero_padded : bool) (dt : datetime) :
  valid_datetime dt = true ->
  weekday dt = 0 ->
  (zero_padded = true \/ 1000 <= year dt ->
   validate_date (strftime_mdY zero_padded dt) = Ok (midnight dt))
  /\ (zero_padded = false -> year dt < 1000 ->
      validate_date (strftime_mdY zero_padded dt)
      = Raise (ValueError FORMAT_MSG)).
Proof.
  intros Hv Hmon.
  pose proof (parsed_date_strftime zero_padded dt Hv) as Hp.
  split.
  - intros Hlong.
    replace (zero_padded || (1000 <=? year dt)) with true in Hp.
    + apply validate_date_ok. split; [now apply strptime_spec|exact Hmon].
    + symmetry. apply orb_true_iff.
      destruct Hlong as [->|Hlong]; [now left|right; now apply Z.leb_le].
  - intros -> Hshort.
    replace (false || (1000 <=? year dt)) with false in Hp
      by (symmetry; apply Z.leb_gt; exact Hshort).
    now apply validate_date_format_error, strptime_raise_spec.
Qed.

Lemma shown_date_can_be_typed_back_witness :
  validate_date (strftime_mdY false (mk_datetime 2026 11 9 10 30 0 0))
  = Ok (date_at 2026 11 9)
  /\ validate_date (strftime_mdY false (date_at 999 12 30))
     = Raise (ValueError FORMAT_MSG).
Proof.
  destruct (shown_date_can_be_typed_back false
              (mk_datetime 2026 11 9 10 30 0 0) eq_refl eq_refl)
    as [Hlong _].
  destruct (shown_date_can_be_typed_back false (date_at 999 12 30)
              eq_refl eq_refl) as [_ Hshort].
  assert (H1 : 1000 <= year (mk_datetime 2026 11 9 10 30 0 0))
    by (cbn; lia).
  assert (H2 : year (date_at 999 12 30) < 1000) by (cbn; lia).
  split; [exact (Hlong (or_intror H1))|exact (Hshort eq_refl H2)].
Defined.

(** ** The workout labels *)

Lemma read_labels_lines days : forall workout_labels lines out,
  (List.length days <= List.length lines)%nat ->
  fst (read_labels days workout_labels lines out)
  = Returns (workout_labels ++ map strip (take (List.length days) lines))
  /\ stdin (snd (read_labels days workout_labels lines out))
     = drop (List.length days) lines.
Proof.
  induction days as [|day days IH]; intros workout_labels lines out Hlen.
  - cbn. now rewrite app_nil_r.
  - destruct lines as [|line lines]; [cbn in Hlen; lia|].
    cbn [read_labels List.length take drop map].
    destruct (IH (workout_labels ++ [strip line]) lines
                (out ++ [("  " ++ day ++ ": ")%string])
                ltac:(cbn in Hlen; lia)) as [Hr Hs].
    cbn [firstn skipn]. rewrite Hr, Hs, <- app_assoc. now split.
Qed.

Lemma read_labels_runs_out days : forall workout_labels lines out,
  (List.length lines < List.length days)%nat ->
  fst (read_labels days workout_labels lines out) = Raises EOFError.
Proof.
  induction days as [|day days IH]; intros workout_labels lines out Hlen.
  - cbn in Hlen. lia.
  - destruct lines as [|line lines]; [reflexivity|].
    cbn [read_labels]. apply IH. cbn in Hlen. lia.
Qed.

(** X15. The labels are read one line per day, in the order of the days:
    with a line for every day, the labels are the lines with the blanks
    around them removed, the label of a day is the line typed for it even
    when it is empty, and the lines after them are left unread; with fewer
    lines than days the input runs out and [EOFError] is raised. For the
    seven names of [DAY_NAMES] this makes seven labels. *)
Theorem labels_are_the_lines_typed
    (days workout_labels lines out : list string) :
  let r := read_labels days workout_labels lines out in
  ((List.length days <= List.length lines)%nat ->
   fst r
   = Returns (workout_labels ++ map strip (take (List.length days) lines))
   /\ stdin (snd r) = drop (List.length days) lines)
  /\ ((List.length lines < List.length days)%nat ->
      fst r = Raises EOFError)
  /\ List.length DAY_NAMES = 7%nat.
Proof.
  cbv zeta. split; [apply read_labels_lines|].
  split; [apply read_labels_runs_out|reflexivity].
Qed.

(** ** What a generator does to the file system *)

Section GeneratorOutcomes.

Context {num : Type} `{FloatOps num}.
Variable string_width : font -> string -> num.
Variable SCRIPT_DIR : string.

Local Open Scope string_scope.

(** How a call changed the file system: nothing but the output directory,
    which it may have created. *)
Definition only_made_directory (fs fs' : @file_system num) : Prop :=
  (forall q, q <> OUTPUT_DIR SCRIPT_DIR -> fs' !! q = fs !! q)
  /\ (fs' !! OUTPUT_DIR SCRIPT_DIR = fs !! OUTPUT_DIR SCRIPT_DIR
      \/ (fs !! OUTPUT_DIR SCRIPT_DIR = None
          /\ fs' !! OUTPUT_DIR SCRIPT_DIR = Some Dir)).

Lemma only_made_directory_refl fs : only_made_directory fs fs.
Proof. split; auto. Qed.

(** The three ways [_create_calendar_pdf] goes once the page is drawn, by
    what stands at the output directory and at the path of the file. *)
Lemma create_calendar_pdf_outcome filename headers col_widths weeks has_total
    total_content_fn labels (fs : @file_system num) doc :
  startswith_slash filename = false ->
  calendar_page string_width headers col_widths weeks has_total
    total_content_fn labels (new_FPDF "L" "pt" "letter") = (Ok (), doc) ->
  let path := OUTPUT_DIR SCRIPT_DIR ++ "/" ++ filename in
  let r := _create_calendar_pdf string_width SCRIPT_DIR filename headers
             col_widths weeks has_total total_content_fn labels fs in
  match fs !! OUTPUT_DIR SCRIPT_DIR with
  | Some (File _) => r = (Raise FileExistsError, fs)
  | _ =>
      match fs !! path with
      | Some Dir =>
          fst r = Raise IsADirectoryError /\ only_made_directory fs (snd r)
      | _ =>
          fst r = Ok path
          /\ snd r !! OUTPUT_DIR SCRIPT_DIR = Some Dir
          /\ snd r !! path = Some (File doc)
          /\ forall q,
               q <> OUTPUT_DIR SCRIPT_DIR -> q <> path ->
               snd r !! q = fs !! q
      end
  end.
Proof.
  intros Hname Hpage. cbv zeta.
  pose proof (path_join_OUTPUT_DIR SCRIPT_DIR filename Hname) as Hjoin.
  pose proof (output_path_fresh SCRIPT_DIR filename) as Hfresh.
  unfold _create_calendar_pdf, only_made_directory, file_system in *.
  rewrite Hpage, Hjoin.
  unfold makedirs_exist_ok, write_file.
  destruct (fs !! OUTPUT_DIR SCRIPT_DIR) as [[|d]|] eqn:Eout.
  - destruct (fs !! (OUTPUT_DIR SCRIPT_DIR ++ "/" ++ filename))
      as [[|d]|] eqn:Epath; cbn [fst snd].
    + split; [reflexivity|]. split; auto.
    + split; [reflexivity|]. split; [now rewrite lookup_insert_ne|].
      split; [now rewrite lookup_insert_eq|].
      intros q _ Hq. now rewrite lookup_insert_ne.
    + split; [reflexivity|]. split; [now rewrite lookup_insert_ne|].
      split; [now rewrite lookup_insert_eq|].
      intros q _ Hq. now rewrite lookup_insert_ne.
  - reflexivity.
  - rewrite lookup_insert_ne by congruence.
    destruct (fs !! (OUTPUT_DIR SCRIPT_DIR ++ "/" ++ filename))
      as [[|d]|] eqn:Epath; cbn [fst snd].
    + split; [reflexivity|]. split.
      * intros q Hq. now rewrite lookup_insert_ne.
      * right. split; [reflexivity|]. now rewrite lookup_insert_eq.
    + split; [reflexivity|].
      split; [rewrite lookup_insert_ne by congruence;
              now rewrite lookup_insert_eq|].
      split; [now rewrite lookup_insert_eq|].
      intros q Hq1 Hq2. now rewrite !lookup_insert_ne.
    + split; [reflexivity|].
      split; [rewrite lookup_insert_ne by congruence;
              now rewrite lookup_insert_eq|].
      split; [now rewrite lookup_insert_eq|].
      intros q Hq1 Hq2. now rewrite !lookup_insert_ne.
Qed.

(** What a generator call that drew its page can end with: the file
    written, or one of the two exceptions of the file system. *)
Definition generated (name : string) (fs : @file_system num)
    (r : result string * @file_system num) : Prop :=
  match fst r with
  | Ok p =>
      p = calendar_path SCRIPT_DIR name
      /\ snd r !! OUTPUT_DIR SCRIPT_DIR = Some Dir
      /\ (exists doc, snd r !! calendar_path SCRIPT_DIR name = Some (File doc))
      /\ forall q,
           q <> OUTPUT_DIR SCRIPT_DIR -> q <> calendar_path SCRIPT_DIR name ->
           snd r !! q = fs !! q
  | Raise e =>
      (e = FileExistsError \/ e = IsADirectoryError)
      /\ only_made_directory fs (snd r)
  end.

Lemma create_calendar_pdf_generated name headers col_widths weeks has_total
    total_content_fn labels (fs : @file_system num) :
  startswith_slash (name ++ ".pdf") = false ->
  fst (calendar_page string_width headers col_widths weeks has_total
         total_content_fn labels (new_FPDF "L" "pt" "letter")) = Ok () ->
  generated name fs
    (_create_calendar_pdf string_width SCRIPT_DIR (name ++ ".pdf") headers
       col_widths weeks has_total total_content_fn labels fs).
Proof.
  intros Hname Hpage.
  pose proof (create_calendar_pdf_outcome (name ++ ".pdf") headers col_widths
                weeks has_total total_content_fn labels fs _ Hname
                (eq_trans (page_result _ _)
                   (f_equal (fun r => (r, _)) Hpage))) as Hout.
  cbv zeta in Hout. unfold generated, calendar_path.
  change (path_join SCRIPT_DIR "output") with (OUTPUT_DIR SCRIPT_DIR).
  rewrite (path_join_OUTPUT_DIR SCRIPT_DIR _ Hname).
  destruct (fs !! OUTPUT_DIR SCRIPT_DIR) as [[|d]|].
  - destruct (fs !! _) as [[|d]|]; destruct Hout as (-> & Hrest);
      try (split; [auto|exact Hrest]);
      destruct Hrest as (Hd & Hf & Hfr); eauto 6.
  - rewrite Hout. cbn [fst snd]. split; [auto|apply only_made_directory_refl].
  - destruct (fs !! _) as [[|d]|]; destruct Hout as (-> & Hrest);
      try (split; [auto|exact Hrest]);
      destruct Hrest as (Hd & Hf & Hfr); eauto 6.
Qed.

(** The three generators on a start date with ten weeks ahead. *)
Lemma generators_generated start goal labels (fs : @file_system num) :
  valid_datetime start = true ->
  toordinal start + 69 <= MAXORDINAL ->
  match labels with
  | Some (l :: ls) => (7 <= List.length (l :: ls))%nat
  | _ => True
  end ->
  generated "Pages Read" fs
    (generate_pages_read_opt string_width SCRIPT_DIR start goal fs)
  /\ generated "Project Hours" fs
       (generate_project_hours string_width SCRIPT_DIR start fs)
  /\ generated "Workouts" fs
       (generate_workouts string_width SCRIPT_DIR start labels fs).
Proof.
  intros Hv Hmax Hlabels.
  pose proof (generate_week_dates_ok start Hv Hmax) as Hweeks.
  pose proof (generate_week_dates_shape _ _ Hweeks) as Hshape.
  unfold generate_pages_read_opt, generate_pages_read,
    generate_project_hours, generate_workouts.
  rewrite Hweeks. split; [|split].
  - destruct goal as [g|];
      apply (create_calendar_pdf_generated "Pages Read"); try reflexivity;
      now apply totals_page.
  - apply (create_calendar_pdf_generated "Project Hours"); [reflexivity|].
    now apply totals_page.
  - apply (create_calendar_pdf_generated "Workouts"); [reflexivity|].
    destruct labels as [[|l ls]|].
    + now apply plain_page_no_labels.
    + now apply plain_page_labels.
    + now apply plain_page_no_labels.
Qed.

(** Past the last start date every generator raises [OverflowError] and
    leaves the file system as it is. *)
Lemma generators_overflow start goal labels (fs : @file_system num) :
  valid_datetime start = true ->
  MAXORDINAL < toordinal start + 69 ->
  generate_pages_read_opt string_width SCRIPT_DIR start goal fs
  = (Raise OverflowError, fs)
  /\ generate_project_hours string_width SCRIPT_DIR start fs
     = (Raise OverflowError, fs)
  /\ generate_workouts string_width SCRIPT_DIR start labels fs
     = (Raise OverflowError, fs).
Proof.
  intros Hv Hmax.
  pose proof (generate_week_dates_overflow start Hv Hmax) as Hweeks.
  unfold generate_pages_read_opt, generate_pages_read,
    generate_project_hours, generate_workouts.
  rewrite Hweeks. now destruct goal.
Qed.

End GeneratorOutcomes.

(** ** [main]: what is asked for *)

Section Answers.

Local Open Scope string_scope.

(** The first answer a loop takes, and the ones it skips before. *)
Lemma first_answer (P : string -> bool) (lines : list string) :
  Forall (fun l => P l = false) lines
  \/ exists skipped line rest,
       lines = (skipped ++ line :: rest)%list
       /\ Forall (fun l => P l = false) skipped /\ P line = true.
Proof.
  induction lines as [|l lines IH]; [now left|].
  destruct (P l) eqn:El.
  - right. exists [], l, lines. auto.
  - destruct IH as [Hall|(skipped & line & rest & -> & Hs & Hl)].
    + left. now constructor.
    + right. exists (l :: skipped), line, rest. repeat split; auto.
Qed.

Lemma prompt_calendars_outcome c :
  match fst (prompt_calendars c) with
  | Returns calendars =>
      calendars <> [] /\ List.NoDup calendars
      /\ incl calendars CALENDAR_NAMES
      /\ exists l, In l (stdin c) /\ calendars = calendars_of l
  | Raises e => e = EOFError
  end.
Proof.
  unfold prompt_calendars.
  destruct (first_answer answers_calendars (stdin c))
    as [Hall|(skipped & line & rest & -> & Hs & Hl)].
  - destruct (prompt_calendars_loop_skips _ Hall (stdout c)) as [-> _].
    reflexivity.
  - destruct (prompt_calendars_loop_skips _ Hs (stdout c)) as [_ Hret].
    destruct (Hret line rest Hl) as [-> _].
    destruct (calendars_of_spec line Hl) as (Hne & Hnd & Hincl & _).
    repeat split; auto. exists line. split; [|reflexivity].
    apply in_app_iff. right. now left.
Qed.

Lemma goal_loop_outcome max_str_digits lines out :
  match fst (goal_loop max_str_digits lines out) with
  | Returns goal => (0 < goal)%Z
  | Raises e => e = EOFError
  end.
Proof.
  destruct (first_answer (answers_goal max_str_digits) lines)
    as [Hall|(skipped & line & rest & -> & Hs & Hl)].
  - destruct (goal_loop_skips _ _ Hall out) as [-> _]. reflexivity.
  - destruct (goal_loop_skips _ _ Hs out) as [_ Hret].
    unfold answers_goal in Hl.
    destruct (int_of_str max_str_digits (strip line)) as [goal|] eqn:Eint;
      [|discriminate].
    apply Z.ltb_lt in Hl.
    destruct (Hret line rest goal Eint Hl) as [-> _]. exact Hl.
Qed.

Lemma read_labels_outcome days : forall workout_labels lines out,
  match fst (read_labels days workout_labels lines out) with
  | Returns labels =>
      List.length labels
      = (List.length workout_labels + List.length days)%nat
  | Raises e => e = EOFError
  end.
Proof.
  induction days as [|day days IH]; intros workout_labels lines out.
  - cbn. lia.
  - cbn [read_labels]. destruct lines as [|line lines]; [reflexivity|].
    specialize (IH (workout_labels ++ [strip line])%list lines
                  (out ++ [("  " ++ day ++ ": ")%string])%list).
    destruct (fst (read_labels _ _ _ _)); [|exact IH].
    rewrite IH, length_app. cbn. lia.
Qed.

End Answers.

(** ** [main]: the answers and the generation *)

Section MainBlocks.

Context {num : Type} `{FloatOps num}.
Variable string_width : font -> string -> num.
Variable SCRIPT_DIR : string.

Local Open Scope string_scope.

Abbreviation ioM := (@ioM num).
Abbreviation world := (@world num).

Lemma io_bind_eq {A B} (m : ioM A) (k : A -> ioM B) (w : world) :
  (m ≫= k) w
  = match m w with
    | (Returns a, w') => k a w'
    | (Raises e, w') => (Raises e, w')
    end.
Proof. reflexivity. Qed.

Lemma on_console_eq {A} (f : console -> io_result A * console) c
    (fs : @file_system num) :
  on_console f (c, fs) = (fst (f c), (snd (f c), fs)).
Proof. unfold on_console. now destruct (f c). Qed.

Lemma io_print_eq s c (fs : @file_system num) :
  io_print s (c, fs)
  = (Returns (), (mk_console (stdin c) (print s (stdout c)), fs)).
Proof. reflexivity. Qed.

(** What [read_answers] hands over to the generation. *)
Definition answers_ok (today : datetime) (c : console)
    (r : io_result (datetime * list string * option Z * option (list string)))
  : Prop :=
  match r with
  | Returns (start, calendars, goal, labels) =>
      valid_datetime start = true /\ weekday start = 0
      /\ (get_next_monday today = Ok start
          \/ exists l, In l (stdin c) /\ validate_date (strip l) = Ok start)
      /\ calendars <> [] /\ List.NoDup calendars
      /\ incl calendars CALENDAR_NAMES
      /\ match goal with
         | Some g => In "Pages Read" calendars /\ (0 < g)%Z
         | None => ~ In "Pages Read" calendars
         end
      /\ match labels with
         | Some ls => In "Workouts" calendars /\ List.length ls = 7%nat
         | None => ~ In "Workouts" calendars
         end
  | Raises e => e = EOFError \/ e = Of_exn OverflowError
  end.

Lemma read_answers_spec zero_padded max_str_digits today c
    (fs : @file_system num) :
  valid_datetime today = true ->
  answers_ok today c
    (fst (read_answers zero_padded max_str_digits today (c, fs)))
  /\ snd (snd (read_answers zero_padded max_str_digits today (c, fs))) = fs.
Proof.
  intros Hv. unfold read_answers.
  rewrite io_bind_eq, io_print_eq. cbv beta iota.
  rewrite io_bind_eq, on_console_eq. cbv beta iota.
  match goal with
  | |- context [prompt_date _ _ ?c1] =>
      destruct (prompt_date_outcome zero_padded today c1 Hv) as [Hret Hraise];
      set (c2 := snd (prompt_date zero_padded today c1)) in *
  end.
  cbv zeta in Hret, Hraise.
  destruct (fst (prompt_date _ _ _)) as [start|e].
  2:{ split; [|reflexivity]. cbn [fst answers_ok].
      destruct (Hraise e eq_refl) as [->|(-> & _)]; auto. }
  destruct (Hret start eq_refl) as (Hvs & Hmon & Hfrom). clear Hret Hraise.
  cbn [stdin] in Hfrom.
  rewrite io_bind_eq, on_console_eq. cbv beta iota.
  pose proof (prompt_calendars_outcome c2) as Hcal.
  set (c3 := snd (prompt_calendars c2)) in *.
  destruct (fst (prompt_calendars c2)) as [calendars|e].
  2:{ split; [|reflexivity]. cbn [fst answers_ok]. now left. }
  destruct Hcal as (Hne & Hnd & Hincl & _).
  rewrite io_bind_eq.
  assert (Hgoal :
    exists r cg,
      (if list_in "Pages Read" calendars
       then on_console
              (fun c => goal_loop max_str_digits (stdin c) (stdout c))
            ≫= (fun goal => mret (Some goal))
       else mret None) (c3, fs) = (r, (cg, fs))
      /\ match r with
         | Returns (Some g) => In "Pages Read" calendars /\ (0 < g)%Z
         | Returns None => ~ In "Pages Read" calendars
         | Raises e => e = EOFError
         end).
  { destruct (list_in "Pages Read" calendars) eqn:Ein.
    - apply list_in_spec in Ein.
      rewrite io_bind_eq, on_console_eq.
      pose proof (goal_loop_outcome max_str_digits (stdin c3) (stdout c3))
        as Hg.
      destruct (fst (goal_loop _ _ _)) as [g|e]; cbv beta iota;
        eexists _, _; (split; [reflexivity|cbv beta iota; auto]).
    - eexists _, _. split; [reflexivity|].
      intros Hin. apply list_in_spec in Hin. congruence. }
  destruct Hgoal as (rg & cg & -> & Hg).
  destruct rg as [goal|e]; cbv beta iota.
  2:{ split; [|reflexivity]. cbn [fst answers_ok]. now left. }
  rewrite io_bind_eq.
  assert (Hlabels :
    exists r cl,
      (if list_in "Workouts" calendars
       then io_print
              (LF ++ "Enter workout labels for each day (these repeat every week):")
            ≫= (fun _ =>
                  on_console
                    (fun c => read_labels DAY_NAMES [] (stdin c) (stdout c))
                  ≫= (fun workout_labels => mret (Some workout_labels)))
       else mret None) (cg, fs) = (r, (cl, fs))
      /\ match r with
         | Returns (Some ls) =>
             In "Workouts" calendars /\ List.length ls = 7%nat
         | Returns None => ~ In "Workouts" calendars
         | Raises e => e = EOFError
         end).
  { destruct (list_in "Workouts" calendars) eqn:Ein.
    - apply list_in_spec in Ein.
      rewrite io_bind_eq, io_print_eq. cbv beta iota.
      rewrite io_bind_eq, on_console_eq.
      match goal with
      | |- context [read_labels ?d ?a ?l ?o] =>
          pose proof (read_labels_outcome d a l o) as Hl
      end.
      destruct (fst (read_labels _ _ _ _)) as [ls|e]; cbv beta iota;
        eexists _, _; (split; [reflexivity|cbv beta iota; auto]).
    - eexists _, _. split; [reflexivity|].
      intros Hin. apply list_in_spec in Hin. congruence. }
  destruct Hlabels as (rl & cl & -> & Hl).
  destruct rl as [labels|e]; cbv beta iota.
  2:{ split; [|reflexivity]. cbn [fst answers_ok]. now left. }
  split; [|reflexivity]. cbn [fst mret ioM_ret answers_ok].
  repeat (split; [assumption|]). exact Hl.
Qed.

(** One round of the loop over the calendars. *)
Definition generate_one (start_date : datetime) (goal : option Z)
    (workout_labels : option (list string)) (cal : string)
    (path : option string) : ioM (option string) :=
  path ←
    (if String.eqb cal "Pages Read" then
       p ← on_files
             (generate_pages_read_opt string_width SCRIPT_DIR start_date goal);
       mret (Some p)
     else if String.eqb cal "Project Hours" then
       p ← on_files
             (generate_project_hours string_width SCRIPT_DIR start_date);
       mret (Some p)
     else if String.eqb cal "Workouts" then
       p ← on_files
             (generate_workouts string_width SCRIPT_DIR start_date
                workout_labels);
       mret (Some p)
     else mret path);
  match path with
  | Some p => _ ← io_print ("  Created: " ++ p); mret path
  | None => io_raise UnboundLocalError
  end.

Lemma generate_selected_eq start_date calendars goal workout_labels :
  generate_selected string_width SCRIPT_DIR start_date calendars goal
    workout_labels
  = (_ ← io_print (LF ++ "Generating calendars...");
     _ ← io_for_each calendars
           (generate_one start_date goal workout_labels) None;
     io_print (LF ++ "Done!")).
Proof. reflexivity. Qed.

(** The generator called for each of the three names. *)
Definition generator_of (start_date : datetime) (goal : option Z)
    (workout_labels : option (list string)) (cal : string)
  : @file_system num -> result string * @file_system num :=
  if String.eqb cal "Pages Read" then
    generate_pages_read_opt string_width SCRIPT_DIR start_date goal
  else if String.eqb cal "Project Hours" then
    generate_project_hours string_width SCRIPT_DIR start_date
  else generate_workouts string_width SCRIPT_DIR start_date workout_labels.

Lemma generate_one_eq start_date goal workout_labels cal path w :
  In cal CALENDAR_NAMES ->
  generate_one start_date goal workout_labels cal path w
  = match on_files (generator_of start_date goal workout_labels cal) w with
    | (Returns p, (c, fs)) =>
        (Returns (Some p),
         (mk_console (stdin c) (print ("  Created: " ++ p) (stdout c)), fs))
    | (Raises e, w') => (Raises e, w')
    end.
Proof.
  intros [<-|[<-|[<-|[]]]]; unfold generate_one, generator_of;
    cbn [String.eqb Ascii.eqb Bool.eqb]; rewrite !io_bind_eq;
    match goal with
    | |- context [on_files ?f w] => destruct (on_files f w) as [[p|e] [c fs]]
    end; reflexivity.
Qed.

Definition labels_fit (labels : option (list string)) : Prop :=
  match labels with
  | Some (l :: ls) => (7 <= List.length (l :: ls))%nat
  | _ => True
  end.

Lemma generator_of_generated start goal labels cal (fs : @file_system num) :
  valid_datetime start = true ->
  toordinal start + 69 <= MAXORDINAL ->
  labels_fit labels ->
  In cal CALENDAR_NAMES ->
  generated SCRIPT_DIR cal fs (generator_of start goal labels cal fs).
Proof.
  intros Hv Hmax Hfit Hin.
  destruct (generators_generated string_width SCRIPT_DIR start goal labels fs
              Hv Hmax Hfit) as (H1 & H2 & H3).
  destruct Hin as [<-|[<-|[<-|[]]]]; assumption.
Qed.

Lemma generator_of_overflow start goal labels cal (fs : @file_system num) :
  valid_datetime start = true ->
  MAXORDINAL < toordinal start + 69 ->
  In cal CALENDAR_NAMES ->
  generator_of start goal labels cal fs = (Raise OverflowError, fs).
Proof.
  intros Hv Hmax Hin.
  destruct (generators_overflow string_width SCRIPT_DIR start goal labels fs
              Hv Hmax) as (H1 & H2 & H3).
  destruct Hin as [<-|[<-|[<-|[]]]]; assumption.
Qed.

Lemma string_app_inv_head (s a b : string) : s ++ a = s ++ b -> a = b.
Proof.
  induction s as [|ch s IH]; [now rewrite !append_nil_l|].
  rewrite !append_cons. intros [= Heq]. auto.
Qed.

Lemma calendar_path_eq name :
  In name CALENDAR_NAMES ->
  calendar_path SCRIPT_DIR name
  = OUTPUT_DIR SCRIPT_DIR ++ "/" ++ name ++ ".pdf".
Proof.
  intros Hin. unfold calendar_path.
  change (path_join SCRIPT_DIR "output") with (OUTPUT_DIR SCRIPT_DIR).
  apply path_join_OUTPUT_DIR.
  destruct Hin as [<-|[<-|[<-|[]]]]; reflexivity.
Qed.

Lemma calendar_path_inj a b :
  In a CALENDAR_NAMES -> In b CALENDAR_NAMES ->
  calendar_path SCRIPT_DIR a = calendar_path SCRIPT_DIR b -> a = b.
Proof.
  intros Ha Hb. rewrite !calendar_path_eq by assumption. intros Heq.
  apply string_app_inv_head in Heq.
  destruct Ha as [<-|[<-|[<-|[]]]], Hb as [<-|[<-|[<-|[]]]];
    try reflexivity; vm_compute in Heq; discriminate.
Qed.

Lemma calendar_path_fresh name :
  In name CALENDAR_NAMES ->
  calendar_path SCRIPT_DIR name <> OUTPUT_DIR SCRIPT_DIR.
Proof.
  intros Hin. rewrite calendar_path_eq by exact Hin.
  apply output_path_fresh.
Qed.

(** What the calendars generated so far have left in the file system. *)
Definition calendars_made (calendars : list string)
    (fs fs' : @file_system num) : Prop :=
  (forall name,
     In name calendars ->
     exists doc, fs' !! calendar_path SCRIPT_DIR name = Some (File doc))
  /\ (forall q,
        q <> OUTPUT_DIR SCRIPT_DIR ->
        (forall name, In name calendars ->
                      q <> calendar_path SCRIPT_DIR name) ->
        fs' !! q = fs !! q)
  /\ (calendars <> [] \/ fs !! OUTPUT_DIR SCRIPT_DIR = Some Dir ->
      fs' !! OUTPUT_DIR SCRIPT_DIR = Some Dir).

Definition file_system_exn (e : io_exn) : Prop :=
  e = Of_exn FileExistsError \/ e = Of_exn IsADirectoryError.

Lemma generate_loop_spec start goal labels :
  valid_datetime start = true ->
  toordinal start + 69 <= MAXORDINAL ->
  labels_fit labels ->
  forall calendars,
    List.NoDup calendars -> incl calendars CALENDAR_NAMES ->
    forall path c (fs : @file_system num),
      let r := io_for_each calendars (generate_one start goal labels) path
                 (c, fs) in
      match fst r with
      | Returns _ =>
          calendars_made calendars fs (snd (snd r))
          /\ stdin (fst (snd r)) = stdin c
      | Raises e => file_system_exn e
      end.
Proof.
  intros Hv Hmax Hfit. induction calendars as [|cal rest IH];
    intros Hnd Hincl path c fs; cbv zeta.
  - cbn. repeat split; auto.
    + intros name [].
    + intros [Hne|Hd]; [now contradiction Hne|exact Hd].
  - inversion Hnd as [|? ? Hnotin Hnd']; subst.
    assert (Hcal : In cal CALENDAR_NAMES) by (apply Hincl; now left).
    assert (Hrest : incl rest CALENDAR_NAMES)
      by (intros x Hx; apply Hincl; now right).
    cbn [io_for_each]. rewrite io_bind_eq, generate_one_eq by exact Hcal.
    pose proof (generator_of_generated start goal labels cal fs Hv Hmax Hfit
                  Hcal) as Hgen.
    unfold on_files. unfold generated in Hgen.
    destruct (generator_of start goal labels cal fs) as [[p|e] fs1];
      cbn [fst snd] in Hgen.
    2:{ cbn [fst]. destruct Hgen as [[->| ->] _]; [now left|now right]. }
    destruct Hgen as (-> & Hdir & [doc Hdoc] & Hframe).
    match goal with
    | |- context [io_for_each rest _ ?p (?c1, fs1)] =>
        specialize (IH Hnd' Hrest p c1 fs1); cbv zeta in IH;
        destruct (io_for_each rest (generate_one start goal labels) p
                    (c1, fs1)) as [[u|e] [c' fs']]
    end; cbn [fst snd] in *; [|exact IH].
    destruct IH as ((Hmade & Hfr & Hd) & Hin). split; [|exact Hin].
    split; [|split].
    + intros name [<-|Hname]; [|now apply Hmade].
      exists doc. rewrite Hfr; [exact Hdoc|now apply calendar_path_fresh|].
      intros name Hname Heq. apply calendar_path_inj in Heq; auto.
      now subst.
    + intros q Hq Hpaths. rewrite Hfr.
      * apply Hframe; [exact Hq|]. apply Hpaths. now left.
      * exact Hq.
      * intros name Hname. apply Hpaths. now right.
    + intros _. apply Hd. now right.
Qed.

Lemma generate_loop_overflow start goal labels cal rest path c
    (fs : @file_system num) :
  valid_datetime start = true ->
  MAXORDINAL < toordinal start + 69 ->
  In cal CALENDAR_NAMES ->
  io_for_each (cal :: rest) (generate_one start goal labels) path (c, fs)
  = (Raises (Of_exn OverflowError), (c, fs)).
Proof.
  intros Hv Hmax Hcal. cbn [io_for_each].
  rewrite io_bind_eq, generate_one_eq by exact Hcal.
  unfold on_files. now rewrite generator_of_overflow.
Qed.

(** The generation, for answers as [read_answers] hands them over. *)
Lemma generate_selected_spec start calendars goal labels c
    (fs : @file_system num) :
  valid_datetime start = true ->
  calendars <> [] -> List.NoDup calendars ->
  incl calendars CALENDAR_NAMES ->
  labels_fit labels ->
  let r := generate_selected string_width SCRIPT_DIR start calendars goal
             labels (c, fs) in
  match fst r with
  | Returns _ =>
      toordinal start + 69 <= MAXORDINAL
      /\ calendars_made calendars fs (snd (snd r))
      /\ stdin (fst (snd r)) = stdin c
      /\ last (stdout (fst (snd r))) "" = LF ++ "Done!" ++ LF
  | Raises e => e = Of_exn OverflowError \/ file_system_exn e
  end.
Proof.
  intros Hv Hne Hnd Hincl Hfit. cbv zeta.
  rewrite generate_selected_eq, io_bind_eq, io_print_eq. cbv beta iota.
  rewrite io_bind_eq.
  destruct (Z_le_gt_dec (toordinal start + 69) MAXORDINAL) as [Hmax|Hmax].
  - match goal with
    | |- context [io_for_each calendars _ ?p (?c1, fs)] =>
        pose proof (generate_loop_spec start goal labels Hv Hmax Hfit
                      calendars Hnd Hincl p c1 fs) as Hloop;
        cbv zeta in Hloop;
        destruct (io_for_each calendars (generate_one start goal labels) p
                    (c1, fs)) as [[u|e] [c' fs']]
    end; cbn [fst snd] in *; [|now right].
    destruct Hloop as [Hmade Hin].
    rewrite io_print_eq. cbn [fst snd stdin stdout].
    split; [exact Hmax|]. split; [exact Hmade|]. split; [exact Hin|].
    unfold print. rewrite last_last. now rewrite append_assoc.
  - destruct calendars as [|cal rest]; [contradiction|].
    rewrite generate_loop_overflow; [now left|exact Hv|lia|].
    apply Hincl. now left.
Qed.

End MainBlocks.

(** ** [main], from the first question to the last file *)

Section MainTheorems.

Context {num : Type} `{FloatOps num}.
Variable string_width : font -> string -> num.
Variable SCRIPT_DIR : string.

Local Open Scope string_scope.

Lemma main_eq zero_padded max_str_digits today (w : @world num) :
  main string_width SCRIPT_DIR zero_padded max_str_digits today w
  = match read_answers zero_padded max_str_digits today w with
    | (Returns (start_date, calendars, goal, workout_labels), w') =>
        generate_selected string_width SCRIPT_DIR start_date calendars goal
          workout_labels w'
    | (Raises e, w') => (Raises e, w')
    end.
Proof.
  unfold main. rewrite io_bind_eq.
  now destruct (read_answers _ _ _ w) as [[[[[s cs] g] ls]|e] w'].
Qed.

Lemma answers_labels_fit (calendars : list string)
    (labels : option (list string)) :
  match labels with
  | Some ls => In "Workouts" calendars /\ List.length ls = 7%nat
  | None => ~ In "Workouts" calendars
  end ->
  labels_fit labels.
Proof.
  destruct labels as [[|l ls]|]; cbn; try tauto. intros [_ Hlen]. lia.
Qed.

(** The two blocks of [main], put together. *)
Lemma main_spec zero_padded max_str_digits today c (fs : @file_system num) :
  valid_datetime today = true ->
  let r := main string_width SCRIPT_DIR zero_padded max_str_digits today
             (c, fs) in
  match fst r with
  | Returns _ =>
      exists start calendars goal labels,
        fst (read_answers zero_padded max_str_digits today (c, fs))
        = Returns (start, calendars, goal, labels)
        /\ answers_ok today c (Returns (start, calendars, goal, labels))
        /\ toordinal start + 69 <= MAXORDINAL
        /\ calendars_made SCRIPT_DIR calendars fs (snd (snd r))
        /\ last (stdout (fst (snd r))) "" = LF ++ "Done!" ++ LF
  | Raises e =>
      (e = EOFError /\ snd (snd r) = fs)
      \/ e = Of_exn OverflowError \/ file_system_exn e
  end.
Proof.
  intros Hv. cbv zeta. rewrite main_eq.
  destruct (read_answers_spec zero_padded max_str_digits today c fs Hv)
    as [Hans Hfs].
  destruct (read_answers zero_padded max_str_digits today (c, fs))
    as [[[[[start calendars] goal] labels]|e] [c1 fs1]];
    cbn [fst snd] in Hans, Hfs; subst fs1.
  - pose proof Hans as (Hvs & Hmon & _ & Hne & Hnd & Hincl & _ & Hl).
    pose proof (generate_selected_spec string_width SCRIPT_DIR start
                  calendars goal labels c1 fs Hvs Hne Hnd Hincl
                  (answers_labels_fit _ _ Hl)) as Hgen.
    cbv zeta in Hgen.
    destruct (generate_selected _ _ _ _ _ _ _) as [[u|e] [c' fs']];
      cbn [fst snd] in *.
    + destruct Hgen as (Hmax & Hmade & _ & Hlast).
      exists start, calendars, goal, labels. auto.
    + destruct Hgen as [->|Hfs]; auto.
  - cbn [fst snd]. destruct Hans as [->| ->]; auto.
Qed.


(** X13. A run of [main] that returns has written every calendar selected. The
    start date it used is a Monday with ten weeks ahead of it, either the
    next Monday or a date typed in; the calendars are a selection without
    repetition from the three names; the goal that went into the Pages Read
    calendar is above zero and the workout labels are seven. Afterwards the
    output directory exists, the file of every selected calendar is in it,
    no other path has changed, and the last line written is [Done!]. *)
Theorem main_writes_the_selected_calendars (zero_padded : bool)
    (max_str_digits : nat) (today : datetime) (c : console)
    (fs : @file_system num) :
  valid_datetime today = true ->
  let r := main string_width SCRIPT_DIR zero_padded max_str_digits today
             (c, fs) in
  fst r = Returns () ->
  exists start calendars goal labels,
    fst (read_answers zero_padded max_str_digits today (c, fs))
    = Returns (start, calendars, goal, labels)
    /\ valid_datetime start = true /\ weekday start = 0
    /\ toordinal start + 69 <= MAXORDINAL
    /\ (get_next_monday today = Ok start
        \/ exists l, In l (stdin c) /\ validate_date (strip l) = Ok start)
    /\ calendars <> [] /\ List.NoDup calendars
    /\ incl calendars CALENDAR_NAMES
    /\ (In "Pages Read" calendars -> exists g, goal = Some g /\ (0 < g)%Z)
    /\ (In "Workouts" calendars ->
        exists ls, labels = Some ls /\ List.length ls = 7%nat)
    /\ snd (snd r) !! OUTPUT_DIR SCRIPT_DIR = Some Dir
    /\ (forall name,
          In name calendars ->
          exists doc,
            snd (snd r) !! calendar_path SCRIPT_DIR name = Some (File doc))
    /\ (forall q,
          q <> OUTPUT_DIR SCRIPT_DIR ->
          (forall name, In name calendars ->
                        q <> calendar_path SCRIPT_DIR name) ->
          snd (snd r) !! q = fs !! q)
    /\ last (stdout (fst (snd r))) "" = LF ++ "Done!" ++ LF.
Proof.
  intros Hv r Hret. subst r.
  pose proof (main_spec zero_padded max_str_digits today c fs Hv) as Hmain.
  cbv zeta in Hmain. rewrite Hret in Hmain.
  destruct Hmain
    as (start & calendars & goal & labels & Hans & Hok & Hmax & Hmade & Hlast).
  destruct Hok as (Hvs & Hmon & Hfrom & Hne & Hnd & Hincl & Hg & Hl).
  destruct Hmade as (Hfiles & Hframe & Hdir).
  exists start, calendars, goal, labels.
  repeat (split; [assumption|]).
  split.
  { intros Hin. destruct goal as [g|]; [|contradiction].
    exists g. split; [reflexivity|apply Hg]. }
  split.
  { intros Hin. destruct labels as [ls|]; [|contradiction].
    exists ls. split; [reflexivity|apply Hl]. }
  split; [apply Hdir; now left|].
  repeat (split; [assumption|]). exact Hlast.
Qed.

End MainTheorems.


Lemma main_writes_the_selected_calendars_witness :
  (exists doc,
     snd (snd (main demo_string_width demo_dir false 4300
                 (mk_datetime 2026 11 4 10 30 0 0)
                 (mk_console demo_session [], ∅)))
     !! "/home/reader/accountability-calendars/output/Workouts.pdf"%string
     = Some (File doc))
  /\ stdin (fst (snd (main demo_string_width demo_dir false 4300
                        (mk_datetime 2026 11 4 10 30 0 0)
                        (mk_console demo_session [], ∅))))
     = ["left over"%string].
Proof.
  assert (Hr : fst (main demo_string_width demo_dir false 4300
                      (mk_datetime 2026 11 4 10 30 0 0)
                      (mk_console demo_session [], ∅))
               = Returns ()) by (vm_compute; reflexivity).
  destruct (main_writes_the_selected_calendars demo_string_width demo_dir
              false 4300 (mk_datetime 2026 11 4 10 30 0 0)
              (mk_console demo_session []) ∅ eq_refl Hr)
    as (start & calendars & goal & labels & Hans & _ & _ & _ & _ & _ & _ & _
        & _ & _ & _ & Hfiles & _).
  assert (Hcal : calendars = ["Workouts"; "Pages Read"]%string).
  { vm_compute in Hans. now injection Hans as _ <- _ _. }
  split; [|vm_compute; reflexivity].
  apply (Hfiles "Workouts"%string). rewrite Hcal. now left.
Defined.
